(** * NERIST One backend: a shallow embedding of [nerist_backend.js]

    The development follows the class [NERISTBackend]: the IndexedDB object
    stores become key-ordered lists, every [async] method becomes a
    computation in a state-and-exception monad over the whole backend state,
    and the values the host supplies (clock, random source, user agent)
    are explicit inputs of each call. *)

From Stdlib Require Import String Ascii ZArith NArith List Bool Lia.
From Stdlib Require Import Floats DecimalString Permutation Sorted.
Import ListNotations.
#[local] Set Warnings "-inexact-float".
Local Open Scope Z_scope.

(** ** JavaScript strings

    A JavaScript string is a sequence of UTF-16 code units.  Code units are
    kept as numbers so that strings outside Latin-1, on which [btoa] raises,
    are part of the model. *)

Definition jsstring := list N.

Definition js (s : string) : jsstring :=
  map N_of_ascii (list_ascii_of_string s).

Fixpoint streq (a b : jsstring) : bool :=
  match a, b with
  | [], [] => true
  | x :: a', y :: b' => N.eqb x y && streq a' b'
  | _, _ => false
  end.

(** Code-unit order, the order IndexedDB gives to string keys. *)
Fixpoint strcmp (a b : jsstring) : comparison :=
  match a, b with
  | [], [] => Eq
  | [], _ :: _ => Lt
  | _ :: _, [] => Gt
  | x :: a', y :: b' =>
      match N.compare x y with
      | Eq => strcmp a' b'
      | c => c
      end
  end.

(** A string is truthy when it is not empty. *)
Definition truthy (s : jsstring) : bool :=
  match s with [] => false | _ :: _ => true end.

(** [a || b] on strings. *)
Definition or_else (a b : jsstring) : jsstring :=
  if truthy a then a else b.

Definition latin1 (s : jsstring) : bool :=
  forallb (fun c => N.ltb c 256) s.

(** [String(n)] for an integer [n]. *)
Definition dec (z : Z) : jsstring :=
  js (NilZero.string_of_int (Z.to_int z)).

(** ** [btoa]: base64 of a Latin-1 string, [InvalidCharacterError] otherwise *)

Definition b64char (n : N) : N :=
  (if n <? 26 then 65 + n
   else if n <? 52 then 97 + (n - 26)
   else if n <? 62 then 48 + (n - 52)
   else if n =? 62 then 43 else 47)%N.

Definition pad : N := 61%N.

Fixpoint btoa_units (l : jsstring) : jsstring :=
  match l with
  | [] => []
  | [a] =>
      [b64char (a / 4); b64char ((a mod 4) * 16); pad; pad]%N
  | [a; b] =>
      [b64char (a / 4); b64char ((a mod 4) * 16 + b / 16);
       b64char ((b mod 16) * 4); pad]%N
  | a :: b :: c :: rest =>
      [b64char (a / 4); b64char ((a mod 4) * 16 + b / 16);
       b64char ((b mod 16) * 4 + c / 64); b64char (c mod 64)]%N
      ++ btoa_units rest
  end.

Definition btoa (s : jsstring) : option jsstring :=
  if latin1 s then Some (btoa_units s) else None.

(** [hashPassword(password)]: [btoa(password + 'nerist_salt')]. *)
Definition hashPassword (password : jsstring) : option jsstring :=
  btoa (password ++ js "nerist_salt").

(** ** Numbers

    Fractional arithmetic is binary64, as in JavaScript.  Lengths, counters
    and generated keys are integers and are kept in [Z] (they are exact in
    binary64 below 2^53). *)

Definition of_Z (z : Z) : float :=
  SF2Prim (binary_normalize prec emax z 0 false).

(** The exact value of a finite double, as [num / den] with [den > 0]. *)
Definition exact_fraction (m : positive) (e : Z) : Z * Z :=
  if 0 <=? e then (Zpos m * 2 ^ e, 1) else (Zpos m, 2 ^ (- e)).

(** [floor (num / den + 1/2)]: of the two nearest integers the larger. *)
Definition round_half_up (num den : Z) : Z :=
  (2 * num + den) / (2 * den).

(** The text printed by [Number.prototype.toFixed], by the numeral it
    spells: [Decimal neg n f] is [n / 10^f] written with [f] fraction
    digits and a leading [-] when [neg]. *)
Inductive numeral :=
| Decimal (negative : bool) (digits : Z) (places : Z)
| NaN_text
| Infinity_text (negative : bool)
| Exponent_text (x : float).

Definition toFixed (places : Z) (x : float) : numeral :=
  match Prim2SF x with
  | S754_nan => NaN_text
  | S754_infinity s => Infinity_text s
  | S754_zero _ => Decimal false 0 places
  | S754_finite s m e =>
      let (num, den) := exact_fraction m e in
      if 10 ^ 21 * den <=? num then Exponent_text x
      else Decimal s (round_half_up (num * 10 ^ places) den) places
  end.

(** [parseFloat] of such a text: the double nearest to the numeral. *)
Definition parseFloat (t : numeral) : float :=
  match t with
  | Decimal neg n f =>
      match n with
      | Zpos d =>
          SF2Prim (SFdiv prec emax (S754_finite neg d 0)
                     (S754_finite false (Z.to_pos (10 ^ f)) 0))
      | _ => if neg then (-0)%float else 0%float
      end
  | NaN_text => nan
  | Infinity_text neg => if neg then neg_infinity else infinity
  | Exponent_text x => x
  end.

(** [Math.round]: the nearest integer, the larger one at a tie; values in
    [[-0.5, 0)] give [-0]. *)
Definition Math_round (x : float) : float :=
  match Prim2SF x with
  | S754_finite s m e =>
      if 0 <=? e then x
      else
        let (num, den) := exact_fraction m e in
        let n := round_half_up (if s then - num else num) den in
        if n =? 0 then (if s then (-0)%float else 0%float) else of_Z n
  | _ => x
  end.

(** ** Errors and outcomes *)

Inductive error :=
| Error (message : string)
| InvalidCharacterError
| ConstraintError.

Inductive outcome (A : Type) :=
| Ok (a : A)
| Throw (e : error).
Arguments Ok {A} a.
Arguments Throw {A} e.

(** ** Object stores

    A store is the list of its records in ascending key order. [cmp] is the
    order of the keys. *)

Section KeyedStore.
Context {R K : Type} (key : R -> K) (cmp : K -> K -> comparison).

Definition has_key (k : K) (r : R) : bool :=
  match cmp (key r) k with Eq => true | _ => false end.

Definition store_get (s : list R) (k : K) : option R :=
  find (has_key k) s.

Fixpoint store_put (r : R) (s : list R) : list R :=
  match s with
  | [] => [r]
  | x :: s' =>
      match cmp (key r) (key x) with
      | Lt => r :: x :: s'
      | Eq => r :: s'
      | Gt => x :: store_put r s'
      end
  end.

Definition key_lt (a b : R) : Prop := cmp (key a) (key b) = Lt.

(** Keys are unique and ascending. *)
Definition store_wf (s : list R) : Prop := StronglySorted key_lt s.
End KeyedStore.

(** A store with [autoIncrement]: the rows and the key generator. *)
Record AutoStore (R : Type) := {
  rows : list R;
  generator : Z
}.
Arguments rows {R} _.
Arguments generator {R} _.

Section AutoIncrement.
Context {R : Type} (key : R -> Z).

(** [put] of a record without key: the generator supplies it. *)
Definition auto_add (mk : Z -> R) (st : AutoStore R) : Z * AutoStore R :=
  let k := generator st in
  (k, {| rows := store_put key Z.compare (mk k) (rows st);
         generator := k + 1 |}).

(** [put] of a record that carries its key. *)
Definition auto_put (r : R) (st : AutoStore R) : AutoStore R :=
  {| rows := store_put key Z.compare r (rows st);
     generator := Z.max (generator st) (key r + 1) |}.

Definition auto_wf (st : AutoStore R) : Prop :=
  store_wf key Z.compare (rows st) /\
  Forall (fun r => key r < generator st) (rows st).
End AutoIncrement.

(** [Array.prototype.sort(compare)] is stable; [le a b] stands for
    [compare(a, b) <= 0]. *)
Section Sort.
Context {R : Type} (le : R -> R -> bool).

Fixpoint insert_sorted (x : R) (l : list R) : list R :=
  match l with
  | [] => [x]
  | y :: l' => if le x y then x :: y :: l' else y :: insert_sorted x l'
  end.

Definition sort_by (l : list R) : list R := fold_right insert_sorted [] l.
End Sort.

(** [index.getAll(query)] on a string-valued index: with a truthy query
    the records whose indexed field equals it, in key order; [getAllObjects]
    drops a falsy query and then returns every record in index order. *)
Definition index_le {R} (field : R -> jsstring) (a b : R) : bool :=
  match strcmp (field a) (field b) with Gt => false | _ => true end.

Definition getAllObjects_index {R} (field : R -> jsstring)
    (query : jsstring) (s : list R) : list R :=
  if truthy query then filter (fun r => streq (field r) query) s
  else sort_by (index_le field) s.

(** ** Records *)

Record EmailPreferences := {
  pref_attendance : bool;
  pref_mess : bool;
  pref_career : bool;
  pref_alerts : bool
}.

Record NotificationSettings := {
  pushEnabled : bool;
  soundEnabled : bool;
  vibrationEnabled : bool
}.

(** A user without the [password] property, the [...userWithoutPassword]
    of the source. *)
Record PublicUser := {
  u_id : jsstring;
  u_username : jsstring;
  u_email : jsstring;
  u_name : jsstring;
  u_role : jsstring;
  u_department : jsstring;
  u_year : jsstring;
  u_avatarColor : jsstring;
  u_emailPreferences : EmailPreferences;
  u_notificationSettings : NotificationSettings;
  u_createdAt : jsstring;
  u_lastLogin : option jsstring;
  u_isActive : bool
}.

Record User := {
  password : jsstring;
  public : PublicUser
}.

(** The argument of [registerUser]; an absent string property is [[]]. *)
Record UserData := {
  d_username : jsstring;
  d_password : jsstring;
  d_email : jsstring;
  d_role : jsstring;
  d_name : jsstring;
  d_department : jsstring;
  d_year : jsstring;
  d_avatarColor : jsstring;
  d_emailPreferences : option EmailPreferences;
  d_notificationSettings : option NotificationSettings
}.

(** The argument of [updateUserProfile]: [None] is an absent property. *)
Record Updates := {
  upd_id : option jsstring;
  upd_username : option jsstring;
  upd_role : option jsstring;
  upd_createdAt : option jsstring;
  upd_password : option jsstring;
  upd_email : option jsstring;
  upd_name : option jsstring;
  upd_department : option jsstring;
  upd_year : option jsstring;
  upd_avatarColor : option jsstring;
  upd_emailPreferences : option EmailPreferences;
  upd_notificationSettings : option NotificationSettings;
  upd_lastLogin : option (option jsstring);
  upd_isActive : option bool
}.

Record Session := {
  s_userId : jsstring;
  s_username : jsstring;
  s_role : jsstring;
  s_token : jsstring;
  s_createdAt : jsstring;
  s_expiresAt : Z
}.

(** Dates.  A timestamp that is only stored is the text that
    [toISOString()] gave.  A date that the code reads back with
    [new Date(...)] is kept as the instant it denotes, in milliseconds:
    as a [Z] where the code itself wrote it ([createdAt] of an alert, the
    [timestamp] of a log entry, the [date] of an attendance record), and
    as a [datefield] where it comes from the caller and may be absent or
    empty, or not parseable. *)
Inductive datefield :=
| NoDate
| BadDate
| Date (ms : Z).

Record Attendance := {
  at_id : Z;
  at_studentId : jsstring;
  at_date : Z;
  at_subject : jsstring;
  at_status : jsstring;
  at_time : jsstring;
  at_markedBy : jsstring;
  at_timestamp : jsstring;
  at_semester : jsstring;
  at_branch : jsstring;
  at_remarks : jsstring
}.

Record Booking := {
  b_studentId : jsstring;
  b_bookedAt : jsstring
}.

Record Feedback := {
  f_studentId : jsstring;
  f_rating : float;
  f_comment : jsstring;
  f_submittedAt : jsstring
}.

Record Menu := {
  m_id : jsstring;
  m_date : jsstring;
  m_mealType : jsstring;
  m_items : list jsstring;
  m_predictedDemand : Z;
  m_active : bool;
  m_createdBy : jsstring;
  m_createdAt : jsstring;
  m_updatedAt : jsstring;
  m_bookings : list Booking;
  m_feedback : list Feedback;
  m_bookedCount : option Z;
  m_averageRating : option numeral
}.

Record MealBooking := {
  mb_id : jsstring;
  mb_date : jsstring;
  mb_mealType : jsstring;
  mb_studentId : jsstring;
  mb_bookedAt : jsstring
}.

Record Opportunity := {
  o_id : Z;
  o_title : jsstring;
  o_type : jsstring;
  o_deadline : datefield;
  o_status : jsstring;
  o_eligibleDepartments : option (list jsstring);
  o_applicants : Z;
  o_views : Z;
  o_createdAt : jsstring;
  o_createdBy : jsstring
}.

Record Application := {
  a_id : Z;
  a_studentId : jsstring;
  a_studentName : jsstring;
  a_opportunityId : Z;
  a_opportunityTitle : jsstring;
  a_appliedDate : jsstring;
  a_status : jsstring;
  a_studentData : jsstring;
  a_lastUpdated : jsstring
}.

Record Subject := {
  sub_name : jsstring;
  sub_grade : option jsstring;
  sub_credits : option float
}.

(** [r_published] stands for the stored properties that
    [getStudentResults] does not read ([sgpa], [creditsEarned],
    [totalCredits], [publishedDate], [publishedBy], [lastUpdated]). *)
Record Result := {
  r_id : jsstring;
  r_studentId : jsstring;
  r_semester : Z;
  r_subjects : option (list Subject);
  r_published : jsstring
}.

(** [al_data] stands for the properties spread from [alertData]
    (title, message, ...). *)
Record Alert := {
  al_id : Z;
  al_data : jsstring;
  al_priority : jsstring;
  al_expiry : datefield;
  al_isActive : bool;
  al_views : Z;
  al_createdAt : Z;
  al_createdBy : jsstring
}.

Record Setting := {
  set_key : jsstring;
  set_value : jsstring;
  set_updatedAt : jsstring
}.

Record LogEntry := {
  l_id : Z;
  l_userId : jsstring;
  l_action : jsstring;
  l_details : jsstring;
  l_timestamp : Z;
  l_ip : jsstring;
  l_userAgent : jsstring
}.

(** ** The backend: the object stores of [createObjectStores], the
    [currentUser] property and the two [localStorage] items. *)

Record Backend := {
  users : list User;
  attendance : AutoStore Attendance;
  messMenu : list Menu;
  mealBookings : list MealBooking;
  careerOpportunities : AutoStore Opportunity;
  studentApplications : AutoStore Application;
  results : list Result;
  campusAlerts : AutoStore Alert;
  systemSettings : list Setting;
  activityLog : AutoStore LogEntry;
  currentUser : option PublicUser;
  nerist_session : option Session;
  nerist_token : option jsstring
}.

(** What the host supplies to one call: [Date.now()], the text of
    [new Date().toISOString()], the digits of
    [Math.random().toString(36)] after the point, [navigator.userAgent].
    One call reads the clock at one instant. *)
Record Env := {
  now : Z;
  nowISO : jsstring;
  random36 : string;
  userAgent : jsstring
}.

(** ** State updates *)

Definition set_users (v : list User) (b : Backend) : Backend :=
  {| users := v;
     attendance := attendance b;
     messMenu := messMenu b;
     mealBookings := mealBookings b;
     careerOpportunities := careerOpportunities b;
     studentApplications := studentApplications b;
     results := results b;
     campusAlerts := campusAlerts b;
     systemSettings := systemSettings b;
     activityLog := activityLog b;
     currentUser := currentUser b;
     nerist_session := nerist_session b;
     nerist_token := nerist_token b |}.

Definition set_attendance (v : AutoStore Attendance) (b : Backend) : Backend :=
  {| users := users b;
     attendance := v;
     messMenu := messMenu b;
     mealBookings := mealBookings b;
     careerOpportunities := careerOpportunities b;
     studentApplications := studentApplications b;
     results := results b;
     campusAlerts := campusAlerts b;
     systemSettings := systemSettings b;
     activityLog := activityLog b;
     currentUser := currentUser b;
     nerist_session := nerist_session b;
     nerist_token := nerist_token b |}.

Definition set_messMenu (v : list Menu) (b : Backend) : Backend :=
  {| users := users b;
     attendance := attendance b;
     messMenu := v;
     mealBookings := mealBookings b;
     careerOpportunities := careerOpportunities b;
     studentApplications := studentApplications b;
     results := results b;
     campusAlerts := campusAlerts b;
     systemSettings := systemSettings b;
     activityLog := activityLog b;
     currentUser := currentUser b;
     nerist_session := nerist_session b;
     nerist_token := nerist_token b |}.

Definition set_mealBookings (v : list MealBooking) (b : Backend) : Backend :=
  {| users := users b;
     attendance := attendance b;
     messMenu := messMenu b;
     mealBookings := v;
     careerOpportunities := careerOpportunities b;
     studentApplications := studentApplications b;
     results := results b;
     campusAlerts := campusAlerts b;
     systemSettings := systemSettings b;
     activityLog := activityLog b;
     currentUser := currentUser b;
     nerist_session := nerist_session b;
     nerist_token := nerist_token b |}.

Definition set_careerOpportunities (v : AutoStore Opportunity) (b : Backend)
  : Backend :=
  {| users := users b;
     attendance := attendance b;
     messMenu := messMenu b;
     mealBookings := mealBookings b;
     careerOpportunities := v;
     studentApplications := studentApplications b;
     results := results b;
     campusAlerts := campusAlerts b;
     systemSettings := systemSettings b;
     activityLog := activityLog b;
     currentUser := currentUser b;
     nerist_session := nerist_session b;
     nerist_token := nerist_token b |}.

Definition set_studentApplications (v : AutoStore Application) (b : Backend)
  : Backend :=
  {| users := users b;
     attendance := attendance b;
     messMenu := messMenu b;
     mealBookings := mealBookings b;
     careerOpportunities := careerOpportunities b;
     studentApplications := v;
     results := results b;
     campusAlerts := campusAlerts b;
     systemSettings := systemSettings b;
     activityLog := activityLog b;
     currentUser := currentUser b;
     nerist_session := nerist_session b;
     nerist_token := nerist_token b |}.

Definition set_results (v : list Result) (b : Backend) : Backend :=
  {| users := users b;
     attendance := attendance b;
     messMenu := messMenu b;
     mealBookings := mealBookings b;
     careerOpportunities := careerOpportunities b;
     studentApplications := studentApplications b;
     results := v;
     campusAlerts := campusAlerts b;
     systemSettings := systemSettings b;
     activityLog := activityLog b;
     currentUser := currentUser b;
     nerist_session := nerist_session b;
     nerist_token := nerist_token b |}.

Definition set_campusAlerts (v : AutoStore Alert) (b : Backend) : Backend :=
  {| users := users b;
     attendance := attendance b;
     messMenu := messMenu b;
     mealBookings := mealBookings b;
     careerOpportunities := careerOpportunities b;
     studentApplications := studentApplications b;
     results := results b;
     campusAlerts := v;
     systemSettings := systemSettings b;
     activityLog := activityLog b;
     currentUser := currentUser b;
     nerist_session := nerist_session b;
     nerist_token := nerist_token b |}.

Definition set_systemSettings (v : list Setting) (b : Backend) : Backend :=
  {| users := users b;
     attendance := attendance b;
     messMenu := messMenu b;
     mealBookings := mealBookings b;
     careerOpportunities := careerOpportunities b;
     studentApplications := studentApplications b;
     results := results b;
     campusAlerts := campusAlerts b;
     systemSettings := v;
     activityLog := activityLog b;
     currentUser := currentUser b;
     nerist_session := nerist_session b;
     nerist_token := nerist_token b |}.

Definition set_activityLog (v : AutoStore LogEntry) (b : Backend) : Backend :=
  {| users := users b;
     attendance := attendance b;
     messMenu := messMenu b;
     mealBookings := mealBookings b;
     careerOpportunities := careerOpportunities b;
     studentApplications := studentApplications b;
     results := results b;
     campusAlerts := campusAlerts b;
     systemSettings := systemSettings b;
     activityLog := v;
     currentUser := currentUser b;
     nerist_session := nerist_session b;
     nerist_token := nerist_token b |}.

Definition set_currentUser (v : option PublicUser) (b : Backend) : Backend :=
  {| users := users b;
     attendance := attendance b;
     messMenu := messMenu b;
     mealBookings := mealBookings b;
     careerOpportunities := careerOpportunities b;
     studentApplications := studentApplications b;
     results := results b;
     campusAlerts := campusAlerts b;
     systemSettings := systemSettings b;
     activityLog := activityLog b;
     currentUser := v;
     nerist_session := nerist_session b;
     nerist_token := nerist_token b |}.

Definition set_nerist_session (v : option Session) (b : Backend) : Backend :=
  {| users := users b;
     attendance := attendance b;
     messMenu := messMenu b;
     mealBookings := mealBookings b;
     careerOpportunities := careerOpportunities b;
     studentApplications := studentApplications b;
     results := results b;
     campusAlerts := campusAlerts b;
     systemSettings := systemSettings b;
     activityLog := activityLog b;
     currentUser := currentUser b;
     nerist_session := v;
     nerist_token := nerist_token b |}.

Definition set_nerist_token (v : option jsstring) (b : Backend) : Backend :=
  {| users := users b;
     attendance := attendance b;
     messMenu := messMenu b;
     mealBookings := mealBookings b;
     careerOpportunities := careerOpportunities b;
     studentApplications := studentApplications b;
     results := results b;
     campusAlerts := campusAlerts b;
     systemSettings := systemSettings b;
     activityLog := activityLog b;
     currentUser := currentUser b;
     nerist_session := nerist_session b;
     nerist_token := v |}.

(** ** Calls: state passing with exceptions; the state reached when an
    exception is raised is kept, as the writes before a [throw] are. *)

Definition M (A : Type) : Type := Backend -> outcome A * Backend.

Definition ret {A} (a : A) : M A := fun b => (Ok a, b).

Definition throw {A} (e : error) : M A := fun b => (Throw e, b).

Definition bind {A B} (m : M A) (k : A -> M B) : M B :=
  fun b =>
    match m b with
    | (Ok a, b') => k a b'
    | (Throw e, b') => (Throw e, b')
    end.

Definition gets {A} (f : Backend -> A) : M A := fun b => (Ok (f b), b).

Definition modify (f : Backend -> Backend) : M unit :=
  fun b => (Ok tt, f b).

Notation "x <- c ;; k" := (bind c (fun x => k))
  (at level 61, c at next level, right associativity).
Notation "c ;;; k" := (bind c (fun _ => k))
  (at level 61, right associativity).

(** A host function that raises [InvalidCharacterError]. *)
Definition btoaM (r : option jsstring) : M jsstring :=
  match r with
  | Some h => ret h
  | None => throw InvalidCharacterError
  end.

(** ** Database helpers, one per store the workflows use *)

Definition user_key (u : User) : jsstring := u_id (public u).

(** The [username] and [email] indexes of [users] are unique: [put]
    fails when another record holds the same value. *)
Definition users_conflict (u : User) (s : list User) : bool :=
  existsb (fun v =>
             negb (streq (user_key v) (user_key u)) &&
             (streq (u_username (public v)) (u_username (public u)) ||
              streq (u_email (public v)) (u_email (public u)))) s.

Definition putObject_users (u : User) : M unit :=
  fun b =>
    if users_conflict u (users b) then (Throw ConstraintError, b)
    else (Ok tt, set_users (store_put user_key strcmp u (users b)) b).

(** The [date_meal] index of [messMenu] is unique. *)
Definition menus_conflict (m : Menu) (s : list Menu) : bool :=
  existsb (fun v =>
             negb (streq (m_id v) (m_id m)) &&
             streq (m_date v) (m_date m) &&
             streq (m_mealType v) (m_mealType m)) s.

Definition putObject_messMenu (m : Menu) : M unit :=
  fun b =>
    if menus_conflict m (messMenu b) then (Throw ConstraintError, b)
    else (Ok tt, set_messMenu (store_put m_id strcmp m (messMenu b)) b).

Definition putObject_mealBookings (r : MealBooking) : M unit :=
  modify (fun b =>
            set_mealBookings (store_put mb_id strcmp r (mealBookings b)) b).

Definition putObject_systemSettings (r : Setting) : M unit :=
  modify (fun b =>
            set_systemSettings
              (store_put set_key strcmp r (systemSettings b)) b).

Definition putObject_campusAlerts (a : Alert) : M unit :=
  modify (fun b => set_campusAlerts (auto_put al_id a (campusAlerts b)) b).

Definition putObject_careerOpportunities (o : Opportunity) : M unit :=
  modify (fun b =>
            set_careerOpportunities
              (auto_put o_id o (careerOpportunities b)) b).

Definition putObject_activityLog (e : LogEntry) : M unit :=
  modify (fun b => set_activityLog (auto_put l_id e (activityLog b)) b).

(** [putObject] of a record without [id]: the key generator names it. *)
Definition addObject_activityLog (mk : Z -> LogEntry) : M Z :=
  fun b =>
    let (k, st) := auto_add l_id mk (activityLog b) in
    (Ok k, set_activityLog st b).

Definition addObject_studentApplications (mk : Z -> Application) : M Z :=
  fun b =>
    let (k, st) := auto_add a_id mk (studentApplications b) in
    (Ok k, set_studentApplications st b).

(** ** Activity logging

    [logActivity] catches what its [putObject] raises; on this store
    nothing is raised. *)

Definition logActivity (env : Env) (userId action details : jsstring)
  : M unit :=
  addObject_activityLog
    (fun k => {| l_id := k; l_userId := userId; l_action := action;
                 l_details := details; l_timestamp := now env;
                 l_ip := js "local"; l_userAgent := userAgent env |}) ;;;
  ret tt.

(** ** User management *)

Definition getUserById (userId : jsstring) : M (option User) :=
  gets (fun b => store_get user_key strcmp (users b) userId).

Definition getUserByUsername (username : jsstring) : M (option User) :=
  gets (fun b =>
          hd_error (getAllObjects_index
                      (fun u => u_username (public u)) username (users b))).

Definition getUserByEmail (email : jsstring) : M (option User) :=
  gets (fun b =>
          hd_error (getAllObjects_index
                      (fun u => u_email (public u)) email (users b))).

Definition default_emailPreferences : EmailPreferences :=
  {| pref_attendance := true; pref_mess := true;
     pref_career := true; pref_alerts := true |}.

Definition default_notificationSettings : NotificationSettings :=
  {| pushEnabled := true; soundEnabled := true; vibrationEnabled := true |}.

Definition registerUser (env : Env) (userData : UserData) : M PublicUser :=
  if negb (truthy (d_username userData)) || negb (truthy (d_password userData))
     || negb (truthy (d_email userData)) || negb (truthy (d_role userData))
  then throw (Error "Missing required fields")
  else
    existingUser <- getUserByUsername (d_username userData) ;;
    match existingUser with
    | Some _ => throw (Error "Username already exists")
    | None =>
        existingEmail <- getUserByEmail (d_email userData) ;;
        match existingEmail with
        | Some _ => throw (Error "Email already registered")
        | None =>
            let userId :=
              js "user_" ++ dec (now env) ++ js "_"
                 ++ firstn 9 (js (random36 env)) in
            hashed <- btoaM (hashPassword (d_password userData)) ;;
            let user :=
              {| password := hashed;
                 public :=
                   {| u_id := userId;
                      u_username := d_username userData;
                      u_email := d_email userData;
                      u_name :=
                        or_else (d_name userData) (d_username userData);
                      u_role := d_role userData;
                      u_department := or_else (d_department userData) [];
                      u_year := or_else (d_year userData) [];
                      u_avatarColor :=
                        or_else (d_avatarColor userData) (js "primary");
                      u_emailPreferences :=
                        match d_emailPreferences userData with
                        | Some e => e
                        | None => default_emailPreferences
                        end;
                      u_notificationSettings :=
                        match d_notificationSettings userData with
                        | Some n => n
                        | None => default_notificationSettings
                        end;
                      u_createdAt := nowISO env;
                      u_lastLogin := None;
                      u_isActive := true |} |} in
            putObject_users user ;;;
            logActivity env userId (js "register") (js "User registered") ;;;
            ret (public user)
        end
    end.

Definition generateToken (env : Env) (userId : jsstring) : M jsstring :=
  t <- btoaM (btoa (userId ++ js "_" ++ dec (now env) ++ js "_"
                       ++ firstn 13 (js (random36 env)))) ;;
  ret (filter (fun c => negb (N.eqb c pad)) t).

Definition createSession (env : Env) (user : User) : M Session :=
  token <- generateToken env (user_key user) ;;
  let session :=
    {| s_userId := user_key user;
       s_username := u_username (public user);
       s_role := u_role (public user);
       s_token := token;
       s_createdAt := nowISO env;
       s_expiresAt := now env + 24 * 60 * 60 * 1000 |} in
  modify (set_nerist_session (Some session)) ;;;
  modify (set_nerist_token (Some token)) ;;;
  ret session.

Definition set_lastLogin (v : option jsstring) (p : PublicUser)
  : PublicUser :=
  {| u_id := u_id p; u_username := u_username p; u_email := u_email p;
     u_name := u_name p; u_role := u_role p;
     u_department := u_department p; u_year := u_year p;
     u_avatarColor := u_avatarColor p;
     u_emailPreferences := u_emailPreferences p;
     u_notificationSettings := u_notificationSettings p;
     u_createdAt := u_createdAt p; u_lastLogin := v;
     u_isActive := u_isActive p |}.

Definition login (env : Env) (username password_ : jsstring)
  : M PublicUser :=
  found <- getUserByUsername username ;;
  match found with
  | None => throw (Error "User not found")
  | Some user =>
      if negb (u_isActive (public user))
      then throw (Error "Account is deactivated")
      else
        hashedPassword <- btoaM (hashPassword password_) ;;
        if negb (streq (password user) hashedPassword)
        then throw (Error "Invalid password")
        else
          let user :=
            {| password := password user;
               public := set_lastLogin (Some (nowISO env)) (public user) |} in
          putObject_users user ;;;
          createSession env user ;;;
          logActivity env (user_key user) (js "login")
            (js "User logged in") ;;;
          modify (set_currentUser (Some (public user))) ;;;
          ret (public user)
  end.

Definition logout (env : Env) : M bool :=
  cu <- gets currentUser ;;
  match cu with
  | Some u => logActivity env (u_id u) (js "logout") (js "User logged out")
  | None => ret tt
  end ;;;
  modify (set_nerist_session None) ;;;
  modify (set_nerist_token None) ;;;
  modify (set_currentUser None) ;;;
  ret true.

Definition getCurrentUser : M (option PublicUser) :=
  cu <- gets currentUser ;;
  match cu with
  | Some u => ret (Some u)
  | None =>
      session <- gets nerist_session ;;
      match session with
      | None => ret None
      | Some sessionData =>
          found <- getUserById (s_userId sessionData) ;;
          match found with
          | Some user =>
              if u_isActive (public user)
              then modify (set_currentUser (Some (public user))) ;;;
                   ret (Some (public user))
              else ret None
          | None => ret None
          end
      end
  end.

(** [restrictedFields.forEach(field => { if (updates[field]) delete
    updates[field]; })]: a restricted property is removed when its value
    is truthy. *)
Definition drop_if_truthy (v : option jsstring) : option jsstring :=
  match v with
  | Some s => if truthy s then None else Some s
  | None => None
  end.

Definition override {A} (old : A) (new : option A) : A :=
  match new with Some v => v | None => old end.

(** [{ ...user, ...updates }] after the restricted properties were
    dropped. *)
Definition merge_updates (user : User) (updates : Updates) : User :=
  let p := public user in
  {| password := override (password user) (upd_password updates);
     public :=
       {| u_id := override (u_id p) (drop_if_truthy (upd_id updates));
          u_username :=
            override (u_username p) (drop_if_truthy (upd_username updates));
          u_email := override (u_email p) (upd_email updates);
          u_name := override (u_name p) (upd_name updates);
          u_role := override (u_role p) (drop_if_truthy (upd_role updates));
          u_department := override (u_department p) (upd_department updates);
          u_year := override (u_year p) (upd_year updates);
          u_avatarColor :=
            override (u_avatarColor p) (upd_avatarColor updates);
          u_emailPreferences :=
            override (u_emailPreferences p) (upd_emailPreferences updates);
          u_notificationSettings :=
            override (u_notificationSettings p)
              (upd_notificationSettings updates);
          u_createdAt :=
            override (u_createdAt p)
              (drop_if_truthy (upd_createdAt updates));
          u_lastLogin := override (u_lastLogin p) (upd_lastLogin updates);
          u_isActive := override (u_isActive p) (upd_isActive updates) |} |}.

Definition updateUserProfile (env : Env) (userId : jsstring)
    (updates : Updates) : M PublicUser :=
  found <- getUserById userId ;;
  match found with
  | None => throw (Error "User not found")
  | Some user =>
      let updatedUser := merge_updates user updates in
      putObject_users updatedUser ;;;
      logActivity env userId (js "update_profile")
        (js "Profile updated") ;;;
      ret (public updatedUser)
  end.

Definition changePassword (env : Env) (userId oldPassword newPassword
  : jsstring) : M bool :=
  found <- getUserById userId ;;
  match found with
  | None => throw (Error "User not found")
  | Some user =>
      oldHash <- btoaM (hashPassword oldPassword) ;;
      if negb (streq (password user) oldHash)
      then throw (Error "Current password is incorrect")
      else
        newHash <- btoaM (hashPassword newPassword) ;;
        putObject_users {| password := newHash; public := public user |} ;;;
        logActivity env userId (js "change_password")
          (js "Password changed") ;;;
        ret true
  end.

(** ** Attendance *)

Definition getAttendanceForStudent (studentId : jsstring)
    (startDate endDate : option Z) : M (list Attendance) :=
  attendance0 <- gets (fun b =>
    getAllObjects_index at_studentId studentId (rows (attendance b))) ;;
  let attendance1 :=
    match startDate with
    | Some d => filter (fun a => d <=? at_date a) attendance0
    | None => attendance0
    end in
  let attendance2 :=
    match endDate with
    | Some d => filter (fun a => at_date a <=? d) attendance1
    | None => attendance1
    end in
  ret (sort_by (fun a b => at_date b - at_date a <=? 0) attendance2).

Record Stats := {
  st_total : Z;
  st_present : Z;
  st_absent : Z;
  st_late : Z;
  st_percentage : float
}.

Definition count_status (status : string) (l : list Attendance) : Z :=
  Z.of_nat (length (filter (fun a => streq (at_status a) (js status)) l)).

Definition getAttendanceStats (studentId : jsstring) : M Stats :=
  attendance <- getAttendanceForStudent studentId None None ;;
  if Nat.eqb (length attendance) 0
  then ret {| st_total := 0; st_present := 0; st_absent := 0;
              st_late := 0; st_percentage := 0 |}
  else
    let total := Z.of_nat (length attendance) in
    let present := count_status "present" attendance in
    let absent := count_status "absent" attendance in
    let late := count_status "late" attendance in
    let percentage :=
      Math_round ((of_Z present / of_Z total) * 100)%float in
    ret {| st_total := total; st_present := present; st_absent := absent;
           st_late := late; st_percentage := percentage |}.

(** ** Mess management *)

Definition menuId (date mealType : jsstring) : jsstring :=
  date ++ js "_" ++ mealType.

Definition getObject_messMenu (id : jsstring) : M (option Menu) :=
  gets (fun b => store_get m_id strcmp (messMenu b) id).

Definition set_bookings (bookings : list Booking) (count : option Z)
    (updatedAt : jsstring) (m : Menu) : Menu :=
  {| m_id := m_id m; m_date := m_date m; m_mealType := m_mealType m;
     m_items := m_items m; m_predictedDemand := m_predictedDemand m;
     m_active := m_active m; m_createdBy := m_createdBy m;
     m_createdAt := m_createdAt m; m_updatedAt := updatedAt;
     m_bookings := bookings; m_feedback := m_feedback m;
     m_bookedCount := count; m_averageRating := m_averageRating m |}.

Definition set_feedback (feedback : list Feedback)
    (average : option numeral) (updatedAt : jsstring) (m : Menu) : Menu :=
  {| m_id := m_id m; m_date := m_date m; m_mealType := m_mealType m;
     m_items := m_items m; m_predictedDemand := m_predictedDemand m;
     m_active := m_active m; m_createdBy := m_createdBy m;
     m_createdAt := m_createdAt m; m_updatedAt := updatedAt;
     m_bookings := m_bookings m; m_feedback := feedback;
     m_bookedCount := m_bookedCount m; m_averageRating := average |}.

Definition bookMeal (env : Env) (date mealType studentId : jsstring)
  : M Menu :=
  found <- getObject_messMenu (menuId date mealType) ;;
  match found with
  | None => throw (Error "Menu not found")
  | Some menu =>
      if negb (m_active menu) then throw (Error "This meal is not active")
      else if existsb (fun b => streq (b_studentId b) studentId)
                (m_bookings menu)
      then throw (Error "Already booked for this meal")
      else
        let bookings :=
          m_bookings menu
            ++ [{| b_studentId := studentId; b_bookedAt := nowISO env |}] in
        let menu :=
          set_bookings bookings (Some (Z.of_nat (length bookings)))
            (nowISO env) menu in
        putObject_messMenu menu ;;;
        putObject_mealBookings
          {| mb_id := date ++ js "_" ++ mealType ++ js "_" ++ studentId;
             mb_date := date; mb_mealType := mealType;
             mb_studentId := studentId; mb_bookedAt := nowISO env |} ;;;
        logActivity env studentId (js "book_meal")
          (js "Booked " ++ mealType ++ js " for " ++ date) ;;;
        ret menu
  end.

(** [menu.feedback.reduce((sum, f) => sum + f.rating, 0)]. *)
Definition totalRating (feedback : list Feedback) : float :=
  fold_left (fun sum f => (sum + f_rating f)%float) feedback 0%float.

Definition submitMealFeedback (env : Env)
    (date mealType studentId : jsstring) (rating : float)
    (comment : jsstring) : M Menu :=
  found <- getObject_messMenu (menuId date mealType) ;;
  match found with
  | None => throw (Error "Menu not found")
  | Some menu =>
      let feedback :=
        m_feedback menu
          ++ [{| f_studentId := studentId; f_rating := rating;
                 f_comment := comment; f_submittedAt := nowISO env |}] in
      let average :=
        if (0 <? length feedback)%nat
        then Some (toFixed 1
                     (totalRating feedback / of_Z (Z.of_nat (length feedback))))
        else m_averageRating menu in
      let menu := set_feedback feedback average (nowISO env) menu in
      putObject_messMenu menu ;;;
      logActivity env studentId (js "meal_feedback")
        (js "Submitted feedback for " ++ mealType) ;;;
      ret menu
  end.

(** ** Career opportunities *)

(** [field && new Date(field) < now]. *)
Definition is_past (d : datefield) (now_ : Z) : bool :=
  match d with
  | Date ms => ms <? now_
  | _ => false
  end.

Definition set_applicants (n : Z) (o : Opportunity) : Opportunity :=
  {| o_id := o_id o; o_title := o_title o; o_type := o_type o;
     o_deadline := o_deadline o; o_status := o_status o;
     o_eligibleDepartments := o_eligibleDepartments o;
     o_applicants := n; o_views := o_views o;
     o_createdAt := o_createdAt o; o_createdBy := o_createdBy o |}.

Definition applyForOpportunity (env : Env) (opportunityId : Z)
    (studentData : jsstring) : M Application :=
  cu <- getCurrentUser ;;
  match cu with
  | None => throw (Error "Not authenticated")
  | Some currentUser_ =>
      found <- gets (fun b =>
        store_get o_id Z.compare (rows (careerOpportunities b))
          opportunityId) ;;
      match found with
      | None => throw (Error "Opportunity not found")
      | Some opportunity =>
          if is_past (o_deadline opportunity) (now env)
          then throw (Error "Application deadline has passed")
          else
            existingApplications <- gets (fun b =>
              getAllObjects_index a_studentId (u_id currentUser_)
                (rows (studentApplications b))) ;;
            if existsb (fun app => a_opportunityId app =? opportunityId)
                 existingApplications
            then throw (Error "Already applied for this opportunity")
            else
              let application k :=
                {| a_id := k;
                   a_studentId := u_id currentUser_;
                   a_studentName := u_name currentUser_;
                   a_opportunityId := opportunityId;
                   a_opportunityTitle := o_title opportunity;
                   a_appliedDate := nowISO env;
                   a_status := js "pending";
                   a_studentData := studentData;
                   a_lastUpdated := nowISO env |} in
              result <- addObject_studentApplications application ;;
              putObject_careerOpportunities
                (set_applicants
                   ((if o_applicants opportunity =? 0 then 0
                     else o_applicants opportunity) + 1) opportunity) ;;;
              logActivity env (u_id currentUser_) (js "apply_opportunity")
                (js "Applied for: " ++ o_title opportunity) ;;;
              ret (application result)
      end
  end.

(** ** Results *)

(** [String.prototype.toUpperCase] on the letters a to z.  No other code
    unit has an upper-case form that is a key of [gradeMap], so the lookup
    below is the one of the source on every string. *)
Definition toUpperCase (s : jsstring) : jsstring :=
  map (fun c => if (97 <=? c)%N && (c <=? 122)%N then (c - 32)%N else c) s.

Definition grade (name : string) (points : float) : string * float :=
  (name, points).

Definition gradeMap : list (string * float) :=
  [grade "A+" 10; grade "A" 9; grade "A-" 8.5;
   grade "B+" 8; grade "B" 7; grade "B-" 6;
   grade "C+" 5; grade "C" 4; grade "C-" 3;
   grade "D+" 2; grade "D" 1; grade "F" 0].

Definition lookup (table : list (string * float)) (k : jsstring)
  : option float :=
  match find (fun e => streq (js (fst e)) k) table with
  | Some e => Some (snd e)
  | None => None
  end.

(** Truthiness of a number: neither zero nor NaN. *)
Definition truthy_number (x : float) : bool :=
  PrimFloat.eqb x x && negb (PrimFloat.eqb x 0).

Definition getGradePoints (grade : option jsstring) : float :=
  match grade with
  | Some g =>
      match lookup gradeMap (toUpperCase g) with
      | Some points => if truthy_number points then points else 0%float
      | None => 0%float
      end
  | None => 0%float
  end.

(** [subject.credits || 1]. *)
Definition credits_or_1 (subject : Subject) : float :=
  match sub_credits subject with
  | Some c => if truthy_number c then c else 1%float
  | None => 1%float
  end.

(** The two accumulators [totalGradePoints] and [totalCredits]. *)
Definition add_subject (acc : float * float) (subject : Subject)
  : float * float :=
  let gradePoints := getGradePoints (sub_grade subject) in
  (fst acc + gradePoints * credits_or_1 subject,
   snd acc + credits_or_1 subject)%float.

Definition add_semester (acc : float * float) (semesterResult : Result)
  : float * float :=
  match r_subjects semesterResult with
  | Some subjects => fold_left add_subject subjects acc
  | None => acc
  end.

Inductive StudentResults :=
| Semester (found : option Result)
| AllSemesters (results_ : list Result) (cgpa : float)
    (totalCredits : float).

(** [if (semester)]: a semester of [0] is falsy, as an absent one. *)
Definition given_semester (semester : option Z) : option Z :=
  match semester with
  | Some sem => if sem =? 0 then None else Some sem
  | None => None
  end.

Definition getStudentResults (studentId : jsstring) (semester : option Z)
  : M StudentResults :=
  match given_semester semester with
  | Some sem =>
      found <- gets (fun b =>
        store_get r_id strcmp (results b)
          (studentId ++ js "_" ++ dec sem)) ;;
      ret (Semester found)
  | None =>
      fetched <- gets (fun b =>
        getAllObjects_index r_studentId studentId (results b)) ;;
      let allResults :=
        sort_by (fun a b => r_semester a - r_semester b <=? 0) fetched in
      let (totalGradePoints, totalCredits) :=
        fold_left add_semester allResults (0%float, 0%float) in
      let cgpa :=
        if PrimFloat.ltb 0 totalCredits
        then parseFloat (toFixed 2 (totalGradePoints / totalCredits))
        else 0%float in
      ret (AllSemesters allResults cgpa totalCredits)
  end.

(** ** Campus alerts *)

(** The names of the properties that every object inherits from
    [Object.prototype].  The table [{ high: 3, medium: 2, low: 1 }] is
    such an object: a lookup of one of these names yields the inherited
    value, a function (for [__proto__] the prototype object). *)
Definition inherited_names : list string :=
  ["constructor"; "hasOwnProperty"; "isPrototypeOf"; "propertyIsEnumerable";
   "toLocaleString"; "toString"; "valueOf"; "__proto__";
   "__defineGetter__"; "__defineSetter__"; "__lookupGetter__";
   "__lookupSetter__"]%string.

Definition inherited (name : jsstring) : bool :=
  existsb (fun n => streq name (js n)) inherited_names.

(** [priorityOrder[priority] || 0]: the number of an own property of the
    table, [0] for a name the table does not know, and for an inherited
    name the inherited value, which is truthy and not a number: [None]. *)
Definition priorityOrder (priority : jsstring) : option Z :=
  if streq priority (js "high") then Some 3
  else if streq priority (js "medium") then Some 2
  else if streq priority (js "low") then Some 1
  else if inherited priority then None
  else Some 0.

(** The comparison function given to [alerts.sort].  [None] is [NaN]: the
    difference with a value that is not a number; it is not [0] and is
    returned. *)
Definition compare_alerts (a b : Alert) : option Z :=
  match priorityOrder (al_priority b), priorityOrder (al_priority a) with
  | Some pb, Some pa =>
      let priorityDiff := pb - pa in
      if negb (priorityDiff =? 0) then Some priorityDiff
      else Some (al_createdAt b - al_createdAt a)
  | _, _ => None
  end.

(** [sort] reads a [NaN] of the comparison function as [+0].  With alerts
    for which it is [NaN] the comparison is not consistent and the order
    is left to the implementation of [sort]; the statements on the order
    are about listings without such alerts. *)
Definition getActiveAlerts (env : Env) (priority : jsstring)
  : M (list Alert) :=
  alerts0 <- gets (fun b => rows (campusAlerts b)) ;;
  let alerts1 :=
    filter (fun alert =>
              if negb (al_isActive alert) then false
              else if is_past (al_expiry alert) (now env) then false
              else true) alerts0 in
  let alerts2 :=
    if truthy priority
    then filter (fun alert => streq (al_priority alert) priority) alerts1
    else alerts1 in
  ret (sort_by (fun a b =>
                  match compare_alerts a b with
                  | Some c => c <=? 0
                  | None => true
                  end) alerts2).

(** ** System settings and the background sync *)

Definition setSystemSetting (env : Env) (key value : jsstring)
  : M Setting :=
  let setting :=
    {| set_key := key; set_value := value; set_updatedAt := nowISO env |} in
  putObject_systemSettings setting ;;;
  ret setting.

Definition set_isActive (v : bool) (a : Alert) : Alert :=
  {| al_id := al_id a; al_data := al_data a; al_priority := al_priority a;
     al_expiry := al_expiry a; al_isActive := v; al_views := al_views a;
     al_createdAt := al_createdAt a; al_createdBy := al_createdBy a |}.

(** [for (const x of xs) { ... }] over a snapshot. *)
Fixpoint for_each {A} (xs : list A) (body : A -> M unit) : M unit :=
  match xs with
  | [] => ret tt
  | x :: xs' => body x ;;; for_each xs' body
  end.

Definition performBackgroundSync (env : Env) : M unit :=
  alerts <- gets (fun b => rows (campusAlerts b)) ;;
  for_each alerts (fun alert =>
    if is_past (al_expiry alert) (now env) && al_isActive alert
    then putObject_campusAlerts (set_isActive false alert)
    else ret tt) ;;;
  activities <- gets (fun b => rows (activityLog b)) ;;
  (if (1000 <? length activities)%nat
   then
     let sorted :=
       sort_by (fun a b => l_timestamp b - l_timestamp a <=? 0) activities in
     let toKeep := firstn 1000 sorted in
     modify (fun b =>
               set_activityLog
                 {| rows := []; generator := generator (activityLog b) |} b) ;;;
     for_each toKeep putObject_activityLog
   else ret tt) ;;;
  setSystemSetting env (js "last_sync") (nowISO env) ;;;
  ret tt.

(** ** Sessions *)

(** [restoreSession()]: the stored session is the one [createSession]
    wrote, so that [JSON.parse] gives it back. *)
Definition restoreSession (env : Env) : M (option Session) :=
  sessionStr <- gets nerist_session ;;
  match sessionStr with
  | None => ret None
  | Some session =>
      if s_expiresAt session <? now env
      then
        modify (set_nerist_session None) ;;;
        modify (set_nerist_token None) ;;;
        ret None
      else
        found <- getUserById (s_userId session) ;;
        match found with
        | Some user =>
            if u_isActive (public user)
            then
              modify (set_currentUser (Some (public user))) ;;;
              ret (Some session)
            else
              modify (set_nerist_session None) ;;;
              modify (set_nerist_token None) ;;;
              ret None
        | None =>
            modify (set_nerist_session None) ;;;
            modify (set_nerist_token None) ;;;
            ret None
        end
  end.

(** ** Reading the settings and the activity log *)

Definition getSystemSetting (key : jsstring) : M (option jsstring) :=
  setting <- gets (fun b => store_get set_key strcmp (systemSettings b) key) ;;
  ret (match setting with
       | Some s => Some (set_value s)
       | None => None
       end).

(** [array.slice(0, limit)]: a negative [limit] counts from the end. *)
Definition slice_to {A} (limit : Z) (l : list A) : list A :=
  if limit <? 0
  then firstn (Z.to_nat (Z.of_nat (length l) + limit)) l
  else firstn (Z.to_nat limit) l.

Definition getUserActivity (userId : jsstring) (limit : Z)
  : M (list LogEntry) :=
  activities <- gets (fun b =>
    getAllObjects_index l_userId userId (rows (activityLog b))) ;;
  ret (slice_to limit
         (sort_by (fun a b => l_timestamp b - l_timestamp a <=? 0)
            activities)).

Definition getRecentActivity (limit : Z) : M (list LogEntry) :=
  activities <- gets (fun b => rows (activityLog b)) ;;
  ret (slice_to limit
         (sort_by (fun a b => l_timestamp b - l_timestamp a <=? 0)
            activities)).

(** ** Attendance records *)

(** The argument of [markAttendance], for the calls that give a
    [studentId] (a string, possibly empty).  A call without one stores a
    record that the [studentId] index does not hold and logs 'for
    undefined'; the records of [Attendance] cannot express it and such
    calls are not covered.  Of the other string properties an absent one
    is the empty string, and [atd_date] is the instant the given date
    denotes, [None] when no date is given. *)
Record AttendanceData := {
  atd_studentId : jsstring;
  atd_date : option Z;
  atd_subject : jsstring;
  atd_status : jsstring;
  atd_time : jsstring;
  atd_semester : jsstring;
  atd_branch : jsstring;
  atd_remarks : jsstring
}.

(** [new Date().toISOString().split('T')[0]], as the instant this date
    denotes: the start of the current day in UTC. *)
Definition today (env : Env) : Z := now env - now env mod 86400000.

Definition addObject_attendance (mk : Z -> Attendance) : M Z :=
  fun b =>
    let (k, st) := auto_add at_id mk (attendance b) in
    (Ok k, set_attendance st b).

(** [localTime] is the text of [new Date().toLocaleTimeString('en-IN')].
    The object returned has no [id]: it is given as the record for any
    id. *)
Definition markAttendance (env : Env) (localTime : jsstring)
    (attendanceData : AttendanceData) : M (Z -> Attendance) :=
  cu <- getCurrentUser ;;
  match cu with
  | None => throw (Error "Not authenticated")
  | Some currentUser_ =>
      let attendance_ k :=
        {| at_id := k;
           at_studentId := atd_studentId attendanceData;
           at_date :=
             match atd_date attendanceData with
             | Some d => d
             | None => today env
             end;
           at_subject := atd_subject attendanceData;
           at_status := or_else (atd_status attendanceData) (js "present");
           at_time := or_else (atd_time attendanceData) localTime;
           at_markedBy := u_id currentUser_;
           at_timestamp := nowISO env;
           at_semester := atd_semester attendanceData;
           at_branch := atd_branch attendanceData;
           at_remarks := or_else (atd_remarks attendanceData) [] |} in
      addObject_attendance attendance_ ;;;
      logActivity env (u_id currentUser_) (js "mark_attendance")
        (js "Marked " ++ or_else (atd_status attendanceData) (js "present")
            ++ js " for " ++ atd_studentId attendanceData) ;;;
      ret attendance_
  end.

(** [store.delete(key)]. *)
Definition store_delete {R K} (key : R -> K) (cmp : K -> K -> comparison)
    (k : K) (s : list R) : list R :=
  filter (fun r => negb (has_key key cmp k r)) s.

Definition deleteObject_attendance (attendanceId : Z) : M bool :=
  modify (fun b =>
            set_attendance
              {| rows := store_delete at_id Z.compare attendanceId
                           (rows (attendance b));
                 generator := generator (attendance b) |} b) ;;;
  ret true.

Definition deleteAttendance (env : Env) (attendanceId : Z) : M bool :=
  cu <- getCurrentUser ;;
  match cu with
  | None => throw (Error "Not authenticated")
  | Some currentUser_ =>
      deleteObject_attendance attendanceId ;;;
      logActivity env (u_id currentUser_) (js "delete_attendance")
        (js "Deleted attendance record " ++ dec attendanceId) ;;;
      ret true
  end.

(** [countObjects(storeName, indexName, query)] on a string-valued index:
    with a truthy query the number of records whose field equals it,
    otherwise the number of records of the index. *)
Definition countObjects_index {R} (field : R -> jsstring) (query : jsstring)
    (s : list R) : Z :=
  if truthy query
  then Z.of_nat (length (filter (fun r => streq (field r) query) s))
  else Z.of_nat (length s).

Record UserStats := {
  us_attendanceCount : Z;
  us_presentCount : Z;
  us_attendancePercentage : float;
  us_mealBookingsCount : Z;
  us_applicationsCount : Z;
  us_recentActivityCount : Z;
  us_lastActivity : option Z
}.

Definition getUserStats (userId : jsstring) : M UserStats :=
  attendanceCount <- gets (fun b =>
    countObjects_index at_studentId userId (rows (attendance b))) ;;
  mealBookingsCount <- gets (fun b =>
    countObjects_index mb_studentId userId (mealBookings b)) ;;
  applicationsCount <- gets (fun b =>
    countObjects_index a_studentId userId (rows (studentApplications b))) ;;
  recentActivity <- getUserActivity userId 10 ;;
  attendance_ <- gets (fun b =>
    getAllObjects_index at_studentId userId (rows (attendance b))) ;;
  let presentCount := count_status "present" attendance_ in
  let attendancePercentage :=
    if (0 <? length attendance_)%nat
    then Math_round
           ((of_Z presentCount / of_Z (Z.of_nat (length attendance_))) * 100)
    else 0%float in
  ret {| us_attendanceCount := attendanceCount;
         us_presentCount := presentCount;
         us_attendancePercentage := attendancePercentage;
         us_mealBookingsCount := mealBookingsCount;
         us_applicationsCount := applicationsCount;
         us_recentActivityCount := Z.of_nat (length recentActivity);
         us_lastActivity :=
           option_map l_timestamp (hd_error recentActivity) |}.

(** ** Mess menus *)

(** The second argument of [saveMessMenu]; [None] is an absent
    property. *)
Record MealData := {
  md_mealType : jsstring;
  md_items : option (list jsstring);
  md_predictedDemand : option Z;
  md_active : option bool
}.

Definition saveMessMenu (env : Env) (date : jsstring) (mealData : MealData)
  : M Menu :=
  cu <- getCurrentUser ;;
  match cu with
  | None => throw (Error "Not authenticated")
  | Some currentUser_ =>
      let menu :=
        {| m_id := menuId date (md_mealType mealData);
           m_date := date;
           m_mealType := md_mealType mealData;
           m_items :=
             match md_items mealData with
             | Some items => items
             | None => []
             end;
           m_predictedDemand :=
             match md_predictedDemand mealData with
             | Some n => if n =? 0 then 50 else n
             | None => 50
             end;
           m_active :=
             match md_active mealData with
             | Some active => active
             | None => true
             end;
           m_createdBy := u_id currentUser_;
           m_createdAt := nowISO env;
           m_updatedAt := nowISO env;
           m_bookings := [];
           m_feedback := [];
           m_bookedCount := None;
           m_averageRating := None |} in
      putObject_messMenu menu ;;;
      logActivity env (u_id currentUser_) (js "save_mess_menu")
        (js "Saved " ++ md_mealType mealData ++ js " menu for " ++ date) ;;;
      ret menu
  end.

Definition getMessMenu (date mealType : jsstring) : M (list Menu) :=
  if truthy mealType
  then
    menu <- getObject_messMenu (menuId date mealType) ;;
    ret (match menu with Some m => [m] | None => [] end)
  else gets (fun b => getAllObjects_index m_date date (messMenu b)).

Definition getMealBookings (studentId date : jsstring)
  : M (list MealBooking) :=
  bookings <- gets (fun b =>
    getAllObjects_index mb_studentId studentId (mealBookings b)) ;;
  ret (if truthy date
       then filter (fun b => streq (mb_date b) date) bookings
       else bookings).

(** ** Opportunities *)

(** The argument of [createCareerOpportunity]: the properties that are
    spread into the record; [od_id] is [None] when the caller gives no
    [id]. *)
Record OpportunityData := {
  od_id : option Z;
  od_title : jsstring;
  od_type : jsstring;
  od_deadline : datefield;
  od_eligibleDepartments : option (list jsstring)
}.

Definition addObject_careerOpportunities (mk : Z -> Opportunity) : M Z :=
  fun b =>
    let (k, st) := auto_add o_id mk (careerOpportunities b) in
    (Ok k, set_careerOpportunities st b).

Definition createCareerOpportunity (env : Env)
    (opportunityData : OpportunityData) : M Opportunity :=
  cu <- getCurrentUser ;;
  match cu with
  | None => throw (Error "Not authenticated")
  | Some currentUser_ =>
      let opportunity k :=
        {| o_id := k;
           o_title := od_title opportunityData;
           o_type := od_type opportunityData;
           o_deadline := od_deadline opportunityData;
           o_status := js "active";
           o_eligibleDepartments := od_eligibleDepartments opportunityData;
           o_applicants := 0;
           o_views := 0;
           o_createdAt := nowISO env;
           o_createdBy := u_id currentUser_ |} in
      result <-
        match od_id opportunityData with
        | Some k => putObject_careerOpportunities (opportunity k) ;;; ret k
        | None => addObject_careerOpportunities opportunity
        end ;;
      logActivity env (u_id currentUser_) (js "create_opportunity")
        (js "Created opportunity: " ++ od_title opportunityData) ;;;
      ret (opportunity result)
  end.

(** The [filters] argument of [getCareerOpportunities]: an absent
    property is the empty string. *)
Record Filters := {
  flt_type : jsstring;
  flt_status : jsstring;
  flt_department : jsstring
}.

(** The comparison function given to [opportunities.sort]; [None] is
    [NaN]. *)
Definition compare_deadlines (a b : Opportunity) : option Z :=
  match o_deadline a with
  | NoDate => Some 1
  | da =>
      match o_deadline b with
      | NoDate => Some (-1)
      | db =>
          match da, db with
          | Date x, Date y => Some (x - y)
          | _, _ => None
          end
      end
  end.

(** The comparison is not consistent on two opportunities without a
    deadline; their mutual order is then left to the implementation of
    [sort], and the statements below do not speak of the order. *)
Definition getCareerOpportunities (env : Env) (filters : Filters)
  : M (list Opportunity) :=
  opportunities0 <- gets (fun b => rows (careerOpportunities b)) ;;
  let opportunities1 :=
    if truthy (flt_type filters)
    then filter (fun opp => streq (o_type opp) (flt_type filters))
           opportunities0
    else opportunities0 in
  let opportunities2 :=
    if truthy (flt_status filters)
    then filter (fun opp => streq (o_status opp) (flt_status filters))
           opportunities1
    else opportunities1 in
  let opportunities3 :=
    if truthy (flt_department filters)
    then filter (fun opp =>
                   match o_eligibleDepartments opp with
                   | None => true
                   | Some departments =>
                       existsb (fun d => streq d (flt_department filters))
                         departments
                   end) opportunities2
    else opportunities2 in
  let opportunities4 :=
    filter (fun opp =>
              match o_deadline opp with
              | NoDate => true
              | BadDate => false
              | Date ms => now env <? ms
              end) opportunities3 in
  ret (sort_by (fun a b =>
                  match compare_deadlines a b with
                  | Some c => c <=? 0
                  | None => true
                  end) opportunities4).

(** ** Alerts and the SOS *)

(** The argument of [createCampusAlert]: [ad_data] stands for the spread
    properties as they are stored ([al_data]); [ad_title] is the [title]
    among them, which the log entry quotes. *)
Record AlertData := {
  ad_id : option Z;
  ad_title : jsstring;
  ad_data : jsstring;
  ad_priority : jsstring;
  ad_expiry : datefield
}.

Definition addObject_campusAlerts (mk : Z -> Alert) : M Z :=
  fun b =>
    let (k, st) := auto_add al_id mk (campusAlerts b) in
    (Ok k, set_campusAlerts st b).

Definition createCampusAlert (env : Env) (alertData : AlertData) : M Alert :=
  cu <- getCurrentUser ;;
  match cu with
  | None => throw (Error "Not authenticated")
  | Some currentUser_ =>
      let alert k :=
        {| al_id := k;
           al_data := ad_data alertData;
           al_priority := ad_priority alertData;
           al_expiry :=
             match ad_expiry alertData with
             | NoDate => Date (now env + 7 * 24 * 60 * 60 * 1000)
             | expiry => expiry
             end;
           al_isActive := true;
           al_views := 0;
           al_createdAt := now env;
           al_createdBy := u_id currentUser_ |} in
      result <-
        match ad_id alertData with
        | Some k => putObject_campusAlerts (alert k) ;;; ret k
        | None => addObject_campusAlerts alert
        end ;;
      logActivity env (u_id currentUser_) (js "create_alert")
        (js "Created alert: " ++ ad_title alertData) ;;;
      ret (alert result)
  end.



(** A record of the [emergencyContacts] store. *)
Record Contact := {
  c_id : jsstring;
  c_name : jsstring;
  c_role : jsstring;
  c_number : jsstring;
  c_type : jsstring;
  c_icon : jsstring;
  c_description : jsstring
}.

(** The [type] argument of [getEmergencyContacts]: absent, a string, or
    the array that [triggerSOS] passes. *)
Inductive TypeQuery :=
| AnyType
| OfType (type : jsstring)
| OfTypes (types : list jsstring).

(** [if (type)]: an array is truthy, also when it is empty. *)
Definition given_type (type : TypeQuery) : bool :=
  match type with
  | AnyType => false
  | OfType t => truthy t
  | OfTypes _ => true
  end.

(** [contact.type === type]: a string is never identical to an array. *)
Definition identical (s : jsstring) (type : TypeQuery) : bool :=
  match type with
  | OfType t => streq s t
  | _ => false
  end.

(** The store [emergencyContacts] is not written by any workflow modelled
    here: its records are an argument.  [localeCompare] is the collation
    of the host. *)
Definition getEmergencyContacts (localeCompare : jsstring -> jsstring -> Z)
    (emergencyContacts : list Contact) (type : TypeQuery)
  : M (list Contact) :=
  let contacts :=
    if given_type type
    then filter (fun contact => identical (c_type contact) type)
           emergencyContacts
    else emergencyContacts in
  ret (sort_by (fun a b =>
                  (if negb (streq (c_type a) (c_type b))
                   then localeCompare (c_type a) (c_type b)
                   else localeCompare (c_name a) (c_name b)) <=? 0)
         contacts).

Record SOSResult := {
  sos_success : bool;
  sos_message : jsstring;
  sos_contacts : list Contact;
  sos_timestamp : jsstring
}.

(** The alert of [triggerSOS]; its [title], [message] and [type] are kept
    as the text of the object literal. *)
Definition sos_alert (env : Env) (user : PublicUser) : AlertData :=
  {| ad_id := None;
     ad_title := js "EMERGENCY SOS ACTIVATED";
     ad_data :=
       js "title: 'EMERGENCY SOS ACTIVATED', message: 'Student "
          ++ u_name user ++ js " (" ++ u_id user
          ++ js ") has activated SOS. Location: Campus (approximate).', "
          ++ js "type: 'emergency'";
     ad_priority := js "high";
     ad_expiry := Date (now env + 30 * 60 * 1000) |}.

Definition triggerSOS (localeCompare : jsstring -> jsstring -> Z)
    (env : Env) (emergencyContacts : list Contact) : M SOSResult :=
  cu <- getCurrentUser ;;
  match cu with
  | None => throw (Error "Not authenticated")
  | Some user =>
      logActivity env (u_id user) (js "emergency_sos")
        (js "Emergency SOS activated") ;;;
      createCampusAlert env (sos_alert env user) ;;;
      contacts <- getEmergencyContacts localeCompare emergencyContacts
                    (OfTypes [js "security"; js "medical"]) ;;
      ret {| sos_success := true;
             sos_message := js "SOS alert sent to campus security";
             sos_contacts := contacts;
             sos_timestamp := nowISO env |}
  end.

(** ** Notions used in the statements *)

(** The user record [login] writes back: [user.lastLogin] is stamped. *)
Definition stamp_login (env : Env) (user : User) : User :=
  {| password := password user;
     public := set_lastLogin (Some (nowISO env)) (public user) |}.

(** The user record [changePassword] writes back. *)
Definition new_password (h : jsstring) (user : User) : User :=
  {| password := h; public := public user |}.

(** An alert that [getActiveAlerts] shows at [now_] under the given
    priority filter. *)
Definition alert_shown (now_ : Z) (priority : jsstring) (a : Alert) : bool :=
  al_isActive a && negb (is_past (al_expiry a) now_) &&
  (if truthy priority then streq (al_priority a) priority else true).

(** The rank of a priority in the listing, as the specification has it:
    high before medium before low, any other priority last. *)
Definition priority_rank (priority : jsstring) : Z :=
  if streq priority (js "high") then 3
  else if streq priority (js "medium") then 2
  else if streq priority (js "low") then 1
  else 0.

(** The order of the listing: higher priority first, then newer first. *)
Definition alert_before (a b : Alert) : Prop :=
  priority_rank (al_priority a) > priority_rank (al_priority b) \/
  (priority_rank (al_priority a) = priority_rank (al_priority b) /\
   al_createdAt a >= al_createdAt b).

(** The comparison by rank and date, as a number. *)
Definition compare_ranks (a b : Alert) : Z :=
  let priorityDiff :=
    priority_rank (al_priority b) - priority_rank (al_priority a) in
  if negb (priorityDiff =? 0) then priorityDiff
  else al_createdAt b - al_createdAt a.

(** [a'] is [a] but for its [isActive] flag. *)
Definition same_but_isActive (a a' : Alert) : Prop :=
  al_id a' = al_id a /\ al_data a' = al_data a /\
  al_priority a' = al_priority a /\ al_expiry a' = al_expiry a /\
  al_views a' = al_views a /\ al_createdAt a' = al_createdAt a /\
  al_createdBy a' = al_createdBy a.

(** What one pass of the sweep does to one alert. *)
Definition expire (now_ : Z) (a : Alert) : Alert :=
  if is_past (al_expiry a) now_ && al_isActive a
  then set_isActive false a else a.

(** The body of the loop over the alerts in [performBackgroundSync]. *)
Definition sweep_body (env : Env) (alert : Alert) : M unit :=
  if is_past (al_expiry alert) (now env) && al_isActive alert
  then putObject_campusAlerts (set_isActive false alert)
  else ret tt.

(** The attendance records of one student. *)
Definition student_attendance (studentId : jsstring) (b : Backend)
  : list Attendance :=
  filter (fun a => streq (at_studentId a) studentId) (rows (attendance b)).



(** Left-to-right sum, as an accumulating loop computes it. *)
Definition fsum (l : list float) : float :=
  fold_left (fun acc x => (acc + x)%float) l 0%float.





(** The [date_meal] index holds: a (date, mealType) pair belongs to one
    key only. *)
Definition menu_index_ok (s : list Menu) : Prop :=
  forall m1 m2, In m1 s -> In m2 s ->
    m_date m1 = m_date m2 -> m_mealType m1 = m_mealType m2 ->
    m_id m1 = m_id m2.

(** The arithmetic mean, summed from left to right. *)
Definition mean (l : list float) : float :=
  (fsum l / of_Z (Z.of_nat (length l)))%float.

Definition feedback_entry (env : Env) (studentId : jsstring)
    (rating : float) (comment : jsstring) : Feedback :=
  {| f_studentId := studentId; f_rating := rating; f_comment := comment;
     f_submittedAt := nowISO env |}.

Definition booking_entry (env : Env) (studentId : jsstring) : Booking :=
  {| b_studentId := studentId; b_bookedAt := nowISO env |}.

(** The applications that reference an opportunity. *)
Definition applications_for (opportunityId : Z) (b : Backend)
  : list Application :=
  filter (fun a => a_opportunityId a =? opportunityId)
    (rows (studentApplications b)).

(** Every opportunity's counter is the number of applications that
    reference it. *)
Definition counters_agree (b : Backend) : Prop :=
  forall o, In o (rows (careerOpportunities b)) ->
    o_applicants o = Z.of_nat (length (applications_for (o_id o) b)).

(** No two applications share student and opportunity. *)
Definition applications_distinct (b : Backend) : Prop :=
  NoDup (map (fun a => (a_studentId a, a_opportunityId a))
           (rows (studentApplications b))).

Definition career_wf (b : Backend) : Prop :=
  auto_wf o_id (careerOpportunities b) /\
  auto_wf a_id (studentApplications b).

Definition career_inv (b : Backend) : Prop :=
  career_wf b /\ counters_agree b /\ applications_distinct b.

(** The application [applyForOpportunity] stores. *)
Definition new_application (env : Env) (user : PublicUser)
    (opportunity : Opportunity) (studentData : jsstring) (k : Z)
  : Application :=
  {| a_id := k;
     a_studentId := u_id user;
     a_studentName := u_name user;
     a_opportunityId := o_id opportunity;
     a_opportunityTitle := o_title opportunity;
     a_appliedDate := nowISO env;
     a_status := js "pending";
     a_studentData := studentData;
     a_lastUpdated := nowISO env |}.

(** Calls of a session, by any user. *)
Inductive call :=
| Apply (env : Env) (opportunityId : Z) (studentData : jsstring)
| Login (env : Env) (username password_ : jsstring)
| Logout (env : Env).

Definition run_call (c : call) (b : Backend) : Backend :=
  match c with
  | Apply env opportunityId studentData =>
      snd (applyForOpportunity env opportunityId studentData b)
  | Login env username password_ => snd (login env username password_ b)
  | Logout env => snd (logout env b)
  end.

Definition run_calls (cs : list call) (b : Backend) : Backend :=
  fold_left (fun b c => run_call c b) cs b.

(** The number of calls in a run that stored an application for the
    given opportunity. *)
Definition stores_application (opportunityId : Z) (c : call) (b : Backend)
  : nat :=
  match c with
  | Apply env oid studentData =>
      match fst (applyForOpportunity env oid studentData b) with
      | Ok _ => if oid =? opportunityId then 1%nat else 0%nat
      | Throw _ => 0%nat
      end
  | _ => 0%nat
  end.

Fixpoint successful_applications (opportunityId : Z) (cs : list call)
    (b : Backend) : nat :=
  match cs with
  | [] => 0%nat
  | c :: cs' =>
      (stores_application opportunityId c b
       + successful_applications opportunityId cs' (run_call c b))%nat
  end.

(** Computations that leave the two career stores as they are. *)
Definition keeps_career {A} (m : M A) : Prop :=
  forall b,
    careerOpportunities (snd (m b)) = careerOpportunities b /\
    studentApplications (snd (m b)) = studentApplications b.

(** The two unique indexes of [users] hold: a username and an email
    belong to one key only. *)
Definition users_index_ok (s : list User) : Prop :=
  forall u v, In u s -> In v s ->
    u_username (public u) = u_username (public v) \/
    u_email (public u) = u_email (public v) ->
    user_key u = user_key v.

Definition users_ok (b : Backend) : Prop :=
  store_wf user_key strcmp (users b) /\ users_index_ok (users b).

(** Computations that keep a property of the backend, whatever they
    return. *)
Definition preserves {A} (P : Backend -> Prop) (m : M A) : Prop :=
  forall b, P b -> P (snd (m b)).

(** The entry [logActivity] stores, under the key [k]. *)
Definition log_entry (env : Env) (userId action details : jsstring) (k : Z)
  : LogEntry :=
  {| l_id := k; l_userId := userId; l_action := action;
     l_details := details; l_timestamp := now env;
     l_ip := js "local"; l_userAgent := userAgent env |}.

(** Newest first, the order of the activity listings. *)
Definition newer_first (a b : LogEntry) : bool :=
  l_timestamp b - l_timestamp a <=? 0.

(** [r] holds the [limit] newest entries of [l], newest first. *)
Definition newest_of (limit : Z) (l r : list LogEntry) : Prop :=
  Z.of_nat (length r) = Z.min limit (Z.of_nat (length l)) /\
  StronglySorted (fun a b => l_timestamp b <= l_timestamp a) r /\
  exists rest : list LogEntry,
    Permutation (r ++ rest) l /\
    forall k d, In k r -> In d rest -> l_timestamp d <= l_timestamp k.

(** The statistics of a list of attendance records. *)
Definition stats_of (records : list Attendance) : Stats :=
  let total := Z.of_nat (length records) in
  let present := count_status "present" records in
  {| st_total := total;
     st_present := present;
     st_absent := count_status "absent" records;
     st_late := count_status "late" records;
     st_percentage :=
       if total =? 0 then 0%float
       else Math_round (of_Z present / of_Z total * 100)%float |}.



(** The record [bookMeal] files in [mealBookings]. *)
Definition meal_booking (env : Env) (date mealType studentId : jsstring)
  : MealBooking :=
  {| mb_id := date ++ js "_" ++ mealType ++ js "_" ++ studentId;
     mb_date := date; mb_mealType := mealType;
     mb_studentId := studentId; mb_bookedAt := nowISO env |}.

(** An opportunity that [getCareerOpportunities] lists under the given
    filters at the instant [now_]. *)
Definition opportunity_listed (now_ : Z) (filters : Filters)
    (o : Opportunity) : Prop :=
  (flt_type filters = [] \/ o_type o = flt_type filters) /\
  (flt_status filters = [] \/ o_status o = flt_status filters) /\
  (flt_department filters = [] \/
   match o_eligibleDepartments o with
   | None => True
   | Some departments => In (flt_department filters) departments
   end) /\
  match o_deadline o with
  | NoDate => True
  | BadDate => False
  | Date ms => now_ < ms
  end.


(** The alert [createCampusAlert] stores under the key [k]. *)
Definition new_alert (env : Env) (alertData : AlertData) (user : PublicUser)
    (k : Z) : Alert :=
  {| al_id := k;
     al_data := ad_data alertData;
     al_priority := ad_priority alertData;
     al_expiry :=
       match ad_expiry alertData with
       | NoDate => Date (now env + 7 * 24 * 60 * 60 * 1000)
       | expiry => expiry
       end;
     al_isActive := true;
     al_views := 0;
     al_createdAt := now env;
     al_createdBy := u_id user |}.

(** The record [markAttendance] stores under the key [k]. *)
Definition new_attendance (env : Env) (localTime : jsstring)
    (data : AttendanceData) (user : PublicUser) (k : Z) : Attendance :=
  {| at_id := k;
     at_studentId := atd_studentId data;
     at_date := match atd_date data with Some d => d | None => today env end;
     at_subject := atd_subject data;
     at_status := or_else (atd_status data) (js "present");
     at_time := or_else (atd_time data) localTime;
     at_markedBy := u_id user;
     at_timestamp := nowISO env;
     at_semester := atd_semester data;
     at_branch := atd_branch data;
     at_remarks := or_else (atd_remarks data) [] |}.

(** *** Rounding, as the specification words it *)

(** The magnitude of the finite double [m * 2^e], as the fraction
    [value_num m e / value_den e]. *)
Definition value_num (m : positive) (e : Z) : Z := Zpos m * 2 ^ Z.max e 0.

Definition value_den (e : Z) : Z := 2 ^ Z.max (- e) 0.

(** [d] is the integer nearest to [num / den], the larger of the two at a
    tie: [d - 1/2 <= num / den < d + 1/2]. *)
Definition nearest_integer (num den d : Z) : Prop :=
  2 * d * den - den <= 2 * num < 2 * d * den + den.

(** [t] is the double [x] printed with [places] decimals: the numeral with
    [places] fraction digits that is nearest to the value of [x], the
    larger at a tie. *)
Definition printed_with (places : Z) (x : float) (t : numeral) : Prop :=
  match Prim2SF x with
  | S754_nan => t = NaN_text
  | S754_infinity s => t = Infinity_text s
  | S754_zero _ => t = Decimal false 0 places
  | S754_finite s m e =>
      if 10 ^ 21 * value_den e <=? value_num m e then t = Exponent_text x
      else exists d : Z,
             t = Decimal s d places /\
             nearest_integer (value_num m e * 10 ^ places) (value_den e) d
  end.

(** [r] is the double [x] rounded to an integer: [x] itself when it has no
    fraction or is not finite, otherwise the integer nearest to its value,
    with the sign of [x] when that integer is zero. *)
Definition rounded_to_integer (x r : float) : Prop :=
  match Prim2SF x with
  | S754_finite s m e =>
      if 0 <=? e then r = x
      else exists n : Z,
             nearest_integer (if s then - Zpos m else Zpos m) (2 ^ (- e)) n /\
             r = (if n =? 0 then (if s then (-0)%float else 0%float)
                  else of_Z n)
  | _ => r = x
  end.

(** The number of the records of [l] whose status is [status]. *)
Fixpoint number_with_status (status : jsstring) (l : list Attendance) : Z :=
  match l with
  | [] => 0
  | a :: l' =>
      (if list_eq_dec N.eq_dec (at_status a) status then 1 else 0)
      + number_with_status status l'
  end.

(** ** Sample data *)

Definition empty_auto {R : Type} : AutoStore R :=
  {| rows := []; generator := 1 |}.

Definition empty_backend : Backend :=
  {| users := []; attendance := empty_auto; messMenu := [];
     mealBookings := []; careerOpportunities := empty_auto;
     studentApplications := empty_auto; results := [];
     campusAlerts := empty_auto; systemSettings := [];
     activityLog := empty_auto; currentUser := None;
     nerist_session := None; nerist_token := None |}.

Definition env0 : Env :=
  {| now := 1700000000000; nowISO := js "2023-11-14T22:13:20.000Z";
     random36 := "k3j9x0a7bq2zz"; userAgent := js "Mozilla/5.0" |}.

Definition env1 : Env :=
  {| now := 1700000060000; nowISO := js "2023-11-14T22:14:20.000Z";
     random36 := "7fq1m0c9d2xyz"; userAgent := js "Mozilla/5.0" |}.

Definition candidate (username password_ email : jsstring) : UserData :=
  {| d_username := username; d_password := password_; d_email := email;
     d_role := js "student"; d_name := []; d_department := [];
     d_year := []; d_avatarColor := []; d_emailPreferences := None;
     d_notificationSettings := None |}.

Definition alice : UserData :=
  candidate (js "alice") (js "demo123") (js "alice@nerist.ac.in").

(** A candidate whose password is written in Devanagari. *)
Definition asha : UserData :=
  candidate (js "asha") [2346; 2366; 2360]%N (js "asha@nerist.ac.in").

(** The backend after [registerUser] of [alice] on the empty one. *)
Definition alice_backend : Backend :=
  snd (registerUser env0 alice empty_backend).

Definition alice_id : jsstring := js "user_1700000000000_k3j9x0a7b".

Definition alice_record : User :=
  {| password := js "ZGVtbzEyM25lcmlzdF9zYWx0";
     public :=
       {| u_id := alice_id; u_username := js "alice";
          u_email := js "alice@nerist.ac.in"; u_name := js "alice";
          u_role := js "student"; u_department := []; u_year := [];
          u_avatarColor := js "primary";
          u_emailPreferences := default_emailPreferences;
          u_notificationSettings := default_notificationSettings;
          u_createdAt := nowISO env0; u_lastLogin := None;
          u_isActive := true |} |}.

Definition no_updates : Updates :=
  {| upd_id := None; upd_username := None; upd_role := None;
     upd_createdAt := None; upd_password := None; upd_email := None;
     upd_name := None; upd_department := None; upd_year := None;
     upd_avatarColor := None; upd_emailPreferences := None;
     upd_notificationSettings := None; upd_lastLogin := None;
     upd_isActive := None |}.

(** [{ isActive: false }]. *)
Definition deactivate : Updates :=
  {| upd_id := None; upd_username := None; upd_role := None;
     upd_createdAt := None; upd_password := None; upd_email := None;
     upd_name := None; upd_department := None; upd_year := None;
     upd_avatarColor := None; upd_emailPreferences := None;
     upd_notificationSettings := None; upd_lastLogin := None;
     upd_isActive := Some false |}.

(** [alice] after [updateUserProfile(id, { isActive: false })]. *)
Definition deactivated_backend : Backend :=
  snd (updateUserProfile env1 alice_id deactivate alice_backend).

(** A stored user whose id is written in Devanagari, as an import can
    store it. *)
Definition asha_id : jsstring := [2310; 2358; 2366]%N.

Definition asha_record : User :=
  {| password := js "ZGVtbzEyM25lcmlzdF9zYWx0";
     public :=
       {| u_id := asha_id; u_username := js "asha";
          u_email := js "asha@nerist.ac.in"; u_name := js "asha";
          u_role := js "student"; u_department := []; u_year := [];
          u_avatarColor := js "primary";
          u_emailPreferences := default_emailPreferences;
          u_notificationSettings := default_notificationSettings;
          u_createdAt := nowISO env0; u_lastLogin := None;
          u_isActive := true |} |}.

Definition asha_backend : Backend := set_users [asha_record] empty_backend.

(** [{ username: '', role: '', createdAt: '' }]. *)
Definition blank_restricted : Updates :=
  {| upd_id := None; upd_username := Some []; upd_role := Some [];
     upd_createdAt := Some []; upd_password := None; upd_email := None;
     upd_name := None; upd_department := None; upd_year := None;
     upd_avatarColor := None; upd_emailPreferences := None;
     upd_notificationSettings := None; upd_lastLogin := None;
     upd_isActive := None |}.

(** [{ id: '' }]. *)
Definition blank_id : Updates :=
  {| upd_id := Some []; upd_username := None; upd_role := None;
     upd_createdAt := None; upd_password := None; upd_email := None;
     upd_name := None; upd_department := None; upd_year := None;
     upd_avatarColor := None; upd_emailPreferences := None;
     upd_notificationSettings := None; upd_lastLogin := None;
     upd_isActive := None |}.

Definition sample_alert (id : Z) (priority : string) (expiry : datefield)
    (isActive : bool) (createdAt : Z) : Alert :=
  {| al_id := id; al_data := js "Water supply maintenance";
     al_priority := js priority; al_expiry := expiry;
     al_isActive := isActive; al_views := 0; al_createdAt := createdAt;
     al_createdBy := alice_id |}.

(** Alerts at the instant [now env0]: one expired a second ago, one
    expiring at this very instant, one without expiry, one deactivated. *)
Definition alert_expired : Alert :=
  sample_alert 1 "high" (Date (now env0 - 1000)) true 1699990000000.

Definition alert_expiring_now : Alert :=
  sample_alert 2 "low" (Date (now env0)) true 1699991000000.

Definition alert_without_expiry : Alert :=
  sample_alert 3 "medium" NoDate true 1699992000000.

Definition alert_deactivated : Alert :=
  sample_alert 4 "high" (Date (now env0 + 86400000)) false 1699993000000.

Definition alerts_backend : Backend :=
  set_campusAlerts
    {| rows := [alert_expired; alert_expiring_now; alert_without_expiry;
                alert_deactivated];
       generator := 5 |} alice_backend.

Ltac backend_simpl :=
  cbn [users attendance messMenu mealBookings careerOpportunities
       studentApplications results campusAlerts systemSettings activityLog
       currentUser nerist_session nerist_token
       set_users set_attendance set_messMenu set_mealBookings
       set_careerOpportunities set_studentApplications set_results
       set_campusAlerts set_systemSettings set_activityLog set_currentUser
       set_nerist_session set_nerist_token rows generator] in *.

Definition bob_id : jsstring := js "user_1700000030000_q8w2e4r6t".

Definition sample_attendance (id : Z) (studentId : jsstring) (date : Z)
    (status : string) : Attendance :=
  {| at_id := id; at_studentId := studentId; at_date := date;
     at_subject := js "Mathematics"; at_status := js status;
     at_time := js "10:00:00 am"; at_markedBy := alice_id;
     at_timestamp := nowISO env0; at_semester := js "3";
     at_branch := js "CSE"; at_remarks := [] |}.

(** Four classes of one student, three attended, and one of another. *)
Definition attendance_backend : Backend :=
  set_attendance
    {| rows := [sample_attendance 1 alice_id 1699833600000 "present";
                sample_attendance 2 alice_id 1699920000000 "absent";
                sample_attendance 3 bob_id 1699920000000 "late";
                sample_attendance 4 alice_id 1700006400000 "present";
                sample_attendance 5 alice_id 1700092800000 "present"];
       generator := 6 |} alice_backend.

Definition subject (grade_ : string) (credits : float) : Subject :=
  {| sub_name := js "Course"; sub_grade := Some (js grade_);
     sub_credits := Some credits |}.

Definition sample_result (studentId : jsstring) (semester : Z)
    (subjects : list Subject) : Result :=
  {| r_id := studentId ++ js "_" ++ dec semester; r_studentId := studentId;
     r_semester := semester; r_subjects := Some subjects;
     r_published := js "2023-11-14T22:13:20.000Z" |}.

(** The two semester records of the specification for one student, and
    for another student a record with a subject of zero credits. *)
Definition results_backend : Backend :=
  set_results
    (store_put r_id strcmp
       (sample_result bob_id 1 [subject "A" 0; subject "B" 1])
       (store_put r_id strcmp (sample_result alice_id 2 [subject "B" 3])
          (store_put r_id strcmp (sample_result alice_id 1 [subject "A" 4])
             [])))
    alice_backend.

Definition sample_menu (date mealType : string) (active : bool) : Menu :=
  {| m_id := menuId (js date) (js mealType); m_date := js date;
     m_mealType := js mealType; m_items := [js "Rice"; js "Dal"];
     m_predictedDemand := 50; m_active := active;
     m_createdBy := alice_id; m_createdAt := nowISO env0;
     m_updatedAt := nowISO env0; m_bookings := []; m_feedback := [];
     m_bookedCount := None; m_averageRating := None |}.

(** An active lunch and a lunch that is not active on the next day. *)
Definition lunch : Menu := sample_menu "2023-11-15" "lunch" true.

Definition closed_lunch : Menu := sample_menu "2023-11-16" "lunch" false.

Definition mess_backend : Backend :=
  set_messMenu
    (store_put m_id strcmp closed_lunch (store_put m_id strcmp lunch []))
    alice_backend.

(** [mess_backend] after the student has booked the lunch. *)
Definition booked_backend : Backend :=
  snd (bookMeal env0 (js "2023-11-15") (js "lunch") alice_id mess_backend).

Definition internship : Opportunity :=
  {| o_id := 1; o_title := js "Summer internship";
     o_type := js "internship";
     o_deadline := Date (now env0 + 30000); o_status := js "active";
     o_eligibleDepartments := None; o_applicants := 0; o_views := 0;
     o_createdAt := nowISO env0; o_createdBy := alice_id |}.

(** [alice] is logged in and one opportunity is open; its deadline falls
    between [now env0] and [now env1]. *)
Definition career_backend : Backend :=
  set_careerOpportunities {| rows := [internship]; generator := 2 |}
    (snd (login env0 (js "alice") (js "demo123") alice_backend)).

Definition applied_backend : Backend :=
  snd (applyForOpportunity env0 1 (js "cv.pdf") career_backend).

Definition sample_calls : list call :=
  [Apply env0 1 (js "cv.pdf"); Apply env0 1 (js "cv.pdf"); Logout env0;
   Apply env0 1 (js "cv.pdf"); Login env0 (js "alice") (js "demo123");
   Apply env1 1 (js "cv.pdf")].

(** [{ password: h }]. *)
Definition set_password (h : jsstring) : Updates :=
  {| upd_id := None; upd_username := None; upd_role := None;
     upd_createdAt := None; upd_password := Some h; upd_email := None;
     upd_name := None; upd_department := None; upd_year := None;
     upd_avatarColor := None; upd_emailPreferences := None;
     upd_notificationSettings := None; upd_lastLogin := None;
     upd_isActive := None |}.

(** [alice] has logged in at [env0]. *)
Definition session_backend : Backend :=
  snd (login env0 (js "alice") (js "demo123") alice_backend).

Definition alice_logged_in : PublicUser :=
  public (stamp_login env0 alice_record).

(** [{ mealType: 'lunch' }]. *)
Definition lunch_data : MealData :=
  {| md_mealType := js "lunch"; md_items := None;
     md_predictedDemand := None; md_active := None |}.


(** Eight days after [env0]. *)
Definition late_env : Env :=
  {| now := 1700691200000; nowISO := js "2023-11-22T22:13:20.000Z";
     random36 := "c4t0v8n1w5abc"; userAgent := js "Mozilla/5.0" |}.

(** [{ title: 'Water supply maintenance', priority: 'medium' }]. *)
Definition maintenance_data : AlertData :=
  {| ad_id := None; ad_title := js "Water supply maintenance";
     ad_data := js "title: 'Water supply maintenance'";
     ad_priority := js "medium"; ad_expiry := NoDate |}.

(** [{ studentId: bob, subject: 'Mathematics', status: 'late' }]. *)
Definition late_data : AttendanceData :=
  {| atd_studentId := bob_id; atd_date := None;
     atd_subject := js "Mathematics"; atd_status := js "late";
     atd_time := []; atd_semester := js "3"; atd_branch := js "CSE";
     atd_remarks := [] |}.

(** The attendance records of [attendance_backend], with [alice] logged
    in. *)
Definition marking_backend : Backend :=
  set_attendance (attendance attendance_backend) session_backend.

(** The alerts of [alerts_backend], with [alice] logged in. *)
Definition alerting_backend : Backend :=
  set_campusAlerts (campusAlerts alerts_backend) session_backend.


(** The first of the seeded emergency contacts. *)
Definition campus_security : Contact :=
  {| c_id := js "security"; c_name := js "Campus Security";
     c_role := js "24/7 Emergency"; c_number := js "+91 98765 43210";
     c_type := js "security"; c_icon := js "shield-alt";
     c_description := js "Campus security control room" |}.
(** Forty classes of one student, the first twenty-three attended. *)
Definition forty_classes : list Attendance :=
  map (fun k => sample_attendance (Z.of_nat k) bob_id 1699920000000
                  (if (k <=? 23)%nat then "present" else "absent"))
    (seq 1 40).

Definition forty_backend : Backend :=
  set_attendance {| rows := forty_classes; generator := 41 |} alice_backend.

(** Twenty ratings, seven of 5 and thirteen of 4: their sum is 87. *)
Definition twenty_ratings : list float :=
  repeat 5%float 7 ++ repeat 4%float 13.

(** [mess_backend] after these ratings have been given to the lunch. *)
Definition rated_backend : Backend :=
  fold_left
    (fun b rating =>
       snd (submitMealFeedback env0 (js "2023-11-15") (js "lunch") alice_id
              rating [] b))
    twenty_ratings mess_backend.

(** A log entry of the given user, at [seconds] after [now env0]. *)
Definition sample_entry (id : Z) (userId : jsstring) (seconds : Z)
  : LogEntry :=
  {| l_id := id; l_userId := userId; l_action := js "login";
     l_details := js "User logged in";
     l_timestamp := now env0 + 1000 * seconds;
     l_ip := js "local"; l_userAgent := js "Mozilla/5.0" |}.

(** Five entries of two users whose instants are not in key order. *)
Definition busy_backend : Backend :=
  set_activityLog
    {| rows := [sample_entry 1 alice_id 300; sample_entry 2 bob_id 600;
                sample_entry 3 alice_id 500; sample_entry 4 bob_id 200;
                sample_entry 5 alice_id 400];
       generator := 6 |} alice_backend.

(** A log of 1001 entries, one a second. *)
Definition long_log : list LogEntry :=
  map (fun k => sample_entry (Z.of_nat k) alice_id (Z.of_nat k)) (seq 1 1001).

Definition long_backend : Backend :=
  set_activityLog {| rows := long_log; generator := 1002 |} alice_backend.

(** ** Facts about strings and [btoa] *)

Lemma streq_spec (a b : jsstring) : streq a b = true <-> a = b.
Proof.
  revert b; induction a as [|x a IH]; intros [|y b]; simpl;
    try (split; [discriminate | congruence]); try tauto.
  rewrite andb_true_iff, N.eqb_eq, IH. split.
  - intros [-> ->]; reflexivity.
  - intros E; injection E; auto.
Qed.

Lemma streq_refl (a : jsstring) : streq a a = true.
Proof. apply streq_spec; reflexivity. Qed.

Lemma streq_neq (a b : jsstring) : a <> b -> streq a b = false.
Proof.
  intros H. destruct (streq a b) eqn:E; [|reflexivity].
  apply streq_spec in E. contradiction.
Qed.

Lemma streq_sym (a b : jsstring) : streq a b = streq b a.
Proof.
  destruct (streq b a) eqn:E.
  - apply streq_spec in E. subst. apply streq_refl.
  - apply streq_neq. intros ->. rewrite streq_refl in E. discriminate.
Qed.

Lemma strcmp_eq (a b : jsstring) : strcmp a b = Eq <-> a = b.
Proof.
  revert b; induction a as [|x a IH]; intros [|y b]; simpl;
    try (split; [discriminate | congruence]); try tauto.
  destruct (N.compare_spec x y) as [E|L|L].
  - subst. rewrite IH. split; [intros ->; reflexivity | congruence].
  - split; [discriminate|]. intros E; injection E; intros; subst; lia.
  - split; [discriminate|]. intros E; injection E; intros; subst; lia.
Qed.

Lemma strcmp_refl (a : jsstring) : strcmp a a = Eq.
Proof. apply strcmp_eq; reflexivity. Qed.

Lemma latin1_js (s : string) : latin1 (js s) = true.
Proof.
  unfold latin1, js. apply forallb_forall. intros c Hc.
  apply in_map_iff in Hc. destruct Hc as [a [<- _]].
  apply N.ltb_lt. apply N_ascii_bounded.
Qed.

Lemma latin1_app (a b : jsstring) :
  latin1 (a ++ b) = latin1 a && latin1 b.
Proof. unfold latin1. apply forallb_app. Qed.

Lemma b64char_inj (n m : N) :
  (n < 64 -> m < 64 -> b64char n = b64char m -> n = m)%N.
Proof.
  unfold b64char. intros Hn Hm.
  repeat match goal with
         | |- context [N.ltb ?a ?b] => destruct (N.ltb_spec a b)
         | |- context [N.eqb ?a ?b] => destruct (N.eqb_spec a b)
         end; lia.
Qed.

Lemma b64char_not_pad (n : N) : (n < 64)%N -> b64char n <> pad.
Proof.
  unfold b64char, pad. intros Hn.
  repeat match goal with
         | |- context [N.ltb ?a ?b] => destruct (N.ltb_spec a b)
         | |- context [N.eqb ?a ?b] => destruct (N.eqb_spec a b)
         end; lia.
Qed.

Ltac split_divmod a k :=
  let q := fresh "q" in
  let r := fresh "r" in
  let Hq := fresh "Hq" in
  let Hr := fresh "Hr" in
  pose proof (N.div_mod a k ltac:(lia)) as Hq;
  pose proof (N.mod_lt a k ltac:(lia)) as Hr;
  set (q := (a / k)%N) in *; set (r := (a mod k)%N) in *;
  clearbody q r.

Lemma sextet1_lt a : (a < 256 -> a / 4 < 64)%N.
Proof. intros. split_divmod a 4%N. lia. Qed.

Lemma sextet2_lt a b :
  (a < 256 -> b < 256 -> (a mod 4) * 16 + b / 16 < 64)%N.
Proof. intros. split_divmod a 4%N. split_divmod b 16%N. lia. Qed.

Lemma sextet2_lt0 a : (a < 256 -> (a mod 4) * 16 < 64)%N.
Proof. intros. split_divmod a 4%N. lia. Qed.

Lemma sextet3_lt b c :
  (b < 256 -> c < 256 -> (b mod 16) * 4 + c / 64 < 64)%N.
Proof. intros. split_divmod b 16%N. split_divmod c 64%N. lia. Qed.

Lemma sextet3_lt0 b : (b < 256 -> (b mod 16) * 4 < 64)%N.
Proof. intros. split_divmod b 16%N. lia. Qed.

Lemma sextet4_lt c : (c mod 64 < 64)%N.
Proof. apply N.mod_lt. lia. Qed.

Lemma sextets_inj1 a a' :
  (a < 256 -> a' < 256 ->
   a / 4 = a' / 4 -> (a mod 4) * 16 = (a' mod 4) * 16 -> a = a')%N.
Proof. intros. split_divmod a 4%N. split_divmod a' 4%N. lia. Qed.

Lemma sextets_inj2 a b a' b' :
  (a < 256 -> b < 256 -> a' < 256 -> b' < 256 ->
   a / 4 = a' / 4 ->
   (a mod 4) * 16 + b / 16 = (a' mod 4) * 16 + b' / 16 ->
   (b mod 16) * 4 = (b' mod 16) * 4 ->
   a = a' /\ b = b')%N.
Proof.
  intros.
  split_divmod a 4%N; split_divmod a' 4%N;
    split_divmod b 16%N; split_divmod b' 16%N.
  lia.
Qed.

Lemma sextets_inj3 a b c a' b' c' :
  (a < 256 -> b < 256 -> c < 256 -> a' < 256 -> b' < 256 -> c' < 256 ->
   a / 4 = a' / 4 ->
   (a mod 4) * 16 + b / 16 = (a' mod 4) * 16 + b' / 16 ->
   (b mod 16) * 4 + c / 64 = (b' mod 16) * 4 + c' / 64 ->
   c mod 64 = c' mod 64 ->
   a = a' /\ b = b' /\ c = c')%N.
Proof.
  intros.
  split_divmod a 4%N; split_divmod a' 4%N;
    split_divmod b 16%N; split_divmod b' 16%N;
    split_divmod c 64%N; split_divmod c' 64%N.
  lia.
Qed.

Lemma latin1_cons c s :
  latin1 (c :: s) = true <-> (c < 256)%N /\ latin1 s = true.
Proof.
  unfold latin1; simpl. rewrite andb_true_iff, N.ltb_lt. tauto.
Qed.

Ltac sextet_bound :=
  solve [ apply sextet1_lt; assumption
        | apply sextet2_lt; assumption
        | apply sextet2_lt0; assumption
        | apply sextet3_lt; assumption
        | apply sextet3_lt0; assumption
        | apply sextet4_lt ].

Ltac b64_facts :=
  repeat match goal with
         | H : latin1 (_ :: _) = true |- _ =>
             apply latin1_cons in H; destruct H
         end;
  try match goal with
      | H : b64char _ = pad |- _ =>
          exfalso; revert H; apply b64char_not_pad; sextet_bound
      | H : pad = b64char _ |- _ =>
          exfalso; symmetry in H; revert H; apply b64char_not_pad;
          sextet_bound
      end;
  repeat match goal with
         | H : b64char _ = b64char _ |- _ =>
             apply b64char_inj in H; [ | sextet_bound | sextet_bound ]
         end.

Lemma btoa_units_3 a b c rest :
  btoa_units (a :: b :: c :: rest) =
  (b64char (a / 4) :: b64char ((a mod 4) * 16 + b / 16)
   :: b64char ((b mod 16) * 4 + c / 64) :: b64char (c mod 64)
   :: btoa_units rest)%N.
Proof. reflexivity. Qed.

Lemma btoa_units_2 a b :
  btoa_units [a; b] =
  [b64char (a / 4); b64char ((a mod 4) * 16 + b / 16);
   b64char ((b mod 16) * 4); pad]%N.
Proof. reflexivity. Qed.

Lemma btoa_units_1 a :
  btoa_units [a] = [b64char (a / 4); b64char ((a mod 4) * 16); pad; pad]%N.
Proof. reflexivity. Qed.

Lemma btoa_units_inj_bounded (n : nat) :
  forall l1 l2 : jsstring,
    (length l1 <= n)%nat ->
    latin1 l1 = true -> latin1 l2 = true ->
    btoa_units l1 = btoa_units l2 -> l1 = l2.
Proof.
  induction n as [|n IH]; intros l1 l2 Hlen H1 H2 E.
  - destruct l1; [|cbn [length] in Hlen; lia].
    destruct l2 as [|a [|b [|c r]]]; [reflexivity| | |];
      rewrite ?btoa_units_1, ?btoa_units_2, ?btoa_units_3 in E;
      discriminate E.
  - destruct l1 as [|a [|b [|c r]]];
      destruct l2 as [|a' [|b' [|c' r']]];
      rewrite ?btoa_units_1, ?btoa_units_2, ?btoa_units_3 in E;
      try discriminate E; try reflexivity;
      injection E; intros; b64_facts.
    + f_equal. apply sextets_inj1; assumption.
    + destruct (sextets_inj2 a b a' b') as [-> ->]; auto.
    + destruct (sextets_inj3 a b c a' b' c') as [-> [-> ->]]; auto.
      do 3 f_equal. apply IH; auto. cbn [length] in Hlen. lia.
Qed.

Lemma btoa_units_inj (l1 l2 : jsstring) :
  latin1 l1 = true -> latin1 l2 = true ->
  btoa_units l1 = btoa_units l2 -> l1 = l2.
Proof. apply (btoa_units_inj_bounded (length l1)). lia. Qed.

Lemma btoa_inj (s1 s2 h : jsstring) :
  btoa s1 = Some h -> btoa s2 = Some h -> s1 = s2.
Proof.
  unfold btoa. intros H1 H2.
  destruct (latin1 s1) eqn:L1; [|discriminate].
  destruct (latin1 s2) eqn:L2; [|discriminate].
  apply btoa_units_inj; congruence.
Qed.

Lemma hashPassword_inj (p q h : jsstring) :
  hashPassword p = Some h -> hashPassword q = Some h -> p = q.
Proof.
  unfold hashPassword. intros Hp Hq.
  pose proof (btoa_inj _ _ _ Hp Hq) as E.
  apply app_inv_tail in E. exact E.
Qed.

Lemma hashPassword_latin1 (p : jsstring) :
  latin1 p = true -> hashPassword p = Some (btoa_units (p ++ js "nerist_salt")).
Proof.
  intros H. unfold hashPassword, btoa.
  rewrite latin1_app, H, latin1_js. reflexivity.
Qed.

Lemma hashPassword_defined (p h : jsstring) :
  hashPassword p = Some h -> latin1 p = true.
Proof.
  unfold hashPassword, btoa. rewrite latin1_app.
  destruct (latin1 p); [reflexivity | discriminate].
Qed.

Lemma strcmp_antisym (a b : jsstring) : strcmp b a = CompOpp (strcmp a b).
Proof.
  revert b; induction a as [|x a IH]; intros [|y b]; cbn [strcmp];
    try reflexivity.
  rewrite (N.compare_antisym x y).
  destruct (N.compare x y); cbn [CompOpp]; auto.
Qed.

Lemma strcmp_trans (a b c : jsstring) :
  strcmp a b = Lt -> strcmp b c = Lt -> strcmp a c = Lt.
Proof.
  revert b c; induction a as [|x a IH]; intros [|y b] [|z c];
    cbn [strcmp]; try congruence.
  destruct (N.compare_spec x y) as [E1|L1|L1]; try discriminate;
    destruct (N.compare_spec y z) as [E2|L2|L2]; try discriminate;
    intros H1 H2; subst.
  - rewrite N.compare_refl. eapply IH; eauto.
  - apply N.compare_lt_iff in L2. rewrite L2. reflexivity.
  - apply N.compare_lt_iff in L1. rewrite L1. reflexivity.
  - assert (L : (x < z)%N) by lia.
    apply N.compare_lt_iff in L. rewrite L. reflexivity.
Qed.

Lemma strcmp_nil_le (a : jsstring) : strcmp [] a <> Gt.
Proof. destruct a; cbn [strcmp]; discriminate. Qed.

Lemma truthy_false (s : jsstring) : truthy s = false <-> s = [].
Proof. destruct s; cbn [truthy]; split; congruence. Qed.

Lemma latin1_firstn (n : nat) (s : jsstring) :
  latin1 s = true -> latin1 (firstn n s) = true.
Proof.
  intros H. rewrite <- (firstn_skipn n s), latin1_app in H.
  apply andb_true_iff in H. tauto.
Qed.

Lemma latin1_dec (z : Z) : latin1 (dec z) = true.
Proof. apply latin1_js. Qed.

(** ** Facts about numbers *)

(** Rounding acts on the binary64 value of the quotient.  Where the exact
    quotient is a decimal tie, the double next to it decides: three out of
    eight give 38 percent, twenty-three out of forty give 57; a mean of
    9/4 prints as 2.3, a mean of 23/20 as 1.1, and 21.5 grade points over
    20 credits print as 1.07. *)
Example rounding_of_binary64_values :
  Math_round (of_Z 3 / of_Z 8 * 100) = 38%float /\
  Math_round (of_Z 23 / of_Z 40 * 100) = 57%float /\
  toFixed 1 (of_Z 9 / of_Z 4) = Decimal false 23 1 /\
  toFixed 1 (of_Z 23 / of_Z 20) = Decimal false 11 1 /\
  toFixed 2 (21.5 / 20) = Decimal false 107 2.
Proof. repeat split. Qed.

Lemma round_half_up_nearest (num den : Z) :
  0 < den -> nearest_integer num den (round_half_up num den).
Proof.
  intros H. unfold nearest_integer, round_half_up.
  pose proof (Z.div_mod (2 * num + den) (2 * den) ltac:(lia)) as E.
  pose proof (Z.mod_pos_bound (2 * num + den) (2 * den) ltac:(lia)) as B.
  set (q := (2 * num + den) / (2 * den)) in *.
  set (r := (2 * num + den) mod (2 * den)) in *.
  nia.
Qed.

Lemma nearest_integer_unique (num den d d' : Z) :
  0 < den -> nearest_integer num den d -> nearest_integer num den d' ->
  d = d'.
Proof. unfold nearest_integer. intros H H1 H2. nia. Qed.

Lemma exact_fraction_value (m : positive) (e : Z) :
  exact_fraction m e = (value_num m e, value_den e).
Proof.
  unfold exact_fraction, value_num, value_den.
  destruct (Z.leb_spec 0 e).
  - rewrite Z.max_l, Z.max_r by lia. reflexivity.
  - rewrite Z.max_r, Z.max_l by lia. rewrite Z.mul_1_r. reflexivity.
Qed.

Lemma value_den_pos (e : Z) : 0 < value_den e.
Proof. unfold value_den. apply Z.pow_pos_nonneg; lia. Qed.

(** [toFixed] prints the numeral nearest to the value of the double. *)
Lemma toFixed_printed_with (places : Z) (x : float) :
  printed_with places x (toFixed places x).
Proof.
  unfold printed_with, toFixed.
  destruct (Prim2SF x) as [s|s| |s m e]; try reflexivity.
  rewrite exact_fraction_value.
  destruct (10 ^ 21 * value_den e <=? value_num m e); [reflexivity|].
  eexists. split; [reflexivity|].
  apply round_half_up_nearest. apply value_den_pos.
Qed.

(** [Math.round] gives the integer nearest to the value of the double. *)
Lemma Math_round_rounded (x : float) : rounded_to_integer x (Math_round x).
Proof.
  unfold rounded_to_integer, Math_round.
  destruct (Prim2SF x) as [s|s| |s m e]; try reflexivity.
  destruct (Z.leb_spec 0 e); [reflexivity|].
  unfold exact_fraction. destruct (Z.leb_spec 0 e); [lia|].
  eexists. split; [|reflexivity].
  apply round_half_up_nearest. apply Z.pow_pos_nonneg; lia.
Qed.

(** ** Facts about object stores *)

Section StoreFacts.
Context {R K : Type} (key : R -> K) (cmp : K -> K -> comparison).
Hypothesis cmp_eq : forall a b, cmp a b = Eq <-> a = b.
Hypothesis cmp_antisym : forall a b, cmp b a = CompOpp (cmp a b).
Hypothesis cmp_trans :
  forall a b c, cmp a b = Lt -> cmp b c = Lt -> cmp a c = Lt.

Lemma cmp_refl (a : K) : cmp a a = Eq.
Proof. apply cmp_eq; reflexivity. Qed.

Lemma has_key_true (k : K) (r : R) :
  has_key key cmp k r = true <-> key r = k.
Proof.
  unfold has_key. rewrite <- cmp_eq.
  destruct (cmp (key r) k); split; congruence.
Qed.

Lemma store_get_In (s : list R) (k : K) (r : R) :
  store_get key cmp s k = Some r -> In r s /\ key r = k.
Proof.
  unfold store_get. intros H. apply find_some in H.
  destruct H as [H1 H2]. apply has_key_true in H2. auto.
Qed.

Lemma store_get_None (s : list R) (k : K) :
  store_get key cmp s k = None -> forall r, In r s -> key r <> k.
Proof.
  unfold store_get. intros H r Hr E.
  apply (find_none _ _ H) in Hr.
  apply has_key_true in E. congruence.
Qed.

Lemma store_get_put_same (r : R) (s : list R) :
  store_get key cmp (store_put key cmp r s) (key r) = Some r.
Proof.
  unfold store_get.
  induction s as [|x s IH]; cbn [store_put find].
  - unfold has_key. rewrite cmp_refl. reflexivity.
  - destruct (cmp (key r) (key x)) eqn:E; cbn [find].
    + unfold has_key. rewrite cmp_refl. reflexivity.
    + unfold has_key. rewrite cmp_refl. reflexivity.
    + unfold has_key at 1. rewrite cmp_antisym, E. cbn [CompOpp].
      exact IH.
Qed.

Lemma store_get_put_other (r : R) (s : list R) (k : K) :
  k <> key r ->
  store_get key cmp (store_put key cmp r s) k = store_get key cmp s k.
Proof.
  intros Hk. unfold store_get.
  assert (Hr : has_key key cmp k r = false).
  { destruct (has_key key cmp k r) eqn:E; [|reflexivity].
    apply has_key_true in E. congruence. }
  induction s as [|x s IH]; cbn [store_put find].
  - rewrite Hr. reflexivity.
  - destruct (cmp (key r) (key x)) eqn:E; cbn [find].
    + rewrite Hr. apply cmp_eq in E.
      assert (Hx : has_key key cmp k x = false).
      { destruct (has_key key cmp k x) eqn:E'; [|reflexivity].
        apply has_key_true in E'. congruence. }
      rewrite Hx. reflexivity.
    + rewrite Hr. reflexivity.
    + destruct (has_key key cmp k x); [reflexivity | exact IH].
Qed.

Lemma In_store_put (r x : R) (s : list R) :
  In x (store_put key cmp r s) -> x = r \/ In x s.
Proof.
  induction s as [|y s IH]; cbn [store_put].
  - intros [H|[]]; auto.
  - destruct (cmp (key r) (key y)); cbn [In]; intuition auto.
Qed.

Lemma In_store_put_new (r : R) (s : list R) : In r (store_put key cmp r s).
Proof.
  induction s as [|y s IH]; cbn [store_put].
  - left; reflexivity.
  - destruct (cmp (key r) (key y)); cbn [In]; auto.
Qed.

Lemma In_store_put_old (r x : R) (s : list R) :
  In x s -> key x <> key r -> In x (store_put key cmp r s).
Proof.
  intros Hx Hk. induction s as [|y s IH]; cbn [store_put].
  - destruct Hx.
  - destruct (cmp (key r) (key y)) eqn:E; cbn [In].
    + apply cmp_eq in E. destruct Hx as [->|Hx]; [congruence | auto].
    + auto.
    + destruct Hx as [->|Hx]; auto.
Qed.

Lemma wf_inv (x : R) (s : list R) :
  store_wf key cmp (x :: s) ->
  store_wf key cmp s /\ Forall (key_lt key cmp x) s.
Proof. intros H. inversion H; subst. auto. Qed.

Lemma wf_unique (s : list R) (x y : R) :
  store_wf key cmp s -> In x s -> In y s -> key x = key y -> x = y.
Proof.
  induction s as [|z s IH]; intros W Hx Hy E; [destruct Hx|].
  apply wf_inv in W. destruct W as [W F].
  rewrite Forall_forall in F. unfold key_lt in F.
  destruct Hx as [->|Hx]; destruct Hy as [->|Hy]; auto.
  - apply F in Hy. rewrite E, cmp_refl in Hy. discriminate.
  - apply F in Hx. rewrite E, cmp_refl in Hx. discriminate.
Qed.

Lemma store_put_wf (r : R) (s : list R) :
  store_wf key cmp s -> store_wf key cmp (store_put key cmp r s).
Proof.
  induction s as [|x s IH]; intros W; cbn [store_put].
  - constructor; constructor.
  - pose proof (wf_inv _ _ W) as [W' F].
    destruct (cmp (key r) (key x)) eqn:E.
    + apply cmp_eq in E. constructor; [exact W'|].
      unfold key_lt in *. rewrite E. exact F.
    + constructor; [exact W|]. constructor; [exact E|].
      rewrite Forall_forall in F. apply Forall_forall. intros y Hy.
      unfold key_lt in *. eapply cmp_trans; eauto.
    + constructor; [apply IH; exact W'|].
      rewrite Forall_forall in F. apply Forall_forall. intros y Hy.
      apply In_store_put in Hy. destruct Hy as [->|Hy]; [|auto].
      unfold key_lt. rewrite cmp_antisym, E. reflexivity.
Qed.

Lemma In_store_put_wf (r x : R) (s : list R) :
  store_wf key cmp s -> In x (store_put key cmp r s) ->
  x = r \/ (In x s /\ key x <> key r).
Proof.
  intros W Hx.
  pose proof (store_put_wf r s W) as W'.
  destruct (cmp (key x) (key r)) eqn:E.
  - left. apply cmp_eq in E.
    eapply wf_unique; eauto. apply In_store_put_new.
  - right. destruct (In_store_put _ _ _ Hx) as [->|Hs].
    + rewrite cmp_refl in E. discriminate.
    + split; [exact Hs|]. intros E'. rewrite E', cmp_refl in E.
      discriminate.
  - right. destruct (In_store_put _ _ _ Hx) as [->|Hs].
    + rewrite cmp_refl in E. discriminate.
    + split; [exact Hs|]. intros E'. rewrite E', cmp_refl in E.
      discriminate.
Qed.

Lemma store_get_wf_In (s : list R) (r : R) :
  store_wf key cmp s -> In r s -> store_get key cmp s (key r) = Some r.
Proof.
  intros W Hr. destruct (store_get key cmp s (key r)) as [x|] eqn:E.
  - apply store_get_In in E. destruct E as [Hx E].
    f_equal. eapply wf_unique; eauto.
  - exfalso. eapply store_get_None; eauto.
Qed.

(** Putting a record under a key the store does not hold adds it. *)
Lemma store_put_fresh (r : R) (s : list R) :
  (forall x, In x s -> key x <> key r) ->
  Permutation (store_put key cmp r s) (r :: s).
Proof.
  induction s as [|x s IH]; intros F; cbn [store_put].
  - reflexivity.
  - destruct (cmp (key r) (key x)) eqn:E.
    + apply cmp_eq in E. exfalso. apply (F x (or_introl eq_refl)). auto.
    + reflexivity.
    + rewrite IH; [apply perm_swap|].
      intros y Hy. apply F. right. exact Hy.
Qed.
End StoreFacts.

(** ** Registration and login *)

Lemma filter_none {A} (f : A -> bool) (l : list A) :
  (forall x, In x l -> f x = false) -> filter f l = [].
Proof.
  induction l as [|x l IH]; intros H; cbn [filter]; [reflexivity|].
  rewrite (H x (or_introl eq_refl)). apply IH. intros y Hy. apply H.
  right. exact Hy.
Qed.

Lemma hd_filter_unique {A} (f : A -> bool) (l : list A) (u : A) :
  In u l -> f u = true -> (forall x, In x l -> f x = true -> x = u) ->
  hd_error (filter f l) = Some u.
Proof.
  intros Hu Hf Huniq.
  destruct (filter f l) as [|y r] eqn:E.
  - assert (In u (filter f l)) by (apply filter_In; auto).
    rewrite E in H. destruct H.
  - assert (Hy : In y (filter f l)) by (rewrite E; left; reflexivity).
    apply filter_In in Hy. destruct Hy as [Hy1 Hy2].
    cbn [hd_error]. f_equal. auto.
Qed.

Lemma users_conflict_false (u : User) (s : list User) :
  (forall v, In v s ->
     user_key v = user_key u \/
     (u_username (public v) <> u_username (public u) /\
      u_email (public v) <> u_email (public u))) ->
  users_conflict u s = false.
Proof.
  intros H. unfold users_conflict.
  destruct (existsb _ s) eqn:E; [|reflexivity].
  apply existsb_exists in E. destruct E as [v [Hv C]].
  apply andb_true_iff in C. destruct C as [C1 C2].
  apply negb_true_iff in C1.
  destruct (H v Hv) as [K|[N1 N2]].
  - rewrite K, streq_refl in C1. discriminate.
  - apply orb_true_iff in C2. destruct C2 as [C2|C2];
      apply streq_spec in C2; contradiction.
Qed.

Lemma logActivity_run (env : Env) (userId action details : jsstring)
    (b : Backend) :
  exists st, logActivity env userId action details b
             = (Ok tt, set_activityLog st b).
Proof.
  unfold logActivity, bind, addObject_activityLog, ret.
  destruct (auto_add _ _ _) as [k st]. eexists. reflexivity.
Qed.

Lemma registerUser_ok (env : Env) (d : UserData) (b : Backend) (h : jsstring) :
  truthy (d_username d) = true -> truthy (d_password d) = true ->
  truthy (d_email d) = true -> truthy (d_role d) = true ->
  (forall u, In u (users b) -> u_username (public u) <> d_username d) ->
  (forall u, In u (users b) -> u_email (public u) <> d_email d) ->
  hashPassword (d_password d) = Some h ->
  exists (user : User) (b1 : Backend),
    registerUser env d b = (Ok (public user), b1) /\
    users b1 = store_put user_key strcmp user (users b) /\
    password user = h /\
    u_username (public user) = d_username d /\
    u_email (public user) = d_email d /\
    u_isActive (public user) = true /\
    latin1 (user_key user) = true.
Proof.
  intros Tu Tp Te Tr Fu Fe Hh.
  unfold registerUser. rewrite Tu, Tp, Te, Tr. cbn [negb orb].
  unfold bind at 1. unfold getUserByUsername at 1. unfold gets at 1.
  unfold getAllObjects_index at 1. rewrite Tu.
  rewrite filter_none.
  2:{ intros x Hx. apply streq_neq. auto. }
  cbn [hd_error].
  unfold bind at 1. unfold getUserByEmail at 1. unfold gets at 1.
  unfold getAllObjects_index at 1. rewrite Te.
  rewrite filter_none.
  2:{ intros x Hx. apply streq_neq. auto. }
  cbn [hd_error].
  rewrite Hh. unfold btoaM.
  unfold bind at 1. unfold ret at 1.
  unfold bind at 1. unfold putObject_users at 1.
  rewrite users_conflict_false.
  2:{ intros v Hv. right. cbn [public u_username u_email]. auto. }
  unfold bind at 1.
  match goal with |- context [logActivity ?e ?a ?b ?c ?s] =>
    destruct (logActivity_run e a b c s) as [st ->] end.
  unfold ret.
  eexists. eexists. split; [reflexivity|].
  repeat split.
  cbn [user_key public u_id].
  rewrite !latin1_app, ?latin1_js, ?latin1_dec. cbn [andb].
  apply latin1_firstn. apply latin1_js.
Qed.

Lemma login_ok (env : Env) (b : Backend) (user : User)
    (username pw : jsstring) :
  hd_error (getAllObjects_index (fun u => u_username (public u)) username
              (users b)) = Some user ->
  u_isActive (public user) = true ->
  hashPassword pw = Some (password user) ->
  users_conflict (stamp_login env user) (users b) = false ->
  latin1 (user_key user) = true ->
  exists b2 : Backend,
    login env username pw b = (Ok (public (stamp_login env user)), b2) /\
    users b2 = store_put user_key strcmp (stamp_login env user) (users b).
Proof.
  intros Hfind Hact Hhash Hconf Hid.
  unfold login.
  unfold bind at 1. unfold getUserByUsername at 1. unfold gets at 1.
  rewrite Hfind. rewrite Hact. cbn [negb].
  rewrite Hhash. unfold btoaM. unfold bind at 1. unfold ret at 1.
  rewrite streq_refl. cbn [negb].
  fold (stamp_login env user).
  unfold bind at 1. unfold putObject_users at 1. rewrite Hconf.
  unfold bind at 1. unfold createSession at 1.
  unfold bind at 1. unfold generateToken at 1.
  unfold bind at 1. unfold btoa.
  replace (user_key (stamp_login env user)) with (user_key user)
    by reflexivity.
  rewrite !latin1_app, Hid, ?latin1_js, ?latin1_dec.
  rewrite latin1_firstn by apply latin1_js.
  cbn [andb btoaM]. unfold ret at 1. unfold ret at 1.
  unfold bind at 1. unfold modify at 1.
  unfold bind at 1. unfold modify at 1.
  unfold ret at 1.
  unfold bind at 1.
  match goal with |- context [logActivity ?e ?a ?b ?c ?s] =>
    destruct (logActivity_run e a b c s) as [st ->] end.
  unfold bind at 1. unfold modify at 1. unfold ret.
  eexists. split; reflexivity.
Qed.

(** Registration followed by login, for a password made of Latin-1
    characters: a candidate with non-empty username, password, email and
    role, whose username and email are not yet present, can register and
    then log in with the same credentials; the result of [registerUser]
    and the result of [login] are the [users] record stored at that moment
    without its [password]. *)
Theorem register_then_login (env1 env2 : Env) (d : UserData) (b : Backend) :
  truthy (d_username d) = true -> truthy (d_password d) = true ->
  truthy (d_email d) = true -> truthy (d_role d) = true ->
  (forall u, In u (users b) -> u_username (public u) <> d_username d) ->
  (forall u, In u (users b) -> u_email (public u) <> d_email d) ->
  latin1 (d_password d) = true ->
  exists (user user' : User) (b1 b2 : Backend),
    registerUser env1 d b = (Ok (public user), b1) /\
    store_get user_key strcmp (users b1) (user_key user) = Some user /\
    u_username (public user) = d_username d /\
    login env2 (d_username d) (d_password d) b1 = (Ok (public user'), b2) /\
    store_get user_key strcmp (users b2) (user_key user) = Some user' /\
    u_username (public user') = d_username d.
Proof.
  intros Tu Tp Te Tr Fu Fe Lp.
  destruct (registerUser_ok env1 d b _ Tu Tp Te Tr Fu Fe
              (hashPassword_latin1 _ Lp))
    as (user & b1 & Hreg & Husers & Hpw & Hname & Hmail & Hact & Hid).
  assert (Hold : forall v, In v (users b1) ->
            v = user \/ (u_username (public v) <> d_username d /\
                         u_email (public v) <> d_email d)).
  { intros v Hv. rewrite Husers in Hv. apply In_store_put in Hv.
    destruct Hv as [->|Hv]; auto. }
  destruct (login_ok env2 b1 user (d_username d) (d_password d))
    as (b2 & Hlogin & Husers2); auto.
  - unfold getAllObjects_index. rewrite Tu.
    apply hd_filter_unique.
    + rewrite Husers. apply In_store_put_new.
    + rewrite Hname. apply streq_refl.
    + intros x Hx E. apply streq_spec in E.
      destruct (Hold x Hx) as [->|[N _]]; [reflexivity | contradiction].
  - rewrite Hpw. apply hashPassword_latin1. exact Lp.
  - apply users_conflict_false. intros v Hv.
    destruct (Hold v Hv) as [->|[N1 N2]]; [left; reflexivity|].
    right. cbn [stamp_login public set_lastLogin u_username u_email].
    rewrite Hname, Hmail. auto.
  - exists user, (stamp_login env2 user), b1, b2.
    repeat split; auto.
    + rewrite Husers. apply store_get_put_same.
      * apply strcmp_eq.
      * apply strcmp_antisym.
    + rewrite Husers2.
      change (user_key user) with (user_key (stamp_login env2 user)).
      apply store_get_put_same.
      * apply strcmp_eq.
      * apply strcmp_antisym.
Qed.

Lemma register_then_login_witness :
  exists (user user' : User) (b1 b2 : Backend),
    registerUser env0 alice empty_backend = (Ok (public user), b1) /\
    store_get user_key strcmp (users b1) (user_key user) = Some user /\
    u_username (public user) = d_username alice /\
    login env1 (d_username alice) (d_password alice) b1
      = (Ok (public user'), b2) /\
    store_get user_key strcmp (users b2) (user_key user) = Some user' /\
    u_username (public user') = d_username alice.
Proof.
  apply register_then_login; try reflexivity; intros u [].
Defined.

(** C1 at the failing input: a candidate with non-empty fields and a fresh
    username and email, whose password has a character outside Latin-1,
    is not registered: [btoa] raises [InvalidCharacterError] in
    [hashPassword]. *)
Theorem register_rejects_non_latin1_password :
  truthy (d_username asha) = true /\ truthy (d_password asha) = true /\
  truthy (d_email asha) = true /\ truthy (d_role asha) = true /\
  users empty_backend = [] /\
  registerUser env0 asha empty_backend
    = (Throw InvalidCharacterError, empty_backend).
Proof. repeat split. Qed.

(** ** Password change *)

Lemma users_conflict_elim (u v : User) (s : list User) :
  users_conflict u s = false -> In v s -> user_key v <> user_key u ->
  u_username (public v) <> u_username (public u) /\
  u_email (public v) <> u_email (public u).
Proof.
  unfold users_conflict. intros H Hv K.
  destruct (existsb_exists
              (fun v => negb (streq (user_key v) (user_key u)) &&
                 (streq (u_username (public v)) (u_username (public u)) ||
                  streq (u_email (public v)) (u_email (public u)))) s)
    as [_ E].
  split; intros Eq;
    (assert (X : existsb
                (fun v => negb (streq (user_key v) (user_key u)) &&
                   (streq (u_username (public v)) (u_username (public u)) ||
                    streq (u_email (public v)) (u_email (public u)))) s
              = true);
     [apply E; exists v; split; [exact Hv|];
      rewrite (streq_neq _ _ K), Eq, streq_refl; cbn [negb andb orb];
      rewrite ?orb_true_r; reflexivity
     | congruence]).
Qed.

Lemma In_sort {R} (le : R -> R -> bool) (l : list R) (x : R) :
  In x (sort_by le l) <-> In x l.
Proof.
  assert (Hins : forall y s, In x (insert_sorted le y s) <-> x = y \/ In x s).
  { intros y s. induction s as [|z s IH]; cbn [insert_sorted In].
    - intuition auto.
    - destruct (le y z); cbn [In]; intuition auto. }
  induction l as [|y l IH]; cbn [sort_by fold_right]; [tauto|].
  fold (sort_by le l). rewrite Hins, IH. cbn [In]. intuition auto.
Qed.

Lemma hd_sort_empty_key {R} (field : R -> jsstring) (l : list R) :
  (exists x, In x l /\ field x = []) ->
  exists y, hd_error (sort_by (index_le field) l) = Some y /\ field y = [].
Proof.
  induction l as [|x l IH]; intros [z [Hz Ez]]; [destruct Hz|].
  cbn [sort_by fold_right]. fold (sort_by (index_le field) l).
  destruct (field x) as [|c r] eqn:Ex.
  - exists x. split; [|exact Ex].
    destruct (sort_by (index_le field) l) as [|y s]; cbn [insert_sorted];
      [reflexivity|].
    unfold index_le. rewrite Ex.
    destruct (field y); reflexivity.
  - destruct Hz as [->|Hz]; [congruence|].
    destruct IH as [y [Hy Ey]]; [exists z; auto|].
    exists y. split; [|exact Ey].
    destruct (sort_by (index_le field) l) as [|y' s]; [discriminate|].
    cbn [hd_error] in Hy. injection Hy as ->.
    cbn [insert_sorted]. unfold index_le. rewrite Ex, Ey.
    reflexivity.
Qed.

Lemma index_lookup_unique {R} (field : R -> jsstring) (l : list R) (u : R) :
  In u l -> (forall x, In x l -> field x = field u -> x = u) ->
  hd_error (getAllObjects_index field (field u) l) = Some u.
Proof.
  intros Hu Huniq. unfold getAllObjects_index.
  destruct (truthy (field u)) eqn:T.
  - apply hd_filter_unique; auto.
    + apply streq_refl.
    + intros x Hx E. apply streq_spec in E. auto.
  - apply truthy_false in T.
    destruct (hd_sort_empty_key field l) as [y [Hy Ey]];
      [exists u; auto|].
    rewrite Hy. f_equal. apply Huniq; [|congruence].
    apply (In_sort (index_le field)).
    destruct (sort_by (index_le field) l); [discriminate|].
    injection Hy as ->. left; reflexivity.
Qed.

Lemma changePassword_inv (env : Env) (userId old new : jsstring)
    (b b1 : Backend) (user : User) :
  store_get user_key strcmp (users b) userId = Some user ->
  changePassword env userId old new b = (Ok true, b1) ->
  exists h : jsstring,
    hashPassword old = Some (password user) /\
    hashPassword new = Some h /\
    users_conflict (new_password h user) (users b) = false /\
    users b1 = store_put user_key strcmp (new_password h user) (users b).
Proof.
  intros Hget. unfold changePassword.
  unfold bind at 1. unfold getUserById at 1. unfold gets at 1.
  rewrite Hget.
  destruct (hashPassword old) as [ho|] eqn:Ho;
    [|cbv [btoaM bind throw]; discriminate].
  unfold btoaM at 1. unfold bind at 1. unfold ret at 1.
  destruct (streq (password user) ho) eqn:E;
    [|cbv [negb throw]; discriminate].
  apply streq_spec in E. subst ho. cbn [negb].
  destruct (hashPassword new) as [hn|] eqn:Hn;
    [|cbv [btoaM bind throw]; discriminate].
  unfold btoaM at 1. unfold bind at 1. unfold ret at 1.
  unfold bind at 1. unfold putObject_users at 1.
  fold (new_password hn user).
  destruct (users_conflict (new_password hn user) (users b)) eqn:C;
    [discriminate|].
  unfold bind at 1.
  match goal with |- context [logActivity ?e ?a ?b ?c ?s] =>
    destruct (logActivity_run e a b c s) as [st ->] end.
  unfold ret. intros H. injection H as <-.
  exists hn. repeat split; auto.
Qed.

Lemma login_wrong_password (env : Env) (b : Backend) (user : User)
    (username pw h : jsstring) :
  hd_error (getAllObjects_index (fun u => u_username (public u)) username
              (users b)) = Some user ->
  u_isActive (public user) = true ->
  hashPassword pw = Some h -> h <> password user ->
  login env username pw b = (Throw (Error "Invalid password"), b).
Proof.
  intros Hfind Hact Hhash Hne.
  unfold login.
  unfold bind at 1. unfold getUserByUsername at 1. unfold gets at 1.
  rewrite Hfind, Hact. cbn [negb].
  rewrite Hhash. unfold btoaM. unfold bind at 1. unfold ret at 1.
  rewrite streq_neq by congruence. reflexivity.
Qed.

(** C10 (amended): for every stored user that is active and whose id is
    made of Latin-1 characters, after a successful [changePassword] a
    [login] with the user's username and the new password succeeds, and
    a [login] with the former password, when it differs from the new one,
    fails with 'Invalid password'. *)
Theorem changePassword_then_login (env env' env'' : Env)
    (userId old new : jsstring) (b b1 : Backend) (user : User) :
  store_wf user_key strcmp (users b) ->
  store_get user_key strcmp (users b) userId = Some user ->
  u_isActive (public user) = true ->
  latin1 (user_key user) = true ->
  changePassword env userId old new b = (Ok true, b1) ->
  (exists (user' : User) (b2 : Backend),
      login env' (u_username (public user)) new b1
        = (Ok (public user'), b2) /\
      user_key user' = user_key user) /\
  (old <> new ->
   login env'' (u_username (public user)) old b1
     = (Throw (Error "Invalid password"), b1)).
Proof.
  intros W Hget Hact Hid Hch.
  destruct (changePassword_inv _ _ _ _ _ _ _ Hget Hch)
    as (h & Hold & Hnew & Hconf & Husers).
  set (u' := new_password h user) in *.
  assert (Hothers : forall x, In x (users b1) ->
            x = u' \/ (u_username (public x) <> u_username (public u') /\
                       u_email (public x) <> u_email (public u'))).
  { intros x Hx. rewrite Husers in Hx.
    destruct (In_store_put_wf user_key strcmp strcmp_eq strcmp_antisym
                strcmp_trans u' x (users b) W Hx) as [->|[Hx' K]];
      [left; reflexivity|].
    right. exact (users_conflict_elim u' x (users b) Hconf Hx' K). }
  assert (Hfind : hd_error
            (getAllObjects_index (fun u => u_username (public u))
               (u_username (public user)) (users b1)) = Some u').
  { apply (index_lookup_unique (fun u => u_username (public u)) _ u').
    - rewrite Husers. apply In_store_put_new.
    - intros x Hx E. destruct (Hothers x Hx) as [->|[N _]];
        [reflexivity | contradiction]. }
  split.
  - assert (Hc : users_conflict (stamp_login env' u') (users b1) = false).
    { apply users_conflict_false. intros x Hx.
      destruct (Hothers x Hx) as [->|N]; [left; reflexivity | right; exact N]. }
    destruct (login_ok env' b1 u' (u_username (public user)) new
                Hfind Hact Hnew Hc Hid) as (b2 & Hlogin & _).
    exists (stamp_login env' u'), b2. split; [exact Hlogin | reflexivity].
  - intros Hne.
    apply (login_wrong_password env'' b1 u' _ old (password user)); auto.
    intros E. apply Hne.
    apply (hashPassword_inj old new h); [|exact Hnew].
    rewrite Hold. f_equal. exact E.
Qed.

Lemma alice_registered :
  registerUser env0 alice empty_backend
    = (Ok (public alice_record), alice_backend) /\
  users alice_backend = [alice_record].
Proof. split; reflexivity. Qed.

Lemma changePassword_then_login_witness :
  (exists (user' : User) (b2 : Backend),
      login env1 (js "alice") (js "new-secret")
        (snd (changePassword env1 alice_id (js "demo123") (js "new-secret")
                alice_backend))
        = (Ok (public user'), b2) /\
      user_key user' = alice_id) /\
  (js "demo123" <> js "new-secret" ->
   login env1 (js "alice") (js "demo123")
     (snd (changePassword env1 alice_id (js "demo123") (js "new-secret")
             alice_backend))
     = (Throw (Error "Invalid password"),
        snd (changePassword env1 alice_id (js "demo123") (js "new-secret")
               alice_backend))).
Proof.
  apply (changePassword_then_login env1 env1 env1 alice_id
           (js "demo123") (js "new-secret") alice_backend _ alice_record).
  - unfold store_wf. repeat constructor.
  - reflexivity.
  - reflexivity.
  - reflexivity.
  - reflexivity.
Defined.

(** C10 as stated fails on a deactivated user: [changePassword]
    succeeds, the [login] that follows is refused. *)
Lemma changePassword_then_login_can_fail :
  u_isActive (public alice_record) = true /\
  (exists user : User,
      store_get user_key strcmp (users deactivated_backend) alice_id
        = Some user /\
      u_isActive (public user) = false) /\
  exists b1 : Backend,
    changePassword env1 alice_id (js "demo123") (js "new-secret")
      deactivated_backend = (Ok true, b1) /\
    login env1 (js "alice") (js "new-secret") b1
      = (Throw (Error "Account is deactivated"), b1).
Proof.
  split; [reflexivity|]. split.
  - eexists. split; reflexivity.
  - eexists. split; reflexivity.
Qed.

(** A user whose id is outside Latin-1 cannot log in: [generateToken]
    passes the id to [btoa]. *)
Example login_rejects_non_latin1_id :
  exists b1 : Backend,
    changePassword env1 asha_id (js "demo123") (js "new-secret")
      asha_backend = (Ok true, b1) /\
    fst (login env1 (js "asha") (js "new-secret") b1)
      = Throw InvalidCharacterError.
Proof. eexists. split; reflexivity. Qed.

(** ** Profile updates *)

(** Truthy values of the four restricted properties are dropped. *)
Lemma merge_updates_drops_truthy (user : User) (updates : Updates) :
  (forall v, upd_id updates = Some v -> truthy v = true) ->
  (forall v, upd_username updates = Some v -> truthy v = true) ->
  (forall v, upd_role updates = Some v -> truthy v = true) ->
  (forall v, upd_createdAt updates = Some v -> truthy v = true) ->
  let p := public (merge_updates user updates) in
  u_id p = u_id (public user) /\
  u_username p = u_username (public user) /\
  u_role p = u_role (public user) /\
  u_createdAt p = u_createdAt (public user).
Proof.
  intros Hi Hu Hr Hc. cbn [merge_updates public u_id u_username u_role
                             u_createdAt].
  unfold drop_if_truthy.
  destruct (upd_id updates) as [v1|]; [rewrite (Hi v1 eq_refl)|];
    destruct (upd_username updates) as [v2|]; [rewrite (Hu v2 eq_refl)| |
      rewrite (Hu v2 eq_refl)|];
    destruct (upd_role updates) as [v3|]; try rewrite (Hr v3 eq_refl);
    destruct (upd_createdAt updates) as [v4|]; try rewrite (Hc v4 eq_refl);
    cbn [override]; auto.
Qed.

(** C9 at the failing input: empty strings given for [username], [role]
    and [createdAt] are not dropped but written to the stored user, and an
    empty [id] makes the call raise. *)
Theorem updateUserProfile_applies_falsy_restricted :
  (exists (user' : User) (b1 : Backend),
      updateUserProfile env1 alice_id blank_restricted alice_backend
        = (Ok (public user'), b1) /\
      store_get user_key strcmp (users b1) alice_id = Some user' /\
      u_username (public alice_record) = js "alice" /\
      u_role (public alice_record) = js "student" /\
      u_createdAt (public alice_record) = nowISO env0 /\
      u_username (public user') = [] /\
      u_role (public user') = [] /\
      u_createdAt (public user') = []) /\
  updateUserProfile env1 alice_id blank_id alice_backend
    = (Throw ConstraintError, alice_backend).
Proof.
  split; [|reflexivity].
  exists (merge_updates alice_record blank_restricted),
    (snd (updateUserProfile env1 alice_id blank_restricted alice_backend)).
  repeat split.
Qed.

(** ** Facts about sorting *)

Section SortFacts.
Context {R : Type} (le : R -> R -> bool).

Lemma insert_sorted_perm (x : R) (l : list R) :
  Permutation (insert_sorted le x l) (x :: l).
Proof.
  induction l as [|y l IH]; cbn [insert_sorted]; [reflexivity|].
  destruct (le x y); [reflexivity|].
  rewrite IH. apply perm_swap.
Qed.

Lemma sort_by_perm (l : list R) : Permutation (sort_by le l) l.
Proof.
  induction l as [|x l IH]; cbn [sort_by fold_right]; [reflexivity|].
  fold (sort_by le l). rewrite insert_sorted_perm, IH. reflexivity.
Qed.

Hypothesis le_total : forall a b, le a b = false -> le b a = true.
Hypothesis le_trans :
  forall a b c, le a b = true -> le b c = true -> le a c = true.

Lemma insert_sorted_sorted (x : R) (l : list R) :
  StronglySorted (fun a b => le a b = true) l ->
  StronglySorted (fun a b => le a b = true) (insert_sorted le x l).
Proof.
  induction l as [|y l IH]; intros S; cbn [insert_sorted].
  - constructor; constructor.
  - inversion S as [|? ? S' F]; subst.
    destruct (le x y) eqn:E.
    + constructor; [exact S|]. constructor; [exact E|].
      rewrite Forall_forall in F. apply Forall_forall. intros z Hz.
      eapply le_trans; eauto.
    + constructor; [apply IH; exact S'|].
      apply Forall_forall. intros z Hz.
      apply (Permutation_in _ (insert_sorted_perm x l)) in Hz.
      destruct Hz as [<-|Hz]; [apply le_total; exact E|].
      rewrite Forall_forall in F. auto.
Qed.

Lemma sort_by_sorted (l : list R) :
  StronglySorted (fun a b => le a b = true) (sort_by le l).
Proof.
  induction l as [|x l IH]; cbn [sort_by fold_right]; [constructor|].
  apply insert_sorted_sorted. exact IH.
Qed.
End SortFacts.

Lemma insert_sorted_ext {R} (le le' : R -> R -> bool) (x : R) (l : list R) :
  (forall y, In y l -> le x y = le' x y) ->
  insert_sorted le x l = insert_sorted le' x l.
Proof.
  induction l as [|y l IH]; intros H; cbn [insert_sorted]; [reflexivity|].
  rewrite (H y (or_introl eq_refl)).
  rewrite IH; [reflexivity|]. intros z Hz. apply H. right. exact Hz.
Qed.

(** The sorted list depends on the comparison of the listed elements
    only. *)
Lemma sort_by_ext_in {R} (le le' : R -> R -> bool) (l : list R) :
  (forall x y, In x l -> In y l -> le x y = le' x y) ->
  sort_by le l = sort_by le' l.
Proof.
  induction l as [|x l IH]; intros H; cbn [sort_by fold_right];
    [reflexivity|].
  fold (sort_by le l). fold (sort_by le' l).
  rewrite IH by (intros y z Hy Hz; apply H; right; assumption).
  apply insert_sorted_ext. intros y Hy. apply In_sort in Hy.
  apply H; [left; reflexivity | right; exact Hy].
Qed.

(** ** Active alerts *)

Lemma compare_ranks_le (a b : Alert) :
  (compare_ranks a b <=? 0) = true <-> alert_before a b.
Proof.
  unfold compare_ranks, alert_before. rewrite Z.leb_le.
  destruct (Z.eqb_spec
              (priority_rank (al_priority b) - priority_rank (al_priority a))
              0); cbn [negb]; lia.
Qed.

Lemma priorityOrder_inherited (priority : jsstring) :
  inherited priority = true -> priorityOrder priority = None.
Proof.
  intros H. unfold priorityOrder. rewrite H.
  unfold inherited in H. apply existsb_exists in H.
  destruct H as [n [Hn E]]. apply streq_spec in E. subst priority.
  repeat (destruct Hn as [<-|Hn]; [reflexivity|]). destruct Hn.
Qed.

Lemma priorityOrder_rank (priority : jsstring) :
  inherited priority = false ->
  priorityOrder priority = Some (priority_rank priority).
Proof.
  intros H. unfold priorityOrder, priority_rank. rewrite H.
  destruct (streq priority (js "high")); [reflexivity|].
  destruct (streq priority (js "medium")); [reflexivity|].
  destruct (streq priority (js "low")); reflexivity.
Qed.

(** For an alert whose priority is an inherited name the comparison with
    any alert is [NaN], in both directions. *)
Lemma compare_alerts_inherited (a b : Alert) :
  inherited (al_priority a) = true ->
  compare_alerts a b = None /\ compare_alerts b a = None.
Proof.
  intros H. unfold compare_alerts.
  rewrite (priorityOrder_inherited _ H).
  destruct (priorityOrder (al_priority b)); split; reflexivity.
Qed.

Lemma compare_alerts_ranks (a b : Alert) :
  inherited (al_priority a) = false -> inherited (al_priority b) = false ->
  compare_alerts a b = Some (compare_ranks a b).
Proof.
  intros Ha Hb. unfold compare_alerts, compare_ranks.
  rewrite (priorityOrder_rank _ Ha), (priorityOrder_rank _ Hb).
  cbn zeta.
  destruct (negb (priority_rank (al_priority b)
                  - priority_rank (al_priority a) =? 0)); reflexivity.
Qed.

Lemma filter_filter {A} (f g : A -> bool) (l : list A) :
  filter g (filter f l) = filter (fun x => f x && g x) l.
Proof.
  induction l as [|x l IH]; cbn [filter]; [reflexivity|].
  destruct (f x); cbn [filter andb]; [destruct (g x)|]; rewrite IH;
    reflexivity.
Qed.

Lemma StronglySorted_impl {A} (P Q : A -> A -> Prop) (l : list A) :
  (forall a b, P a b -> Q a b) -> StronglySorted P l -> StronglySorted Q l.
Proof.
  intros H S. induction S as [|x l S IH F]; constructor; [exact IH|].
  apply (Forall_impl _ (H x) F).
Qed.

(** C5 (amended): [getActiveAlerts] returns exactly the alerts whose
    [isActive] is true and whose expiry is not in the past (an expiry equal
    to the current instant, an absent one and an unparseable one all count
    as not expired), restricted to the given priority when there is one;
    when no listed alert has the name of an inherited property as its
    priority, the list is ordered by priority (high, then medium, then
    low, then any other) and within one priority by [createdAt]
    descending. *)
Theorem getActiveAlerts_spec (env : Env) (priority : jsstring)
    (b : Backend) :
  exists l : list Alert,
    getActiveAlerts env priority b = (Ok l, b) /\
    Permutation l
      (filter (alert_shown (now env) priority) (rows (campusAlerts b))) /\
    (forall a, In a l <->
       In a (rows (campusAlerts b)) /\ al_isActive a = true /\
       (forall ms, al_expiry a = Date ms -> now env <= ms) /\
       (priority <> [] -> al_priority a = priority)) /\
    ((forall a, In a l -> inherited (al_priority a) = false) ->
     StronglySorted alert_before l) /\
    priority_rank (js "high") > priority_rank (js "medium") /\
    priority_rank (js "medium") > priority_rank (js "low") /\
    (forall p, p <> js "high" -> p <> js "medium" -> p <> js "low" ->
               priority_rank (js "low") > priority_rank p).
Proof.
  eexists. split; [reflexivity|].
  set (le := fun a b => match compare_alerts a b with
                        | Some c => c <=? 0
                        | None => true
                        end).
  set (alerts2 :=
         if truthy priority
         then filter (fun alert => streq (al_priority alert) priority)
                (filter (fun alert =>
                   if negb (al_isActive alert) then false
                   else if is_past (al_expiry alert) (now env) then false
                   else true) (rows (campusAlerts b)))
         else filter (fun alert =>
                   if negb (al_isActive alert) then false
                   else if is_past (al_expiry alert) (now env) then false
                   else true) (rows (campusAlerts b))).
  assert (P : Permutation (sort_by le alerts2)
    (filter (alert_shown (now env) priority) (rows (campusAlerts b)))).
  { rewrite sort_by_perm. unfold alerts2, alert_shown.
    destruct (truthy priority).
    - rewrite filter_filter. apply Permutation_refl'.
      apply filter_ext. intros a.
      destruct (al_isActive a), (is_past (al_expiry a) (now env));
        reflexivity.
    - apply Permutation_refl'. apply filter_ext. intros a.
      destruct (al_isActive a), (is_past (al_expiry a) (now env));
        reflexivity. }
  split; [exact P|]. split; [|split; [|split; [|split]]];
    [| | reflexivity | reflexivity |].
  - intros a. split.
    + intros Ha. apply (Permutation_in _ P) in Ha.
      apply filter_In in Ha. destruct Ha as [Ha S]. unfold alert_shown in S.
      apply andb_true_iff in S. destruct S as [S S3].
      apply andb_true_iff in S. destruct S as [S1 S2].
      apply negb_true_iff in S2.
      repeat split; auto.
      * intros ms E. rewrite E in S2. cbn [is_past] in S2.
        apply Z.ltb_ge in S2. exact S2.
      * intros N. destruct priority; [congruence|]. cbn [truthy] in S3.
        apply streq_spec in S3. exact S3.
    + intros (Ha & A1 & A2 & A3).
      apply (Permutation_in _ (Permutation_sym P)).
      apply filter_In. split; [exact Ha|]. unfold alert_shown.
      rewrite A1. cbn [andb].
      assert (E : is_past (al_expiry a) (now env) = false).
      { destruct (al_expiry a) as [| |ms] eqn:E; try reflexivity.
        cbn [is_past]. apply Z.ltb_ge. apply A2. reflexivity. }
      rewrite E. cbn [negb andb].
      destruct priority; [reflexivity|]. cbn [truthy].
      apply streq_spec. apply A3. discriminate.
  - intros H.
    set (le' := fun a b => compare_ranks a b <=? 0).
    assert (E : sort_by le alerts2 = sort_by le' alerts2).
    { apply sort_by_ext_in. intros x y Hx Hy. unfold le, le'.
      rewrite compare_alerts_ranks; [reflexivity| |];
        apply H; apply In_sort; assumption. }
    rewrite E.
    apply (StronglySorted_impl (fun a b => le' a b = true)).
    + intros x y Hxy. apply compare_ranks_le. exact Hxy.
    + apply sort_by_sorted.
      * intros x y Hxy. unfold le' in *.
        destruct (compare_ranks y x <=? 0) eqn:E'; [reflexivity|].
        exfalso. apply Z.leb_gt in Hxy. apply Z.leb_gt in E'.
        unfold compare_ranks in *.
        destruct (Z.eqb_spec
          (priority_rank (al_priority y) - priority_rank (al_priority x)) 0);
        destruct (Z.eqb_spec
          (priority_rank (al_priority x) - priority_rank (al_priority y)) 0);
        cbn [negb] in *; lia.
      * intros x y z H1 H2. unfold le' in *.
        apply compare_ranks_le in H1. apply compare_ranks_le in H2.
        apply compare_ranks_le. unfold alert_before in *. lia.
  - intros p H1 H2 H3. unfold priority_rank at 2.
    rewrite (streq_neq _ _ H1), (streq_neq _ _ H2), (streq_neq _ _ H3).
    reflexivity.
Qed.

Lemma getActiveAlerts_spec_witness :
  exists l : list Alert,
    getActiveAlerts env0 [] alerts_backend = (Ok l, alerts_backend) /\
    l = [alert_without_expiry; alert_expiring_now] /\
    StronglySorted alert_before l.
Proof.
  destruct (getActiveAlerts_spec env0 [] alerts_backend)
    as (l & R & _ & _ & S & _).
  assert (E : getActiveAlerts env0 [] alerts_backend
              = (Ok [alert_without_expiry; alert_expiring_now],
                 alerts_backend)) by reflexivity.
  rewrite E in R. injection R as <-.
  eexists. split; [exact E|]. split; [reflexivity|].
  apply S. intros a [<-|[<-|[]]]; reflexivity.
Defined.

(** C5 as stated fails: an active alert whose expiry is the current
    instant, hence not strictly in the future, is listed, and so is an
    active alert without expiry. *)
Lemma getActiveAlerts_lists_alert_expiring_now :
  getActiveAlerts env0 [] alerts_backend
    = (Ok [alert_without_expiry; alert_expiring_now], alerts_backend) /\
  al_expiry alert_expiring_now = Date (now env0) /\
  ~ now env0 < now env0 /\
  al_expiry alert_without_expiry = NoDate.
Proof.
  repeat split. apply Z.lt_irrefl.
Qed.

(** ** The expiry sweep *)

Lemma Z_compare_eq (a b : Z) : (a ?= b) = Eq <-> a = b.
Proof. apply Z.compare_eq_iff. Qed.

Lemma Z_compare_antisym (a b : Z) : (b ?= a) = CompOpp (a ?= b).
Proof. apply Z.compare_antisym. Qed.

Lemma Z_compare_trans (a b c : Z) :
  (a ?= b) = Lt -> (b ?= c) = Lt -> (a ?= c) = Lt.
Proof. rewrite !Z.compare_lt_iff. lia. Qed.

Section ReplaceInPlace.
Context {R : Type} (key : R -> Z).

Lemma store_wf_same_keys (l l' : list R) :
  map key l = map key l' ->
  store_wf key Z.compare l -> store_wf key Z.compare l'.
Proof.
  revert l'. induction l as [|x l IH]; intros [|x' l'] E W;
    try discriminate; [constructor|].
  cbn [map] in E. injection E as Ex El.
  inversion W as [|? ? W' F]; subst.
  constructor; [apply IH; assumption|].
  apply Forall_forall. intros y' Hy'.
  destruct (In_nth_error _ _ Hy') as [n Hn].
  assert (Hk : nth_error (map key l') n = Some (key y'))
    by (rewrite nth_error_map, Hn; reflexivity).
  rewrite <- El, nth_error_map in Hk.
  destruct (nth_error l n) as [y|] eqn:Hy; [|discriminate].
  cbn [option_map] in Hk. injection Hk as Hk.
  rewrite Forall_forall in F. apply nth_error_In in Hy. apply F in Hy.
  unfold key_lt in *. rewrite <- Ex, <- Hk. exact Hy.
Qed.

(** In a well-formed store, [put] of a record under the key of a stored
    one replaces that record where it stands. *)
Lemma store_put_replace (l1 l2 : list R) (a a' : R) :
  store_wf key Z.compare (l1 ++ a :: l2) -> key a' = key a ->
  store_put key Z.compare a' (l1 ++ a :: l2) = l1 ++ a' :: l2.
Proof.
  intros W E. induction l1 as [|x l1 IH]; cbn [app store_put].
  - rewrite E, Z.compare_refl. reflexivity.
  - cbn [app] in W. inversion W as [|? ? W' F]; subst.
    rewrite Forall_forall in F.
    assert (L : key_lt key Z.compare x a).
    { apply F. apply in_or_app. right. left. reflexivity. }
    unfold key_lt in L. rewrite E, Z.compare_antisym, L. cbn [CompOpp].
    rewrite IH by exact W'. reflexivity.
Qed.
End ReplaceInPlace.

Lemma expire_id (now_ : Z) (a : Alert) : al_id (expire now_ a) = al_id a.
Proof. unfold expire. destruct (_ && _); reflexivity. Qed.

Lemma expire_idempotent (now_ : Z) (a : Alert) :
  expire now_ (expire now_ a) = expire now_ a.
Proof.
  unfold expire.
  destruct (is_past (al_expiry a) now_ && al_isActive a) eqn:E;
    [|rewrite E; reflexivity].
  cbn [set_isActive al_expiry al_isActive]. rewrite andb_false_r.
  reflexivity.
Qed.

Lemma map_key_expire (now_ : Z) (l : list Alert) :
  map al_id (map (expire now_) l) = map al_id l.
Proof.
  rewrite map_map. apply map_ext. intros a. apply expire_id.
Qed.

Lemma sweep_loop (env : Env) (todo done : list Alert) (b : Backend) :
  store_wf al_id Z.compare (done ++ todo) ->
  Forall (fun a => al_id a < generator (campusAlerts b)) todo ->
  rows (campusAlerts b) = map (expire (now env)) done ++ todo ->
  for_each todo (sweep_body env) b =
  (Ok tt,
   set_campusAlerts
     {| rows := map (expire (now env)) (done ++ todo);
        generator := generator (campusAlerts b) |} b).
Proof.
  revert done b. induction todo as [|a todo IH]; intros done b W G Hrows.
  - cbn [for_each]. unfold ret. f_equal.
    rewrite app_nil_r in *. rewrite <- Hrows.
    destruct b as [? ? ? ? ? ? ? [r g] ? ? ? ? ?]. reflexivity.
  - cbn [for_each]. unfold bind.
    inversion G as [|? ? Ga G']; subst.
    assert (W2 : store_wf al_id Z.compare ((done ++ [a]) ++ todo))
      by (rewrite <- app_assoc; exact W).
    unfold sweep_body at 1.
    destruct (is_past (al_expiry a) (now env) && al_isActive a) eqn:C.
    + unfold putObject_campusAlerts, modify.
      rewrite (IH (done ++ [a])).
      * rewrite <- app_assoc. cbn [app]. f_equal.
        backend_simpl. unfold auto_put. backend_simpl.
        cbn [set_isActive al_id]. rewrite Z.max_l by lia. reflexivity.
      * exact W2.
      * backend_simpl. unfold auto_put. backend_simpl.
        cbn [set_isActive al_id].
        eapply Forall_impl; [|exact G']. cbn beta. intros x Hx. lia.
      * backend_simpl. unfold auto_put. backend_simpl.
        rewrite Hrows, map_app. cbn [map].
        rewrite <- app_assoc. cbn [app].
        unfold expire at 3. rewrite C.
        apply store_put_replace; [|reflexivity].
        apply (store_wf_same_keys al_id (done ++ a :: todo)); [|exact W].
        rewrite !map_app, map_key_expire. reflexivity.
    + unfold ret at 1.
      rewrite (IH (done ++ [a])).
      * rewrite <- app_assoc. reflexivity.
      * exact W2.
      * exact G'.
      * rewrite Hrows, map_app. cbn [map].
        rewrite <- app_assoc. cbn [app].
        unfold expire at 3. rewrite C. reflexivity.
Qed.

Lemma for_each_putObject_activityLog (l : list LogEntry) (b : Backend) :
  exists st, for_each l putObject_activityLog b
             = (Ok tt, set_activityLog st b).
Proof.
  revert b. induction l as [|e l IH]; intros b; cbn [for_each].
  - exists (activityLog b). unfold ret.
    destruct b; reflexivity.
  - unfold bind, putObject_activityLog at 1, modify.
    destruct (IH (set_activityLog (auto_put l_id e (activityLog b)) b))
      as [st ->].
    exists st. reflexivity.
Qed.

Lemma performBackgroundSync_alerts (env : Env) (b : Backend) :
  auto_wf al_id (campusAlerts b) ->
  exists b' : Backend,
    performBackgroundSync env b = (Ok tt, b') /\
    campusAlerts b' =
      {| rows := map (expire (now env)) (rows (campusAlerts b));
         generator := generator (campusAlerts b) |}.
Proof.
  intros [W G]. unfold performBackgroundSync.
  unfold bind at 1. unfold gets at 1.
  unfold bind at 1.
  change (fun alert : Alert =>
            if is_past (al_expiry alert) (now env) && al_isActive alert
            then putObject_campusAlerts (set_isActive false alert)
            else ret tt) with (sweep_body env).
  rewrite (sweep_loop env (rows (campusAlerts b)) [] b W G eq_refl).
  cbn [app].
  set (b1 := set_campusAlerts _ b).
  unfold bind at 1. unfold gets at 1.
  unfold bind at 1.
  assert (Hlog : exists st,
    (if (1000 <? length (rows (activityLog b1)))%nat
     then
       modify (fun b0 =>
                 set_activityLog
                   {| rows := []; generator := generator (activityLog b0) |}
                   b0) ;;;
       for_each
         (firstn 1000
            (sort_by (fun a b0 => l_timestamp b0 - l_timestamp a <=? 0)
               (rows (activityLog b1)))) putObject_activityLog
     else ret tt) b1 = (Ok tt, set_activityLog st b1)).
  { destruct (1000 <? length (rows (activityLog b1)))%nat.
    - unfold bind, modify.
      match goal with |- context [for_each ?l _ ?s] =>
        destruct (for_each_putObject_activityLog l s) as [st ->] end.
      exists st. reflexivity.
    - exists (activityLog b1). unfold ret. destruct b1; reflexivity. }
  destruct Hlog as [st ->].
  unfold bind at 1. unfold setSystemSetting.
  unfold bind at 1. unfold putObject_systemSettings, modify. unfold ret.
  eexists. split; reflexivity.
Qed.

Lemma expire_fields (now_ : Z) (a : Alert) :
  same_but_isActive a (expire now_ a) /\
  al_isActive (expire now_ a)
    = al_isActive a && negb (is_past (al_expiry a) now_).
Proof.
  unfold expire, same_but_isActive.
  destruct (is_past (al_expiry a) now_), (al_isActive a) eqn:A;
    cbn [andb negb set_isActive al_id al_data al_priority al_expiry
         al_isActive al_views al_createdAt al_createdBy];
    repeat split; auto.
Qed.

Lemma expire_unchanged (now_ : Z) (a : Alert) :
  al_isActive a = false \/ is_past (al_expiry a) now_ = false ->
  expire now_ a = a.
Proof.
  unfold expire. intros [-> | ->]; rewrite ?andb_false_r; reflexivity.
Qed.

Lemma expire_changed (now_ : Z) (a : Alert) :
  expire now_ a <> a ->
  al_isActive a = true /\ al_isActive (expire now_ a) = false /\
  exists ms, al_expiry a = Date ms /\ ms < now_.
Proof.
  intros N.
  destruct (al_isActive a) eqn:A;
    [|contradiction N; apply expire_unchanged; left; exact A].
  destruct (is_past (al_expiry a) now_) eqn:P;
    [|contradiction N; apply expire_unchanged; right; exact P].
  split; [reflexivity|]. split.
  - rewrite (proj2 (expire_fields now_ a)), A, P. reflexivity.
  - destruct (al_expiry a) as [| |ms]; try discriminate.
    exists ms. split; [reflexivity|]. apply Z.ltb_lt. exact P.
Qed.

Lemma sweep_get (now_ : Z) (s : list Alert) (a : Alert) :
  store_wf al_id Z.compare s -> In a s ->
  store_get al_id Z.compare (map (expire now_) s) (al_id a)
    = Some (expire now_ a).
Proof.
  intros W Ha. rewrite <- (expire_id now_ a).
  apply (store_get_wf_In al_id Z.compare Z_compare_eq).
  - apply (store_wf_same_keys al_id s); [|exact W].
    symmetry. apply map_key_expire.
  - apply in_map. exact Ha.
Qed.

(** C6: one run of the sweep sets [isActive] to false on every active
    alert whose expiry has elapsed and changes nothing else: every alert
    is still stored under its key with its other fields, the alerts that
    were inactive or not expired are as they were, and no stored alert is
    left both active and expired.  A second run changes an alert only when
    its expiry has elapsed between the two runs; it changes no alert when
    it is not later than the first, or when no active alert has expired by
    then. *)
Theorem sweep_expires_alerts (env env' : Env) (b : Backend) :
  auto_wf al_id (campusAlerts b) ->
  exists b1 b2 : Backend,
    performBackgroundSync env b = (Ok tt, b1) /\
    performBackgroundSync env' b1 = (Ok tt, b2) /\
    map al_id (rows (campusAlerts b1)) = map al_id (rows (campusAlerts b)) /\
    (forall a,
        In a (rows (campusAlerts b)) ->
        exists a1 : Alert,
          store_get al_id Z.compare (rows (campusAlerts b1)) (al_id a)
            = Some a1 /\
          same_but_isActive a a1 /\
          al_isActive a1
            = al_isActive a && negb (is_past (al_expiry a) (now env))) /\
    (forall a ms,
        In a (rows (campusAlerts b)) -> al_isActive a = true ->
        al_expiry a = Date ms -> ms < now env ->
        In (set_isActive false a) (rows (campusAlerts b1)) /\
        al_isActive (set_isActive false a) = false) /\
    (forall a,
        In a (rows (campusAlerts b)) ->
        al_isActive a = false \/ is_past (al_expiry a) (now env) = false ->
        In a (rows (campusAlerts b1))) /\
    (forall a1 ms,
        In a1 (rows (campusAlerts b1)) -> al_isActive a1 = true ->
        al_expiry a1 = Date ms -> now env <= ms) /\
    (forall a1,
        In a1 (rows (campusAlerts b1)) ->
        exists a2 : Alert,
          store_get al_id Z.compare (rows (campusAlerts b2)) (al_id a1)
            = Some a2 /\
          same_but_isActive a1 a2 /\
          al_isActive a2
            = al_isActive a1 && negb (is_past (al_expiry a1) (now env')) /\
          (a2 <> a1 ->
           al_isActive a1 = true /\ al_isActive a2 = false /\
           exists ms, al_expiry a1 = Date ms /\ now env <= ms < now env')) /\
    ((forall a1 ms,
         In a1 (rows (campusAlerts b1)) -> al_isActive a1 = true ->
         al_expiry a1 = Date ms -> now env' <= ms) ->
     campusAlerts b2 = campusAlerts b1) /\
    (now env' <= now env -> campusAlerts b2 = campusAlerts b1).
Proof.
  intros W.
  destruct (performBackgroundSync_alerts env b W) as (b1 & Hrun & Hal).
  assert (W1 : auto_wf al_id (campusAlerts b1)).
  { destruct W as [W G]. rewrite Hal. split; cbn [rows generator].
    - apply (store_wf_same_keys al_id (rows (campusAlerts b))); [|exact W].
      symmetry. apply map_key_expire.
    - apply Forall_forall. intros x Hx. apply in_map_iff in Hx.
      destruct Hx as [y [<- Hy]]. rewrite expire_id.
      rewrite Forall_forall in G. auto. }
  destruct (performBackgroundSync_alerts env' b1 W1) as (b2 & Hrun2 & Hal2).
  assert (Hrows : rows (campusAlerts b1)
                  = map (expire (now env)) (rows (campusAlerts b)))
    by (rewrite Hal; reflexivity).
  assert (Hrows2 : rows (campusAlerts b2)
                   = map (expire (now env')) (rows (campusAlerts b1)))
    by (rewrite Hal2; reflexivity).
  assert (Hleft : forall a1 ms,
             In a1 (rows (campusAlerts b1)) -> al_isActive a1 = true ->
             al_expiry a1 = Date ms -> now env <= ms).
  { intros a1 ms Ha1 A1 E1. rewrite Hrows in Ha1. apply in_map_iff in Ha1.
    destruct Ha1 as [a [<- Ha]].
    destruct (expire_fields (now env) a) as [(_ & _ & _ & Ex & _) Act].
    rewrite Act in A1. apply andb_true_iff in A1. destruct A1 as [_ A1].
    apply negb_true_iff in A1. rewrite Ex in E1. rewrite E1 in A1.
    cbn [is_past] in A1. apply Z.ltb_ge in A1. exact A1. }
  assert (Hsame : (forall a1 ms,
             In a1 (rows (campusAlerts b1)) -> al_isActive a1 = true ->
             al_expiry a1 = Date ms -> now env' <= ms) ->
           campusAlerts b2 = campusAlerts b1).
  { intros H. rewrite Hal2. destruct (campusAlerts b1) as [r g] eqn:E1.
    cbn [rows generator] in *. f_equal.
    rewrite <- (map_id r) at 2. apply map_ext_in. intros a1 Ha1.
    apply expire_unchanged.
    destruct (al_isActive a1) eqn:A1; [right | left; reflexivity].
    destruct (al_expiry a1) as [| |ms] eqn:Ex; try reflexivity.
    cbn [is_past]. apply Z.ltb_ge. apply (H a1 ms Ha1 A1 Ex). }
  exists b1, b2.
  split; [exact Hrun|]. split; [exact Hrun2|].
  split; [rewrite Hrows; apply map_key_expire|].
  split; [|split; [|split; [|split; [exact Hleft|split; [|split]]]]].
  - intros a Ha. exists (expire (now env) a).
    split; [rewrite Hrows; apply sweep_get; [apply W | exact Ha]|].
    apply expire_fields.
  - intros a ms Ha A E L. split; [|reflexivity].
    rewrite Hrows.
    replace (set_isActive false a) with (expire (now env) a).
    + apply in_map. exact Ha.
    + unfold expire. rewrite E, A. cbn [is_past].
      apply Z.ltb_lt in L. rewrite L. reflexivity.
  - intros a Ha C. rewrite Hrows.
    rewrite <- (expire_unchanged (now env) a C) at 1.
    apply in_map. exact Ha.
  - intros a1 Ha1. exists (expire (now env') a1).
    split; [rewrite Hrows2; apply sweep_get; [apply W1 | exact Ha1]|].
    split; [apply expire_fields|]. split; [apply expire_fields|].
    intros N. destruct (expire_changed _ _ N) as (A1 & A2 & ms & Ex & L).
    split; [exact A1|]. split; [exact A2|].
    exists ms. split; [exact Ex|].
    split; [exact (Hleft a1 ms Ha1 A1 Ex) | exact L].
  - exact Hsame.
  - intros L. apply Hsame. intros a1 ms Ha1 A1 Ex.
    pose proof (Hleft a1 ms Ha1 A1 Ex). lia.
Qed.

Lemma sweep_expires_alerts_witness :
  exists b1 b2 b3 : Backend,
    performBackgroundSync env0 alerts_backend = (Ok tt, b1) /\
    performBackgroundSync env0 b1 = (Ok tt, b2) /\
    performBackgroundSync env1 b1 = (Ok tt, b3) /\
    map al_id (rows (campusAlerts b1)) = [1; 2; 3; 4] /\
    (exists a1 : Alert,
        store_get al_id Z.compare (rows (campusAlerts b1)) 1 = Some a1 /\
        same_but_isActive alert_expired a1 /\ al_isActive a1 = false) /\
    In alert_expiring_now (rows (campusAlerts b1)) /\
    In alert_without_expiry (rows (campusAlerts b1)) /\
    In alert_deactivated (rows (campusAlerts b1)) /\
    campusAlerts b2 = campusAlerts b1 /\
    (exists a3 : Alert,
        store_get al_id Z.compare (rows (campusAlerts b3)) 2 = Some a3 /\
        same_but_isActive alert_expiring_now a3 /\
        al_isActive a3 = false).
Proof.
  assert (W : auto_wf al_id (campusAlerts alerts_backend))
    by (split; [unfold store_wf|]; repeat constructor).
  destruct (sweep_expires_alerts env0 env0 alerts_backend W)
    as (b1 & b2 & R1 & R2 & Ids & Get & _ & Kept & _ & _ & _ & Same).
  destruct (sweep_expires_alerts env0 env1 alerts_backend W)
    as (b1' & b3 & R1' & R3 & _ & _ & _ & _ & _ & Again & _).
  assert (E : b1' = b1) by congruence. subst b1'.
  exists b1, b2, b3.
  split; [exact R1|]. split; [exact R2|]. split; [exact R3|].
  split; [exact Ids|]. split; [|split; [|split; [|split; [|split]]]].
  - destruct (Get alert_expired) as (a1 & G & S & A);
      [left; reflexivity|].
    exists a1. split; [exact G|]. split; [exact S | exact A].
  - apply Kept; [right; left; reflexivity | right; reflexivity].
  - apply Kept; [right; right; left; reflexivity | right; reflexivity].
  - apply Kept; [right; right; right; left; reflexivity | left; reflexivity].
  - apply Same. apply Z.le_refl.
  - destruct (Again alert_expiring_now) as (a3 & G & S & A & _).
    + apply Kept; [right; left; reflexivity | right; reflexivity].
    + exists a3. split; [exact G|]. split; [exact S | exact A].
Defined.

(** ** Attendance statistics *)

Lemma length_filter_perm {A} (f : A -> bool) (l l' : list A) :
  Permutation l l' -> length (filter f l) = length (filter f l').
Proof.
  intros P. induction P; cbn [filter].
  - reflexivity.
  - destruct (f x); cbn [length]; congruence.
  - destruct (f x), (f y); reflexivity.
  - congruence.
Qed.

Lemma count_status_perm (status : string) (l l' : list Attendance) :
  Permutation l l' -> count_status status l = count_status status l'.
Proof.
  intros P. unfold count_status. f_equal. apply length_filter_perm. exact P.
Qed.

Lemma count_status_number (status : string) (l : list Attendance) :
  count_status status l = number_with_status (js status) l.
Proof.
  unfold count_status.
  induction l as [|a l IH]; [reflexivity|].
  cbn [filter number_with_status].
  destruct (list_eq_dec N.eq_dec (at_status a) (js status)) as [E|E].
  - rewrite (proj2 (streq_spec _ _) E). cbn [length].
    rewrite Nat2Z.inj_succ, IH. lia.
  - rewrite (streq_neq _ _ E). rewrite IH. lia.
Qed.

(** C8 (amended): for a student (a non-empty id) [getAttendanceStats]
    returns as [total] the number of the student's attendance records, as
    [present], [absent] and [late] the numbers of those with that status,
    and as [percentage] the integer nearest to the binary64 value of
    [(present / total) * 100] (the larger at a tie of that value); three
    present out of four give 75, and a student without records gets the
    all-zero statistics, not an error. *)
Theorem getAttendanceStats_spec (studentId : jsstring) (b : Backend) :
  studentId <> [] ->
  let records := student_attendance studentId b in
  let total := Z.of_nat (length records) in
  let present := number_with_status (js "present") records in
  exists stats : Stats,
    getAttendanceStats studentId b = (Ok stats, b) /\
    st_total stats = total /\
    st_present stats = present /\
    st_absent stats = number_with_status (js "absent") records /\
    st_late stats = number_with_status (js "late") records /\
    (total = 0 -> st_percentage stats = 0%float) /\
    (total <> 0 ->
     rounded_to_integer (of_Z present / of_Z total * 100)
       (st_percentage stats)) /\
    (total = 4 -> present = 3 -> st_percentage stats = 75%float).
Proof.
  intros Hid records total present.
  assert (T : truthy studentId = true)
    by (destruct studentId; [contradiction Hid; reflexivity | reflexivity]).
  unfold getAttendanceStats.
  unfold bind at 1. unfold getAttendanceForStudent.
  unfold bind at 1. unfold gets at 1.
  unfold getAllObjects_index. rewrite T. fold (student_attendance studentId b).
  fold records. unfold ret at 1.
  set (sorted := sort_by _ records).
  assert (P : Permutation sorted records) by apply sort_by_perm.
  assert (L : length sorted = length records)
    by (apply Permutation_length; exact P).
  rewrite !(count_status_perm _ sorted records P), L.
  rewrite !count_status_number.
  fold total. fold present.
  destruct (length records) as [|n] eqn:E.
  - cbn [Nat.eqb]. unfold ret. eexists. split; [reflexivity|].
    cbn [st_total st_present st_absent st_late st_percentage].
    assert (records = []) as ->
      by (destruct records; [reflexivity|discriminate]).
    subst total present. cbn [number_with_status Z.of_nat].
    repeat split; try reflexivity; intros; try discriminate.
    congruence.
  - cbn [Nat.eqb]. unfold ret. eexists. split; [reflexivity|].
    cbn [st_total st_present st_absent st_late st_percentage].
    do 4 (split; [reflexivity|]).
    split; [subst total; intros; discriminate|].
    split; [intros _; apply Math_round_rounded|].
    intros Ht Hp. rewrite Ht, Hp. reflexivity.
Qed.

Lemma getAttendanceStats_spec_witness :
  exists stats : Stats,
    getAttendanceStats alice_id attendance_backend
      = (Ok stats, attendance_backend) /\
    st_total stats = 4 /\ st_present stats = 3 /\
    st_absent stats = 1 /\ st_late stats = 0 /\
    rounded_to_integer (of_Z 3 / of_Z 4 * 100) (st_percentage stats) /\
    st_percentage stats = 75%float.
Proof.
  destruct (getAttendanceStats_spec alice_id attendance_backend)
    as (stats & H1 & H2 & H3 & H4 & H5 & _ & H7 & H8).
  - discriminate.
  - exists stats. split; [exact H1|]. split; [exact H2|].
    split; [exact H3|]. split; [exact H4|]. split; [exact H5|].
    split; [apply H7; discriminate | apply H8; reflexivity].
Defined.

(** C8 as stated fails: with 23 classes attended out of 40 the exact
    percentage is 57.5, which rounds to 58, but the binary64 value of
    [(23 / 40) * 100] lies below 57.5 and the code returns 57. *)
Lemma getAttendanceStats_rounds_the_double :
  exists stats : Stats,
    getAttendanceStats bob_id forty_backend = (Ok stats, forty_backend) /\
    st_total stats = 40 /\ st_present stats = 23 /\
    st_percentage stats = 57%float /\
    nearest_integer (23 * 100) 40 58.
Proof.
  eexists. split; [vm_compute; reflexivity|].
  repeat split; unfold nearest_integer; lia.
Qed.

Example getAttendanceStats_three_of_four :
  getAttendanceStats alice_id attendance_backend
    = (Ok {| st_total := 4; st_present := 3; st_absent := 1; st_late := 0;
             st_percentage := 75 |}, attendance_backend).
Proof. reflexivity. Qed.

(** ** Results *)







Example getStudentResults_two_semesters :
  getStudentResults alice_id None results_backend
    = (Ok (AllSemesters
             [sample_result alice_id 1 [subject "A" 4];
              sample_result alice_id 2 [subject "B" 3]]
             8.14 7), results_backend).
Proof. reflexivity. Qed.


(** ** Meal feedback *)

Lemma menus_conflict_false (m m' : Menu) (s : list Menu) :
  menu_index_ok s -> In m s ->
  m_id m' = m_id m -> m_date m' = m_date m ->
  m_mealType m' = m_mealType m ->
  menus_conflict m' s = false.
Proof.
  intros I Hm E1 E2 E3. unfold menus_conflict.
  destruct (existsb _ s) eqn:E; [|reflexivity].
  apply existsb_exists in E. destruct E as [v [Hv C]].
  apply andb_true_iff in C. destruct C as [C C3].
  apply andb_true_iff in C. destruct C as [C1 C2].
  apply streq_spec in C2, C3. apply negb_true_iff in C1.
  rewrite E1, (I v m Hv Hm), streq_refl in C1; congruence.
Qed.

Lemma menu_index_ok_put (m m' : Menu) (s : list Menu) :
  menu_index_ok s -> In m s ->
  m_id m' = m_id m -> m_date m' = m_date m ->
  m_mealType m' = m_mealType m ->
  menu_index_ok (store_put m_id strcmp m' s).
Proof.
  intros I Hm E1 E2 E3 x y Hx Hy D T.
  apply In_store_put in Hx. apply In_store_put in Hy.
  destruct Hx as [->|Hx]; destruct Hy as [->|Hy]; auto.
  - rewrite E1. symmetry. apply I; congruence.
  - rewrite E1. apply I; congruence.
Qed.

Lemma totalRating_fsum (l : list Feedback) :
  totalRating l = fsum (map f_rating l).
Proof.
  unfold totalRating, fsum. generalize 0%float.
  induction l as [|x l IH]; intros acc; cbn [fold_left map];
    [reflexivity | apply IH].
Qed.

Lemma submitMealFeedback_ok (env : Env) (date mealType studentId : jsstring)
    (rating : float) (comment : jsstring) (b : Backend) (menu : Menu) :
  menu_index_ok (messMenu b) ->
  store_get m_id strcmp (messMenu b) (menuId date mealType) = Some menu ->
  exists (menu' : Menu) (b' : Backend),
    submitMealFeedback env date mealType studentId rating comment b
      = (Ok menu', b') /\
    store_get m_id strcmp (messMenu b') (menuId date mealType) = Some menu' /\
    m_feedback menu' =
      m_feedback menu ++ [feedback_entry env studentId rating comment] /\
    m_averageRating menu' =
      Some (toFixed 1 (mean (map f_rating (m_feedback menu')))) /\
    menu_index_ok (messMenu b').
Proof.
  intros I Hget.
  destruct (store_get_In m_id strcmp strcmp_eq _ _ _ Hget) as [Hin Hkey].
  unfold submitMealFeedback.
  unfold bind at 1. unfold getObject_messMenu at 1. unfold gets at 1.
  rewrite Hget.
  fold (feedback_entry env studentId rating comment).
  set (fb := m_feedback menu ++ [feedback_entry env studentId rating comment]).
  assert (L : (0 <? length fb)%nat = true).
  { apply Nat.ltb_lt. unfold fb. rewrite length_app. cbn [length]. lia. }
  rewrite L.
  set (menu' := set_feedback fb _ (nowISO env) menu).
  unfold bind at 1. unfold putObject_messMenu at 1.
  rewrite (menus_conflict_false menu menu' _ I Hin) by reflexivity.
  unfold bind at 1.
  match goal with |- context [logActivity ?e ?a ?b ?c ?s] =>
    destruct (logActivity_run e a b c s) as [st ->] end.
  unfold ret. exists menu'. eexists. split; [reflexivity|].
  backend_simpl. split; [|split; [reflexivity|split]].
  - rewrite <- Hkey.
    change (m_id menu) with (m_id menu').
    apply store_get_put_same; [apply strcmp_eq | apply strcmp_antisym].
  - unfold menu'. cbn [set_feedback m_averageRating m_feedback].
    unfold mean. rewrite totalRating_fsum, length_map. reflexivity.
  - apply (menu_index_ok_put menu); auto.
Qed.

(** C7 (amended): on a stored menu every [submitMealFeedback] appends one
    entry to the menu's feedback and stores as [averageRating] the text
    with one decimal nearest to the binary64 mean of all the ratings of
    that list, feedback included (the larger numeral at a tie of that
    value); a second entry by the same student is accepted in the same
    way. *)
Theorem submitMealFeedback_spec (env env' : Env)
    (date mealType studentId : jsstring) (rating rating' : float)
    (comment comment' : jsstring) (b : Backend) (menu : Menu) :
  menu_index_ok (messMenu b) ->
  store_get m_id strcmp (messMenu b) (menuId date mealType) = Some menu ->
  exists (menu1 menu2 : Menu) (b1 b2 : Backend) (t1 t2 : numeral),
    submitMealFeedback env date mealType studentId rating comment b
      = (Ok menu1, b1) /\
    store_get m_id strcmp (messMenu b1) (menuId date mealType) = Some menu1 /\
    m_feedback menu1 =
      m_feedback menu ++ [feedback_entry env studentId rating comment] /\
    m_averageRating menu1 = Some t1 /\
    printed_with 1 (mean (map f_rating (m_feedback menu1))) t1 /\
    submitMealFeedback env' date mealType studentId rating' comment' b1
      = (Ok menu2, b2) /\
    store_get m_id strcmp (messMenu b2) (menuId date mealType) = Some menu2 /\
    m_feedback menu2 =
      m_feedback menu ++ [feedback_entry env studentId rating comment;
                          feedback_entry env' studentId rating' comment'] /\
    m_averageRating menu2 = Some t2 /\
    printed_with 1 (mean (map f_rating (m_feedback menu2))) t2.
Proof.
  intros I Hget.
  destruct (submitMealFeedback_ok env date mealType studentId rating comment
              b menu I Hget) as (menu1 & b1 & R1 & G1 & F1 & A1 & I1).
  destruct (submitMealFeedback_ok env' date mealType studentId rating'
              comment' b1 menu1 I1 G1) as (menu2 & b2 & R2 & G2 & F2 & A2 & _).
  exists menu1, menu2, b1, b2.
  eexists. eexists.
  split; [exact R1|]. split; [exact G1|]. split; [exact F1|].
  split; [exact A1|]. split; [apply toFixed_printed_with|].
  split; [exact R2|]. split; [exact G2|].
  split; [rewrite F2, F1, <- app_assoc; reflexivity|].
  split; [exact A2 | apply toFixed_printed_with].
Qed.

Lemma submitMealFeedback_spec_witness :
  exists (menu1 menu2 : Menu) (b1 b2 : Backend),
    submitMealFeedback env0 (js "2023-11-15") (js "lunch") alice_id 4
      (js "Good") mess_backend = (Ok menu1, b1) /\
    m_feedback menu1 =
      m_feedback lunch ++ [feedback_entry env0 alice_id 4 (js "Good")] /\
    submitMealFeedback env1 (js "2023-11-15") (js "lunch") alice_id 5
      (js "Better") b1 = (Ok menu2, b2) /\
    store_get m_id strcmp (messMenu b2)
      (menuId (js "2023-11-15") (js "lunch")) = Some menu2 /\
    m_feedback menu2 =
      m_feedback lunch ++ [feedback_entry env0 alice_id 4 (js "Good");
                           feedback_entry env1 alice_id 5 (js "Better")] /\
    exists t2 : numeral,
      m_averageRating menu2 = Some t2 /\
      printed_with 1 (mean (map f_rating (m_feedback menu2))) t2.
Proof.
  destruct (submitMealFeedback_spec env0 env1 (js "2023-11-15") (js "lunch")
              alice_id 4 5 (js "Good") (js "Better") mess_backend lunch)
    as (menu1 & menu2 & b1 & b2 & t1 & t2 & R1 & _ & F1 & _ & _ & R2 & G2
        & F2 & A2 & P2).
  - intros m1 m2 H1 H2 D T.
    destruct H1 as [<-|[<-|[]]]; destruct H2 as [<-|[<-|[]]];
      try reflexivity; vm_compute in D; discriminate D.
  - reflexivity.
  - exists menu1, menu2, b1, b2. split; [exact R1|]. split; [exact F1|].
    split; [exact R2|]. split; [exact G2|]. split; [exact F2|].
    exists t2. split; [exact A2 | exact P2].
Defined.

(** C7 as stated fails: twenty ratings with the sum 87 have the mean
    4.35, which rounds to 4.4, but the binary64 value of [87 / 20] lies
    below 4.35 and the stored [averageRating] is '4.3'. *)
Lemma submitMealFeedback_rounds_the_double :
  exists menu : Menu,
    store_get m_id strcmp (messMenu rated_backend)
      (menuId (js "2023-11-15") (js "lunch")) = Some menu /\
    map f_rating (m_feedback menu) = twenty_ratings /\
    fsum twenty_ratings = 87%float /\
    length twenty_ratings = 20%nat /\
    m_averageRating menu = Some (Decimal false 43 1) /\
    nearest_integer (87 * 10) 20 44.
Proof.
  eexists. split; [vm_compute; reflexivity|].
  repeat split; unfold nearest_integer; lia.
Qed.

Example submitMealFeedback_average :
  exists b1 : Backend,
    snd (submitMealFeedback env0 (js "2023-11-15") (js "lunch") alice_id 4
           (js "Good") mess_backend) = b1 /\
    option_map m_averageRating
      (match fst (submitMealFeedback env1 (js "2023-11-15") (js "lunch")
                    alice_id 5 (js "Better") b1) with
       | Ok m => Some m
       | Throw _ => None
       end) = Some (Some (Decimal false 45 1)).
Proof. eexists. split; reflexivity. Qed.

(** ** Meal booking *)






(** The duplicate guard holds across calls: once a booking of the student
    is stored, every later [bookMeal] of that student for the menu is
    refused. *)
Example bookMeal_refuses_a_stored_booking :
  exists menu : Menu,
    store_get m_id strcmp (messMenu booked_backend)
      (menuId (js "2023-11-15") (js "lunch")) = Some menu /\
    m_active menu = true /\
    bookMeal env1 (js "2023-11-15") (js "lunch") alice_id booked_backend
      = (Throw (Error "Already booked for this meal"), booked_backend).
Proof. eexists. repeat split. Qed.

(** ** Applications *)

Lemma getCurrentUser_run (b : Backend) :
  exists (r : option PublicUser) (b' : Backend),
    getCurrentUser b = (Ok r, b') /\
    careerOpportunities b' = careerOpportunities b /\
    studentApplications b' = studentApplications b /\
    (forall cu, r = Some cu -> currentUser b' = Some cu) /\
    (r = None -> b' = b).
Proof.
  unfold getCurrentUser.
  unfold bind at 1. unfold gets at 1.
  destruct (currentUser b) as [u|] eqn:C.
  - exists (Some u), b. unfold ret. repeat split; auto; congruence.
  - unfold bind at 1. unfold gets at 1.
    destruct (nerist_session b) as [sess|].
    + unfold bind at 1. unfold getUserById, gets.
      destruct (store_get user_key strcmp (users b) (s_userId sess))
        as [user|].
      * destruct (u_isActive (public user)).
        -- unfold bind, modify, ret. eexists; eexists.
           split; [reflexivity|]. repeat split; try congruence.
           intros cu E. injection E as <-. reflexivity.
        -- exists None, b. unfold ret. repeat split; congruence.
      * exists None, b. unfold ret. repeat split; congruence.
    + exists None, b. unfold ret. repeat split; congruence.
Qed.

(** What [applyForOpportunity] does, case by case. *)
Lemma applyForOpportunity_cases (env : Env) (opportunityId : Z)
    (studentData : jsstring) (b : Backend) :
  (exists (e : error) (b' : Backend),
      applyForOpportunity env opportunityId studentData b = (Throw e, b') /\
      careerOpportunities b' = careerOpportunities b /\
      studentApplications b' = studentApplications b) \/
  (exists (cu : PublicUser) (o : Opportunity) (b' : Backend),
      let k := generator (studentApplications b) in
      let app := new_application env cu o studentData k in
      applyForOpportunity env opportunityId studentData b = (Ok app, b') /\
      currentUser b' = Some cu /\
      store_get o_id Z.compare (rows (careerOpportunities b)) opportunityId
        = Some o /\
      is_past (o_deadline o) (now env) = false /\
      existsb (fun a => a_opportunityId a =? opportunityId)
        (getAllObjects_index a_studentId (u_id cu)
           (rows (studentApplications b))) = false /\
      studentApplications b' =
        {| rows := store_put a_id Z.compare app
                     (rows (studentApplications b));
           generator := k + 1 |} /\
      careerOpportunities b' =
        auto_put o_id (set_applicants (o_applicants o + 1) o)
          (careerOpportunities b)).
Proof.
  destruct (applyForOpportunity env opportunityId studentData b)
    as [r b'] eqn:Hrun.
  unfold applyForOpportunity in Hrun.
  destruct (getCurrentUser_run b) as (cur & b0 & Hcu & Hco & Hsa & Hsome & _).
  unfold bind at 1 in Hrun. rewrite Hcu in Hrun.
  destruct cur as [cu|].
  2:{ left. exists (Error "Not authenticated"), b0.
      injection Hrun as <- <-. auto. }
  specialize (Hsome cu eq_refl).
  unfold bind at 1 in Hrun. unfold gets at 1 in Hrun. rewrite Hco in Hrun.
  destruct (store_get o_id Z.compare (rows (careerOpportunities b))
              opportunityId) as [o|] eqn:Hget.
  2:{ left. exists (Error "Opportunity not found"), b0.
      injection Hrun as <- <-. auto. }
  destruct (is_past (o_deadline o) (now env)) eqn:Hpast.
  { left. exists (Error "Application deadline has passed"), b0.
    injection Hrun as <- <-. auto. }
  unfold bind at 1 in Hrun. unfold gets at 1 in Hrun. rewrite Hsa in Hrun.
  destruct (existsb (fun a => a_opportunityId a =? opportunityId)
              (getAllObjects_index a_studentId (u_id cu)
                 (rows (studentApplications b)))) eqn:Hdup.
  { left. exists (Error "Already applied for this opportunity"), b0.
    injection Hrun as <- <-. auto. }
  right.
  destruct (store_get_In o_id Z.compare Z_compare_eq _ _ _ Hget)
    as [Hin Hkey].
  assert (Happ : (if o_applicants o =? 0 then 0 else o_applicants o) + 1
                 = o_applicants o + 1).
  { destruct (Z.eqb_spec (o_applicants o) 0) as [->|]; reflexivity. }
  rewrite Happ in Hrun.
  unfold bind at 1 in Hrun.
  unfold addObject_studentApplications at 1 in Hrun.
  unfold auto_add in Hrun. rewrite Hsa in Hrun.
  unfold bind at 1 in Hrun.
  unfold putObject_careerOpportunities, modify in Hrun.
  unfold bind at 1 in Hrun.
  match type of Hrun with context [logActivity ?e ?a ?b ?c ?s] =>
    destruct (logActivity_run e a b c s) as [st Hlog] end.
  rewrite Hlog in Hrun. unfold ret in Hrun.
  injection Hrun as <- <-.
  exists cu, o. eexists. cbn zeta.
  unfold new_application. rewrite Hkey.
  split; [reflexivity|]. backend_simpl.
  repeat split; auto.
  rewrite Hco. reflexivity.
Qed.

Lemma existing_applications_cover (studentId : jsstring) (opportunityId : Z)
    (l : list Application) :
  existsb (fun a => a_opportunityId a =? opportunityId)
    (getAllObjects_index a_studentId studentId l) = false ->
  forall a, In a l -> a_studentId a = studentId ->
            a_opportunityId a <> opportunityId.
Proof.
  intros H a Ha Hs E.
  assert (X : existsb (fun a => a_opportunityId a =? opportunityId)
                (getAllObjects_index a_studentId studentId l) = true);
    [|congruence].
  apply existsb_exists. exists a. split; [|apply Z.eqb_eq; exact E].
  unfold getAllObjects_index. destruct (truthy studentId).
  - apply filter_In. split; [exact Ha|]. apply streq_spec. exact Hs.
  - apply In_sort. exact Ha.
Qed.

Lemma applyForOpportunity_preserves (env : Env) (opportunityId : Z)
    (studentData : jsstring) (b : Backend) :
  career_inv b ->
  career_inv (snd (applyForOpportunity env opportunityId studentData b)).
Proof.
  intros Inv.
  destruct (applyForOpportunity_cases env opportunityId studentData b)
    as [(e & b' & -> & Hco & Hsa)
       |(cu & o & b' & Hrun & _ & Hget & _ & Hdup & Hsa & Hco)].
  - cbn [snd]. unfold career_inv, career_wf, counters_agree,
      applications_distinct, applications_for in *.
    rewrite Hco, Hsa. exact Inv.
  - cbn zeta in Hrun, Hsa. rewrite Hrun. cbn [snd].
    destruct Inv as [[[Wo Go] [Wa Ga]] [Hcount Hdist]].
    destruct (store_get_In o_id Z.compare Z_compare_eq _ _ _ Hget)
      as [Hin Hkey].
    set (k := generator (studentApplications b)) in *.
    set (app := new_application env cu o studentData k) in *.
    assert (Hfresh : forall x, In x (rows (studentApplications b)) ->
                               a_id x <> a_id app).
    { intros x Hx. rewrite Forall_forall in Ga. apply Ga in Hx.
      cbn [app new_application a_id]. unfold k. lia. }
    pose proof (store_put_fresh a_id Z.compare Z_compare_eq app
                  (rows (studentApplications b)) Hfresh) as Perm.
    assert (Hlen : forall oid,
              length (filter (fun a => a_opportunityId a =? oid)
                        (rows (studentApplications b'))) =
              length (filter (fun a => a_opportunityId a =? oid)
                        (app :: rows (studentApplications b)))).
    { intros oid. rewrite Hsa. cbn [rows].
      apply length_filter_perm. exact Perm. }
    split; [split; split|split].
    + rewrite Hco. cbn [auto_put rows].
      apply (store_put_wf o_id Z.compare Z_compare_eq Z_compare_antisym
               Z_compare_trans). exact Wo.
    + rewrite Hco. cbn [auto_put rows generator].
      apply Forall_forall. intros x Hx. apply In_store_put in Hx.
      destruct Hx as [->|Hx].
      * cbn [set_applicants o_id]. lia.
      * rewrite Forall_forall in Go. apply Go in Hx. lia.
    + rewrite Hsa. cbn [rows].
      apply (store_put_wf a_id Z.compare Z_compare_eq Z_compare_antisym
               Z_compare_trans). exact Wa.
    + rewrite Hsa. cbn [rows generator].
      apply Forall_forall. intros x Hx. apply In_store_put in Hx.
      destruct Hx as [->|Hx].
      * cbn [app new_application a_id]. lia.
      * rewrite Forall_forall in Ga. apply Ga in Hx. fold k in Hx. lia.
    + intros o' Ho'. unfold applications_for. rewrite Hlen.
      rewrite Hco in Ho'. cbn [auto_put rows] in Ho'.
      apply (In_store_put_wf o_id Z.compare Z_compare_eq Z_compare_antisym
               Z_compare_trans) in Ho'; [|exact Wo].
      cbn [filter app new_application a_opportunityId].
      destruct Ho' as [->|[Ho' Hne]].
      * cbn [set_applicants o_id o_applicants].
        rewrite Z.eqb_refl. cbn [length].
        rewrite (Hcount o Hin). unfold applications_for. lia.
      * cbn [set_applicants o_id] in Hne.
        destruct (Z.eqb_spec (o_id o) (o_id o')) as [E|_];
          [congruence|].
        apply (Hcount o' Ho').
    + unfold applications_distinct in *.
      rewrite Hsa. cbn [rows].
      apply (Permutation_NoDup
               (l := map (fun a => (a_studentId a, a_opportunityId a))
                       (app :: rows (studentApplications b)))).
      * apply Permutation_map. symmetry. exact Perm.
      * cbn [map]. constructor; [|exact Hdist].
        intros Hmem. apply in_map_iff in Hmem.
        destruct Hmem as [a [Epair Ha]].
        injection Epair as Es Eo.
        cbn [app new_application a_studentId a_opportunityId] in Es, Eo.
        apply (existing_applications_cover _ _ _ Hdup a Ha Es).
        rewrite Eo. exact Hkey.
Qed.

Lemma keeps_ret {A} (a : A) : keeps_career (ret a).
Proof. intros b. split; reflexivity. Qed.

Lemma keeps_throw {A} (e : error) : keeps_career (@throw A e).
Proof. intros b. split; reflexivity. Qed.

Lemma keeps_gets {A} (f : Backend -> A) : keeps_career (gets f).
Proof. intros b. split; reflexivity. Qed.

Lemma keeps_modify (f : Backend -> Backend) :
  (forall b, careerOpportunities (f b) = careerOpportunities b) ->
  (forall b, studentApplications (f b) = studentApplications b) ->
  keeps_career (modify f).
Proof. intros H1 H2 b. split; cbn [modify snd]; auto. Qed.

Lemma keeps_bind {A B} (m : M A) (k : A -> M B) :
  keeps_career m -> (forall a, keeps_career (k a)) ->
  keeps_career (bind m k).
Proof.
  intros Hm Hk b. unfold bind. specialize (Hm b).
  destruct (m b) as [[a|e] b'] eqn:E; cbn [snd] in *.
  - destruct (Hk a b') as [H1 H2]. destruct Hm as [H3 H4].
    split; congruence.
  - exact Hm.
Qed.

Lemma keeps_putObject_users (u : User) : keeps_career (putObject_users u).
Proof.
  intros b. unfold putObject_users.
  destruct (users_conflict u (users b)); split; reflexivity.
Qed.

Lemma keeps_logActivity (env : Env) (userId action details : jsstring) :
  keeps_career (logActivity env userId action details).
Proof.
  intros b. destruct (logActivity_run env userId action details b)
    as [st ->]. split; reflexivity.
Qed.

Lemma keeps_btoaM (r : option jsstring) : keeps_career (btoaM r).
Proof. destruct r; [apply keeps_ret | apply keeps_throw]. Qed.

Ltac keeps_step :=
  first [ apply keeps_ret | apply keeps_throw | apply keeps_gets
        | apply keeps_btoaM
        | apply keeps_putObject_users | apply keeps_logActivity
        | apply keeps_modify; intros ?; reflexivity
        | apply keeps_bind; [|intros ?]
        | match goal with
          | |- keeps_career (match ?x with _ => _ end) => destruct x
          end ].

Lemma login_career (env : Env) (username password_ : jsstring) :
  keeps_career (login env username password_).
Proof.
  unfold login, getUserByUsername, createSession, generateToken.
  repeat keeps_step.
Qed.

Lemma logout_career (env : Env) : keeps_career (logout env).
Proof. unfold logout. repeat keeps_step. Qed.

Lemma career_inv_same_stores (b b' : Backend) :
  careerOpportunities b' = careerOpportunities b ->
  studentApplications b' = studentApplications b ->
  career_inv b -> career_inv b'.
Proof.
  intros Hco Hsa Inv.
  unfold career_inv, career_wf, counters_agree, applications_distinct,
    applications_for in *.
  rewrite Hco, Hsa. exact Inv.
Qed.

Lemma run_call_preserves (c : call) (b : Backend) :
  career_inv b -> career_inv (run_call c b).
Proof.
  intros Inv. destruct c as [env oid data|env u p|env]; cbn [run_call].
  - apply applyForOpportunity_preserves. exact Inv.
  - destruct (login_career env u p b) as [H1 H2].
    exact (career_inv_same_stores _ _ H1 H2 Inv).
  - destruct (logout_career env b) as [H1 H2].
    exact (career_inv_same_stores _ _ H1 H2 Inv).
Qed.

Lemma run_calls_preserve (cs : list call) (b : Backend) :
  career_inv b -> career_inv (run_calls cs b).
Proof.
  revert b. induction cs as [|c cs IH]; intros b Inv; cbn [run_calls fold_left].
  - exact Inv.
  - apply IH. apply run_call_preserves. exact Inv.
Qed.

Lemma applyForOpportunity_again (env env' : Env) (opportunityId : Z)
    (studentData studentData' : jsstring) (b b1 : Backend)
    (app : Application) (o : Opportunity) :
  applyForOpportunity env opportunityId studentData b = (Ok app, b1) ->
  store_get o_id Z.compare (rows (careerOpportunities b)) opportunityId
    = Some o ->
  is_past (o_deadline o) (now env') = false ->
  applyForOpportunity env' opportunityId studentData' b1
    = (Throw (Error "Already applied for this opportunity"), b1).
Proof.
  intros Hrun Hget Hlive.
  destruct (applyForOpportunity_cases env opportunityId studentData b)
    as [(e & b' & Hrun' & _)
       |(cu & o' & b' & Hrun' & Hcu & Hget' & _ & _ & Hsa & Hco)];
    [congruence|].
  cbn zeta in Hrun', Hsa.
  rewrite Hrun in Hrun'. injection Hrun' as -> <-.
  rewrite Hget in Hget'. injection Hget' as <-.
  destruct (store_get_In o_id Z.compare Z_compare_eq _ _ _ Hget)
    as [Hin Hkey].
  unfold applyForOpportunity.
  unfold bind at 1. unfold getCurrentUser.
  unfold bind at 1. unfold gets at 1. rewrite Hcu. unfold ret at 1.
  unfold bind at 1. unfold gets at 1.
  rewrite Hco. cbn [auto_put rows].
  assert (Hget1 :
    store_get o_id Z.compare
      (store_put o_id Z.compare (set_applicants (o_applicants o + 1) o)
         (rows (careerOpportunities b))) opportunityId
    = Some (set_applicants (o_applicants o + 1) o)).
  { rewrite <- Hkey.
    change (o_id o) with (o_id (set_applicants (o_applicants o + 1) o)).
    apply store_get_put_same;
      [apply Z_compare_eq | apply Z_compare_antisym]. }
  rewrite Hget1.
  cbn [set_applicants o_deadline]. rewrite Hlive.
  unfold bind at 1. unfold gets at 1. rewrite Hsa. cbn [rows].
  set (app := new_application env cu o studentData
                (generator (studentApplications b))).
  assert (E : existsb (fun a => a_opportunityId a =? opportunityId)
                (getAllObjects_index a_studentId (u_id cu)
                   (store_put a_id Z.compare app
                      (rows (studentApplications b)))) = true).
  { apply existsb_exists. exists app. split.
    - unfold getAllObjects_index. destruct (truthy (u_id cu)).
      + apply filter_In. split; [apply In_store_put_new|].
        apply streq_refl.
      + apply In_sort. apply In_store_put_new.
    - cbn [app new_application a_opportunityId]. apply Z.eqb_eq.
      exact Hkey. }
  rewrite E. reflexivity.
Qed.

Lemma run_call_applications (oid : Z) (c : call) (b : Backend) :
  career_inv b ->
  length (applications_for oid (run_call c b)) =
  (length (applications_for oid b) + stores_application oid c b)%nat.
Proof.
  intros Inv. unfold applications_for.
  destruct c as [env oid' data|env u p|env];
    cbn [run_call stores_application].
  - destruct (applyForOpportunity_cases env oid' data b)
      as [(e & b' & -> & _ & Hsa)
         |(cu & o & b' & Hrun & _ & Hget & _ & _ & Hsa & _)].
    + cbn [fst snd]. rewrite Hsa. lia.
    + cbn zeta in Hrun, Hsa. rewrite Hrun. cbn [fst snd].
      destruct Inv as [[_ [_ Ga]] _].
      destruct (store_get_In o_id Z.compare Z_compare_eq _ _ _ Hget)
        as [_ Hkey].
      rewrite Hsa. cbn [rows].
      rewrite (length_filter_perm _ _
                 (new_application env cu o data
                    (generator (studentApplications b))
                  :: rows (studentApplications b))).
      * cbn [filter new_application a_opportunityId]. rewrite Hkey.
        destruct (oid' =? oid); cbn [length]; lia.
      * apply (store_put_fresh a_id Z.compare Z_compare_eq).
        intros x Hx. rewrite Forall_forall in Ga. apply Ga in Hx.
        cbn [new_application a_id]. lia.
  - destruct (login_career env u p b) as [_ ->]. lia.
  - destruct (logout_career env b) as [_ ->]. lia.
Qed.

Lemma run_calls_applications (oid : Z) (cs : list call) (b : Backend) :
  career_inv b ->
  length (applications_for oid (run_calls cs b)) =
  (length (applications_for oid b) + successful_applications oid cs b)%nat.
Proof.
  revert b. induction cs as [|c cs IH]; intros b Inv;
    cbn [run_calls fold_left successful_applications].
  - lia.
  - fold (run_calls cs (run_call c b)).
    rewrite IH by (apply run_call_preserves; exact Inv).
    rewrite run_call_applications by exact Inv. lia.
Qed.

(** C2 (amended): when a first [applyForOpportunity] has succeeded, a
    second one by the same student for the same opportunity, made while
    the deadline has not passed, fails with 'Already applied for this
    opportunity'; and after any sequence of calls every opportunity's
    [applicants] counter is the number of stored applications that
    reference it, these being one per successful call and pairwise
    distinct in student and opportunity. *)
Theorem apply_twice_and_counter (env env' : Env) (opportunityId : Z)
    (studentData studentData' : jsstring) (b b1 : Backend)
    (app : Application) (o : Opportunity) (calls : list call) :
  career_inv b ->
  (applyForOpportunity env opportunityId studentData b = (Ok app, b1) ->
   store_get o_id Z.compare (rows (careerOpportunities b)) opportunityId
     = Some o ->
   is_past (o_deadline o) (now env') = false ->
   applyForOpportunity env' opportunityId studentData' b1
     = (Throw (Error "Already applied for this opportunity"), b1)) /\
  (forall o',
      In o' (rows (careerOpportunities (run_calls calls b))) ->
      o_applicants o' =
        Z.of_nat (length (applications_for (o_id o') (run_calls calls b))) /\
      length (applications_for (o_id o') (run_calls calls b)) =
        (length (applications_for (o_id o') b)
         + successful_applications (o_id o') calls b)%nat) /\
  applications_distinct (run_calls calls b).
Proof.
  intros Inv. split; [|split].
  - apply applyForOpportunity_again.
  - intros o' Ho'. split.
    + apply (run_calls_preserve calls b Inv). exact Ho'.
    + apply run_calls_applications. exact Inv.
  - apply (run_calls_preserve calls b Inv).
Qed.

Lemma apply_twice_and_counter_witness :
  applyForOpportunity env0 1 (js "cv.pdf") applied_backend
    = (Throw (Error "Already applied for this opportunity"),
       applied_backend) /\
  (forall o',
      In o' (rows (careerOpportunities
                     (run_calls sample_calls career_backend))) ->
      o_applicants o' =
        Z.of_nat (length (applications_for (o_id o')
                            (run_calls sample_calls career_backend))) /\
      length (applications_for (o_id o')
                (run_calls sample_calls career_backend)) =
        (length (applications_for (o_id o') career_backend)
         + successful_applications (o_id o') sample_calls career_backend)
        %nat) /\
  applications_distinct (run_calls sample_calls career_backend).
Proof.
  assert (Inv : career_inv career_backend).
  { split; [split; split|split].
    - unfold store_wf. repeat constructor.
    - repeat constructor.
    - unfold store_wf. repeat constructor.
    - repeat constructor.
    - intros o [<-|[]]. reflexivity.
    - constructor. }
  destruct (apply_twice_and_counter env0 env0 1 (js "cv.pdf") (js "cv.pdf")
              career_backend applied_backend
              (new_application env0 (public (stamp_login env0 alice_record))
                 internship (js "cv.pdf") 1)
              internship sample_calls Inv) as [H1 H2].
  split; [|exact H2].
  apply H1; reflexivity.
Defined.

Example sample_calls_counter :
  map o_applicants
    (rows (careerOpportunities (run_calls sample_calls career_backend)))
    = [1] /\
  successful_applications 1 sample_calls career_backend = 1%nat.
Proof. split; reflexivity. Qed.

(** C2 as stated fails: when the deadline passes between the two calls,
    the second call fails with the deadline error, not with the
    duplicate-application error. *)
Lemma apply_again_after_deadline :
  exists (app : Application) (b1 : Backend),
    applyForOpportunity env0 1 (js "cv.pdf") career_backend = (Ok app, b1) /\
    applyForOpportunity env1 1 (js "cv.pdf") b1
      = (Throw (Error "Application deadline has passed"), b1).
Proof.
  exists (new_application env0 (public (stamp_login env0 alice_record))
            internship (js "cv.pdf") 1), applied_backend.
  split; reflexivity.
Qed.

(** ** Shared facts for the user workflows *)

Lemma logActivity_eq (env : Env) (userId action details : jsstring)
    (b : Backend) :
  logActivity env userId action details b =
  (Ok tt,
   set_activityLog
     (snd (auto_add l_id (log_entry env userId action details)
             (activityLog b))) b).
Proof. reflexivity. Qed.

Lemma getCurrentUser_known (b : Backend) (cu : PublicUser) :
  currentUser b = Some cu -> getCurrentUser b = (Ok (Some cu), b).
Proof.
  intros H. unfold getCurrentUser, bind, gets. rewrite H. reflexivity.
Qed.

Lemma getCurrentUser_none (b : Backend) :
  fst (getCurrentUser b) = Ok None -> getCurrentUser b = (Ok None, b).
Proof.
  destruct (getCurrentUser_run b) as (r & b' & H & _ & _ & _ & Hn).
  rewrite H. cbn [fst]. intros E. injection E as ->.
  rewrite (Hn eq_refl). reflexivity.
Qed.

Lemma index_lookup_some {R} (field : R -> jsstring) (q : jsstring)
    (l : list R) :
  truthy q = true -> (exists x, In x l /\ field x = q) ->
  exists y, hd_error (getAllObjects_index field q l) = Some y /\
            In y l /\ field y = q.
Proof.
  intros T [x [Hx E]]. unfold getAllObjects_index. rewrite T.
  destruct (filter (fun r => streq (field r) q) l) as [|y r] eqn:F.
  - assert (H : In x (filter (fun r => streq (field r) q) l)).
    { apply filter_In. split; [exact Hx|]. apply streq_spec. exact E. }
    rewrite F in H. destruct H.
  - exists y. split; [reflexivity|].
    assert (H : In y (filter (fun r => streq (field r) q) l))
      by (rewrite F; left; reflexivity).
    apply filter_In in H. destruct H as [H1 H2].
    apply streq_spec in H2. auto.
Qed.

Lemma index_lookup_none {R} (field : R -> jsstring) (q : jsstring)
    (l : list R) :
  truthy q = true -> (forall x, In x l -> field x <> q) ->
  hd_error (getAllObjects_index field q l) = None.
Proof.
  intros T H. unfold getAllObjects_index. rewrite T.
  rewrite filter_none; [reflexivity|].
  intros x Hx. apply streq_neq. auto.
Qed.

Section Preserves.
Context (P : Backend -> Prop).

Lemma preserves_ret {A} (a : A) : preserves P (ret a).
Proof. intros b H. exact H. Qed.

Lemma preserves_throw {A} (e : error) : preserves P (@throw A e).
Proof. intros b H. exact H. Qed.

Lemma preserves_gets {A} (f : Backend -> A) : preserves P (gets f).
Proof. intros b H. exact H. Qed.

Lemma preserves_btoaM (r : option jsstring) : preserves P (btoaM r).
Proof. destruct r; [apply preserves_ret | apply preserves_throw]. Qed.

Lemma preserves_modify (f : Backend -> Backend) :
  (forall b, P b -> P (f b)) -> preserves P (modify f).
Proof. intros H b Hb. apply H. exact Hb. Qed.

Lemma preserves_bind {A B} (m : M A) (k : A -> M B) :
  preserves P m -> (forall a, preserves P (k a)) -> preserves P (bind m k).
Proof.
  intros Hm Hk b Hb. unfold bind. specialize (Hm b Hb).
  destruct (m b) as [[a|e] b']; cbn [snd] in *.
  - apply Hk. exact Hm.
  - exact Hm.
Qed.

Lemma preserves_logActivity (env : Env) (userId action details : jsstring) :
  (forall st b, P b -> P (set_activityLog st b)) ->
  preserves P (logActivity env userId action details).
Proof.
  intros H b Hb. rewrite logActivity_eq. apply H. exact Hb.
Qed.
End Preserves.

Lemma putObject_users_ok (u : User) : preserves users_ok (putObject_users u).
Proof.
  intros b [W I]. unfold putObject_users.
  destruct (users_conflict u (users b)) eqn:C; cbn [snd]; [split; assumption|].
  split; backend_simpl.
  - apply (store_put_wf user_key strcmp strcmp_eq strcmp_antisym
             strcmp_trans). exact W.
  - intros x y Hx Hy E.
    destruct (In_store_put_wf user_key strcmp strcmp_eq strcmp_antisym
                strcmp_trans u x (users b) W Hx) as [->|[Hx' Kx]];
    destruct (In_store_put_wf user_key strcmp strcmp_eq strcmp_antisym
                strcmp_trans u y (users b) W Hy) as [->|[Hy' Ky]].
    + reflexivity.
    + exfalso.
      destruct (users_conflict_elim u y (users b) C Hy' Ky) as [N1 N2].
      destruct E as [E|E]; [apply N1 | apply N2]; congruence.
    + exfalso.
      destruct (users_conflict_elim u x (users b) C Hx' Kx) as [N1 N2].
      destruct E as [E|E]; [apply N1 | apply N2]; congruence.
    + apply I; auto.
Qed.

Ltac users_ok_step :=
  first [ apply preserves_ret | apply preserves_throw | apply preserves_gets
        | apply preserves_btoaM
        | apply putObject_users_ok
        | apply preserves_logActivity; intros ? ? H; exact H
        | apply preserves_modify; intros ? H; exact H
        | apply preserves_bind; [|intros ?]
        | match goal with
          | |- preserves _ (match ?x with _ => _ end) => destruct x
          end ].

Lemma updateUserProfile_users_ok (env : Env) (userId : jsstring)
    (updates : Updates) :
  preserves users_ok (updateUserProfile env userId updates).
Proof. unfold updateUserProfile, getUserById. repeat users_ok_step. Qed.

Lemma alice_backend_ok : users_ok alice_backend.
Proof.
  split.
  - unfold store_wf. repeat constructor.
  - intros u v [<-|[]] [<-|[]] _. reflexivity.
Qed.

Lemma users_ok_lookup (b : Backend) (user : User) :
  users_ok b -> In user (users b) ->
  hd_error (getAllObjects_index (fun u => u_username (public u))
              (u_username (public user)) (users b)) = Some user /\
  store_get user_key strcmp (users b) (user_key user) = Some user.
Proof.
  intros [W I] Hu. split.
  - apply (index_lookup_unique (fun u => u_username (public u)) _ user Hu).
    intros x Hx E. cbn beta in E.
    apply (wf_unique user_key strcmp strcmp_eq _ x user W Hx Hu).
    apply I; auto.
  - apply (store_get_wf_In user_key strcmp strcmp_eq); assumption.
Qed.

Lemma users_ok_no_conflict (b : Backend) (user user' : User) :
  users_ok b -> In user (users b) ->
  user_key user' = user_key user ->
  u_username (public user') = u_username (public user) ->
  u_email (public user') = u_email (public user) ->
  users_conflict user' (users b) = false.
Proof.
  intros [W I] Hu K E1 E2. apply users_conflict_false. intros v Hv.
  destruct (streq (user_key v) (user_key user')) eqn:S.
  - left. apply streq_spec. exact S.
  - right. split; intros E.
    + assert (X : user_key v = user_key user)
        by (apply I; auto; left; congruence).
      rewrite K, X, streq_refl in S. discriminate.
    + assert (X : user_key v = user_key user)
        by (apply I; auto; right; congruence).
      rewrite K, X, streq_refl in S. discriminate.
Qed.

Lemma login_succeeds (env : Env) (b : Backend) (user : User)
    (pw : jsstring) :
  users_ok b -> In user (users b) ->
  u_isActive (public user) = true ->
  latin1 (user_key user) = true ->
  hashPassword pw = Some (password user) ->
  exists b2 : Backend,
    login env (u_username (public user)) pw b
      = (Ok (public (stamp_login env user)), b2) /\
    users b2 = store_put user_key strcmp (stamp_login env user) (users b).
Proof.
  intros Ok_ Hu Hact Hid Hh.
  apply login_ok; auto.
  - apply (users_ok_lookup b user Ok_ Hu).
  - apply (users_ok_no_conflict b user); auto.
Qed.

(** What a call of [login] does, case by case. *)
Lemma login_cases (env : Env) (username pw : jsstring) (b : Backend) :
  (exists e, login env username pw b = (Throw e, b) /\
     (e = Error "User not found" \/ e = Error "Account is deactivated" \/
      e = InvalidCharacterError \/ e = Error "Invalid password" \/
      e = ConstraintError)) \/
  (exists user,
     hd_error (getAllObjects_index (fun u => u_username (public u)) username
                 (users b)) = Some user /\
     u_isActive (public user) = true /\
     hashPassword pw = Some (password user) /\
     users_conflict (stamp_login env user) (users b) = false /\
     ((latin1 (user_key user) = false /\
       login env username pw b =
         (Throw InvalidCharacterError,
          set_users (store_put user_key strcmp (stamp_login env user)
                       (users b)) b)) \/
      (exists (session : Session) (st : AutoStore LogEntry),
         login env username pw b =
           (Ok (public (stamp_login env user)),
            set_currentUser (Some (public (stamp_login env user)))
              (set_activityLog st
                 (set_nerist_token (Some (s_token session))
                    (set_nerist_session (Some session)
                       (set_users (store_put user_key strcmp
                                     (stamp_login env user) (users b))
                          b))))) /\
         s_userId session = user_key user /\
         s_username session = u_username (public user) /\
         s_role session = u_role (public user) /\
         s_expiresAt session = now env + 24 * 60 * 60 * 1000))).
Proof.
  destruct (login env username pw b) as [r b'] eqn:Hrun.
  unfold login in Hrun.
  unfold bind at 1 in Hrun. unfold getUserByUsername at 1 in Hrun.
  unfold gets at 1 in Hrun.
  destruct (hd_error _) as [user|] eqn:Hfind.
  2:{ left. injection Hrun as <- <-. eexists. split; [reflexivity|]. auto. }
  destruct (u_isActive (public user)) eqn:Hact; cbn [negb] in Hrun.
  2:{ left. injection Hrun as <- <-. eexists. split; [reflexivity|]. auto. }
  destruct (hashPassword pw) as [h|] eqn:Hh.
  2:{ left. injection Hrun as <- <-. eexists. split; [reflexivity|]. auto. }
  unfold btoaM at 1 in Hrun. unfold bind at 1 in Hrun.
  unfold ret at 1 in Hrun.
  destruct (streq (password user) h) eqn:Hpw; cbn [negb] in Hrun.
  2:{ left. injection Hrun as <- <-. eexists. split; [reflexivity|]. auto. }
  apply streq_spec in Hpw. subst h.
  fold (stamp_login env user) in Hrun.
  unfold bind at 1 in Hrun. unfold putObject_users at 1 in Hrun.
  destruct (users_conflict (stamp_login env user) (users b)) eqn:Hc.
  { left. injection Hrun as <- <-. eexists. split; [reflexivity|]. auto 6. }
  right. exists user. do 4 (split; [auto|]).
  unfold bind at 1 in Hrun. unfold createSession at 1 in Hrun.
  unfold bind at 1 in Hrun. unfold generateToken at 1 in Hrun.
  unfold bind at 1 in Hrun. unfold btoa in Hrun.
  replace (user_key (stamp_login env user)) with (user_key user) in Hrun
    by reflexivity.
  rewrite !latin1_app, ?latin1_js, ?latin1_dec in Hrun.
  rewrite latin1_firstn in Hrun by apply latin1_js.
  rewrite !andb_true_r in Hrun.
  destruct (latin1 (user_key user)) eqn:Hid.
  2:{ left. injection Hrun as <- <-. split; reflexivity. }
  right.
  cbn [btoaM] in Hrun. unfold ret at 1 in Hrun. unfold ret at 1 in Hrun.
  unfold bind at 1 in Hrun. unfold modify at 1 in Hrun.
  unfold bind at 1 in Hrun. unfold modify at 1 in Hrun.
  unfold ret at 1 in Hrun.
  unfold bind at 1 in Hrun.
  match type of Hrun with context [logActivity ?e ?a ?b ?c ?s] =>
    destruct (logActivity_run e a b c s) as [st Hlog] end.
  rewrite Hlog in Hrun.
  unfold bind at 1 in Hrun. unfold modify at 1 in Hrun. unfold ret in Hrun.
  injection Hrun as <- <-.
  match goal with |- context [set_nerist_session (Some ?s)] => exists s end.
  exists st. split; [reflexivity|]. repeat split.
Qed.

Lemma updateUserProfile_inv (env : Env) (userId : jsstring)
    (updates : Updates) (b b1 : Backend) (pu : PublicUser) :
  updateUserProfile env userId updates b = (Ok pu, b1) ->
  exists user : User,
    store_get user_key strcmp (users b) userId = Some user /\
    users_conflict (merge_updates user updates) (users b) = false /\
    pu = public (merge_updates user updates) /\
    b1 = set_activityLog
           (snd (auto_add l_id
                   (log_entry env userId (js "update_profile")
                      (js "Profile updated")) (activityLog b)))
           (set_users (store_put user_key strcmp (merge_updates user updates)
                         (users b)) b).
Proof.
  unfold updateUserProfile.
  unfold bind at 1. unfold getUserById at 1. unfold gets at 1.
  destruct (store_get user_key strcmp (users b) userId) as [user|] eqn:G;
    [|discriminate].
  unfold bind at 1. unfold putObject_users at 1.
  destruct (users_conflict _ (users b)) eqn:C; [discriminate|].
  unfold bind at 1. rewrite logActivity_eq. unfold ret.
  intros H. injection H as <- <-.
  exists user. repeat split; auto.
Qed.

(** Calls that raise before or in their first write. *)
Lemma registerUser_throw (env : Env) (d : UserData) (b b' : Backend)
    (e : error) :
  registerUser env d b = (Throw e, b') -> b' = b.
Proof.
  unfold registerUser.
  destruct (negb (truthy (d_username d)) || negb (truthy (d_password d))
            || negb (truthy (d_email d)) || negb (truthy (d_role d))).
  { intros H; injection H as _ <-; reflexivity. }
  unfold bind at 1. unfold getUserByUsername at 1. unfold gets at 1.
  destruct (hd_error _).
  { intros H; injection H as _ <-; reflexivity. }
  unfold bind at 1. unfold getUserByEmail at 1. unfold gets at 1.
  destruct (hd_error _).
  { intros H; injection H as _ <-; reflexivity. }
  destruct (hashPassword (d_password d)) as [h|].
  2:{ intros H; injection H as _ <-; reflexivity. }
  unfold btoaM. unfold bind at 1. unfold ret at 1.
  unfold bind at 1. unfold putObject_users at 1.
  destruct (users_conflict _ (users b)).
  { intros H; injection H as _ <-; reflexivity. }
  unfold bind at 1. rewrite logActivity_eq. unfold ret. discriminate.
Qed.

Lemma updateUserProfile_throw (env : Env) (userId : jsstring)
    (updates : Updates) (b b' : Backend) (e : error) :
  updateUserProfile env userId updates b = (Throw e, b') -> b' = b.
Proof.
  unfold updateUserProfile.
  unfold bind at 1. unfold getUserById at 1. unfold gets at 1.
  destruct (store_get user_key strcmp (users b) userId) as [user|].
  2:{ intros H; injection H as _ <-; reflexivity. }
  unfold bind at 1. unfold putObject_users at 1.
  destruct (users_conflict _ (users b)).
  { intros H; injection H as _ <-; reflexivity. }
  unfold bind at 1. rewrite logActivity_eq. unfold ret. discriminate.
Qed.

Lemma changePassword_throw (env : Env) (userId o n : jsstring)
    (b b' : Backend) (e : error) :
  changePassword env userId o n b = (Throw e, b') -> b' = b.
Proof.
  unfold changePassword.
  unfold bind at 1. unfold getUserById at 1. unfold gets at 1.
  destruct (store_get user_key strcmp (users b) userId) as [user|].
  2:{ intros H; injection H as _ <-; reflexivity. }
  destruct (hashPassword o) as [ho|].
  2:{ intros H; injection H as _ <-; reflexivity. }
  unfold btoaM at 1. unfold bind at 1. unfold ret at 1.
  destruct (negb (streq (password user) ho)).
  { intros H; injection H as _ <-; reflexivity. }
  destruct (hashPassword n) as [hn|].
  2:{ intros H; injection H as _ <-; reflexivity. }
  unfold btoaM at 1. unfold bind at 1. unfold ret at 1.
  unfold bind at 1. unfold putObject_users at 1.
  destruct (users_conflict _ (users b)).
  { intros H; injection H as _ <-; reflexivity. }
  unfold bind at 1. rewrite logActivity_eq. unfold ret. discriminate.
Qed.

Lemma bookMeal_throw (env : Env) (date mealType studentId : jsstring)
    (b b' : Backend) (e : error) :
  bookMeal env date mealType studentId b = (Throw e, b') -> b' = b.
Proof.
  unfold bookMeal.
  unfold bind at 1. unfold getObject_messMenu at 1. unfold gets at 1.
  destruct (store_get m_id strcmp (messMenu b) (menuId date mealType))
    as [menu|].
  2:{ intros H; injection H as _ <-; reflexivity. }
  destruct (negb (m_active menu)).
  { intros H; injection H as _ <-; reflexivity. }
  destruct (existsb _ (m_bookings menu)).
  { intros H; injection H as _ <-; reflexivity. }
  unfold bind at 1. unfold putObject_messMenu at 1.
  destruct (menus_conflict _ (messMenu b)).
  { intros H; injection H as _ <-; reflexivity. }
  unfold bind at 1. unfold putObject_mealBookings at 1. unfold modify at 1.
  unfold bind at 1. rewrite logActivity_eq. unfold ret. discriminate.
Qed.

Lemma submitMealFeedback_throw (env : Env)
    (date mealType studentId : jsstring) (rating : float)
    (comment : jsstring) (b b' : Backend) (e : error) :
  submitMealFeedback env date mealType studentId rating comment b
    = (Throw e, b') -> b' = b.
Proof.
  unfold submitMealFeedback.
  unfold bind at 1. unfold getObject_messMenu at 1. unfold gets at 1.
  destruct (store_get m_id strcmp (messMenu b) (menuId date mealType))
    as [menu|].
  2:{ intros H; injection H as _ <-; reflexivity. }
  unfold bind at 1. unfold putObject_messMenu at 1.
  destruct (menus_conflict _ (messMenu b)).
  { intros H; injection H as _ <-; reflexivity. }
  unfold bind at 1. rewrite logActivity_eq. unfold ret. discriminate.
Qed.

(** ** Registration, login and the session *)

(** X1: [registerUser] refuses a candidate that lacks a username, a
    password, an email or a role with 'Missing required fields', a
    candidate whose username a stored user holds with 'Username already
    exists', and one whose email a stored user holds with 'Email already
    registered'; in each case nothing is written. *)
Theorem registerUser_rejects (env : Env) (d : UserData) (b : Backend) :
  (truthy (d_username d) = false \/ truthy (d_password d) = false \/
   truthy (d_email d) = false \/ truthy (d_role d) = false ->
   registerUser env d b = (Throw (Error "Missing required fields"), b)) /\
  (truthy (d_username d) = true -> truthy (d_password d) = true ->
   truthy (d_email d) = true -> truthy (d_role d) = true ->
   ((exists u, In u (users b) /\ u_username (public u) = d_username d) ->
    registerUser env d b = (Throw (Error "Username already exists"), b)) /\
   ((forall u, In u (users b) -> u_username (public u) <> d_username d) ->
    (exists u, In u (users b) /\ u_email (public u) = d_email d) ->
    registerUser env d b = (Throw (Error "Email already registered"), b))).
Proof.
  split.
  - intros H. unfold registerUser.
    destruct H as [-> | [-> | [-> | ->]]]; cbn [negb orb];
      rewrite ?orb_true_r; reflexivity.
  - intros Tu Tp Te Tr. split.
    + intros Hu. unfold registerUser. rewrite Tu, Tp, Te, Tr. cbn [negb orb].
      unfold bind at 1. unfold getUserByUsername at 1. unfold gets at 1.
      destruct (index_lookup_some (fun u => u_username (public u))
                  (d_username d) (users b) Tu Hu) as [y [-> _]].
      reflexivity.
    + intros Fu He. unfold registerUser. rewrite Tu, Tp, Te, Tr.
      cbn [negb orb].
      unfold bind at 1. unfold getUserByUsername at 1. unfold gets at 1.
      rewrite (index_lookup_none (fun u => u_username (public u))
                 (d_username d) (users b) Tu Fu).
      unfold bind at 1. unfold getUserByEmail at 1. unfold gets at 1.
      destruct (index_lookup_some (fun u => u_email (public u))
                  (d_email d) (users b) Te He) as [y [-> _]].
      reflexivity.
Qed.

Lemma registerUser_rejects_witness :
  registerUser env1 (candidate [] (js "demo123") (js "bob@nerist.ac.in"))
    alice_backend
  = (Throw (Error "Missing required fields"), alice_backend) /\
  registerUser env1 alice alice_backend
  = (Throw (Error "Username already exists"), alice_backend) /\
  registerUser env1
    (candidate (js "bob") (js "demo123") (js "alice@nerist.ac.in"))
    alice_backend
  = (Throw (Error "Email already registered"), alice_backend).
Proof.
  split; [|split].
  - apply (proj1 (registerUser_rejects env1 _ alice_backend)).
    left. reflexivity.
  - apply (proj2 (registerUser_rejects env1 alice alice_backend));
      try reflexivity.
    exists alice_record. split; [left|]; reflexivity.
  - apply (proj2 (registerUser_rejects env1
                    (candidate (js "bob") (js "demo123")
                       (js "alice@nerist.ac.in")) alice_backend));
      try reflexivity.
    + intros u [<-|[]]. discriminate.
    + exists alice_record. split; [left|]; reflexivity.
Defined.

(** X3: a call of [registerUser], [updateUserProfile], [changePassword],
    [bookMeal] or [submitMealFeedback] that raises has written nothing:
    the backend is as it was before the call. *)
Theorem failed_calls_change_nothing (env : Env) (d : UserData)
    (userId oldPassword newPassword date mealType studentId comment
     : jsstring)
    (updates : Updates) (rating : float) (b b' : Backend) (e : error) :
  registerUser env d b = (Throw e, b') \/
  updateUserProfile env userId updates b = (Throw e, b') \/
  changePassword env userId oldPassword newPassword b = (Throw e, b') \/
  bookMeal env date mealType studentId b = (Throw e, b') \/
  submitMealFeedback env date mealType studentId rating comment b
    = (Throw e, b') ->
  b' = b.
Proof.
  intros [H|[H|[H|[H|H]]]].
  - exact (registerUser_throw _ _ _ _ _ H).
  - exact (updateUserProfile_throw _ _ _ _ _ _ H).
  - exact (changePassword_throw _ _ _ _ _ _ _ H).
  - exact (bookMeal_throw _ _ _ _ _ _ _ H).
  - exact (submitMealFeedback_throw _ _ _ _ _ _ _ _ _ H).
Qed.

Lemma failed_calls_change_nothing_witness :
  snd (changePassword env1 alice_id (js "guess") (js "s3cret") alice_backend)
  = alice_backend.
Proof.
  apply (failed_calls_change_nothing env1 alice alice_id (js "guess")
           (js "s3cret") [] [] [] [] no_updates 0 alice_backend _
           (Error "Current password is incorrect")).
  right. right. left. reflexivity.
Defined.

(** X4: a [login] that is refused with an [Error] leaves no trace: the
    backend is unchanged (no session, no [lastLogin], no log entry), and
    the message is 'User not found', 'Account is deactivated' or 'Invalid
    password'. *)
Theorem refused_login_leaves_no_trace (env : Env) (username pw : jsstring)
    (b b' : Backend) (message : string) :
  login env username pw b = (Throw (Error message), b') ->
  b' = b /\
  (message = "User not found"%string \/
   message = "Account is deactivated"%string \/
   message = "Invalid password"%string).
Proof.
  intros H.
  destruct (login_cases env username pw b)
    as [[e [He Hm]]|(user & _ & _ & _ & _ & Hr)].
  - rewrite He in H. injection H as -> <-. split; [reflexivity|].
    destruct Hm as [Hm|[Hm|[Hm|[Hm|Hm]]]]; try discriminate Hm;
      injection Hm as <-; auto.
  - destruct Hr as [[_ Hr]|(session & st & Hr & _)]; rewrite Hr in H;
      discriminate H.
Qed.

Lemma refused_login_leaves_no_trace_witness :
  snd (login env1 (js "alice") (js "wrong") alice_backend) = alice_backend /\
  ("Invalid password"%string = "User not found"%string \/
   "Invalid password"%string = "Account is deactivated"%string \/
   "Invalid password"%string = "Invalid password"%string).
Proof.
  apply (refused_login_leaves_no_trace env1 (js "alice") (js "wrong")
           alice_backend).
  reflexivity.
Defined.

(** X5: after a successful [login] the returned user is the current
    user ([getCurrentUser] returns it), it is active and carries the
    login instant as [lastLogin], the [users] store holds it with the
    password that was given, and the session stored in [localStorage]
    names this user, holds the stored token and expires 24 hours after
    the login. *)
Theorem login_starts_session (env : Env) (username pw : jsstring)
    (b b1 : Backend) (pu : PublicUser) :
  login env username pw b = (Ok pu, b1) ->
  getCurrentUser b1 = (Ok (Some pu), b1) /\
  u_isActive pu = true /\
  u_lastLogin pu = Some (nowISO env) /\
  (exists user : User,
      store_get user_key strcmp (users b1) (u_id pu) = Some user /\
      public user = pu /\ hashPassword pw = Some (password user)) /\
  (exists session : Session,
      nerist_session b1 = Some session /\
      nerist_token b1 = Some (s_token session) /\
      s_userId session = u_id pu /\
      s_expiresAt session = now env + 86400000).
Proof.
  intros H.
  destruct (login_cases env username pw b)
    as [[e [He _]]|(user & Hfind & Hact & Hh & Hc & Hr)].
  { rewrite He in H. discriminate H. }
  destruct Hr as [[_ Hr]|(session & st & Hr & S1 & S2 & S3 & S4)];
    rewrite Hr in H; [discriminate H|].
  injection H as <- <-. backend_simpl.
  split; [reflexivity|]. split; [exact Hact|]. split; [reflexivity|].
  split.
  - exists (stamp_login env user). split; [|split; [reflexivity|exact Hh]].
    exact (store_get_put_same user_key strcmp strcmp_eq strcmp_antisym
             (stamp_login env user) (users b)).
  - exists session. repeat split; auto.
Qed.

Lemma login_starts_session_witness :
  getCurrentUser session_backend = (Ok (Some alice_logged_in), session_backend)
  /\ u_lastLogin alice_logged_in = Some (nowISO env0).
Proof.
  destruct (login_starts_session env0 (js "alice") (js "demo123")
              alice_backend session_backend alice_logged_in eq_refl)
    as (H1 & _ & H3 & _).
  split; [exact H1 | exact H3].
Defined.

(** X6: [logout] always returns [true]; afterwards there is no current
    user, no stored session and no token, so that [getCurrentUser] and
    [restoreSession] return [null]; the users are untouched, and one log
    entry is written exactly when a user was held in memory. *)
Theorem logout_ends_session (env env' : Env) (b : Backend) :
  exists b1 : Backend,
    logout env b = (Ok true, b1) /\
    currentUser b1 = None /\ nerist_session b1 = None /\
    nerist_token b1 = None /\
    getCurrentUser b1 = (Ok None, b1) /\
    restoreSession env' b1 = (Ok None, b1) /\
    users b1 = users b /\
    activityLog b1 =
      match currentUser b with
      | Some cu =>
          snd (auto_add l_id
                 (log_entry env (u_id cu) (js "logout")
                    (js "User logged out")) (activityLog b))
      | None => activityLog b
      end.
Proof.
  unfold logout. unfold bind at 1. unfold gets at 1.
  destruct (currentUser b) as [cu|] eqn:C.
  - unfold bind at 1. rewrite logActivity_eq.
    unfold bind, modify, ret.
    eexists. split; [reflexivity|]. backend_simpl.
    repeat split; reflexivity.
  - unfold bind, modify, ret.
    eexists. split; [reflexivity|]. backend_simpl.
    repeat split; reflexivity.
Qed.

(** X7: after a successful [login] and a reload of the page (the
    in-memory user is gone, [localStorage] is kept), [restoreSession]
    brings the user back as long as the session has not expired, the
    expiry instant included, and removes the session and the token once
    it has; [getCurrentUser] does not look at the expiry and returns the
    user in both cases. *)
Theorem session_restore (env env' : Env) (username pw : jsstring)
    (b b1 : Backend) (pu : PublicUser) :
  login env username pw b = (Ok pu, b1) ->
  let reloaded := set_currentUser None b1 in
  (now env' <= now env + 86400000 ->
   exists session : Session,
     nerist_session b1 = Some session /\
     restoreSession env' reloaded = (Ok (Some session), b1)) /\
  (now env + 86400000 < now env' ->
   restoreSession env' reloaded =
     (Ok None, set_nerist_token None (set_nerist_session None reloaded))) /\
  getCurrentUser reloaded = (Ok (Some pu), b1).
Proof.
  intros H.
  destruct (login_cases env username pw b)
    as [[e [He _]]|(user & Hfind & Hact & Hh & Hc & Hr)].
  { rewrite He in H. discriminate H. }
  destruct Hr as [[_ Hr]|(session & st & Hr & S1 & S2 & S3 & S4)];
    rewrite Hr in H; [discriminate H|].
  injection H as <- <-.
  set (b1 := set_currentUser (Some _) _).
  assert (Hget : store_get user_key strcmp (users (set_currentUser None b1))
                   (s_userId session) = Some (stamp_login env user)).
  { rewrite S1.
    exact (store_get_put_same user_key strcmp strcmp_eq strcmp_antisym
             (stamp_login env user) (users b)). }
  cbn zeta. split; [|split].
  - intros Hle. exists session. split; [reflexivity|].
    unfold restoreSession. unfold bind at 1. unfold gets at 1.
    replace (nerist_session (set_currentUser None b1)) with (Some session)
      by reflexivity.
    rewrite S4. replace (now env + 24 * 60 * 60 * 1000 <? now env') with false
      by (symmetry; apply Z.ltb_ge; lia).
    unfold bind at 1. unfold getUserById at 1. unfold gets at 1.
    rewrite Hget.
    replace (u_isActive (public (stamp_login env user))) with true
      by (symmetry; exact Hact).
    unfold bind, modify, ret. reflexivity.
  - intros Hlt.
    unfold restoreSession. unfold bind at 1. unfold gets at 1.
    replace (nerist_session (set_currentUser None b1)) with (Some session)
      by reflexivity.
    rewrite S4. replace (now env + 24 * 60 * 60 * 1000 <? now env') with true
      by (symmetry; apply Z.ltb_lt; lia).
    reflexivity.
  - unfold getCurrentUser. unfold bind at 1. unfold gets at 1.
    replace (currentUser (set_currentUser None b1)) with (@None PublicUser)
      by reflexivity.
    unfold bind at 1. unfold gets at 1.
    replace (nerist_session (set_currentUser None b1)) with (Some session)
      by reflexivity.
    unfold bind at 1. unfold getUserById at 1. unfold gets at 1.
    rewrite Hget.
    replace (u_isActive (public (stamp_login env user))) with true
      by (symmetry; exact Hact).
    unfold bind, modify, ret. reflexivity.
Qed.

Lemma session_restore_witness :
  (exists session : Session,
     nerist_session session_backend = Some session /\
     restoreSession env1 (set_currentUser None session_backend)
     = (Ok (Some session), session_backend)) /\
  getCurrentUser (set_currentUser None session_backend)
  = (Ok (Some alice_logged_in), session_backend).
Proof.
  destruct (session_restore env0 env1 (js "alice") (js "demo123")
              alice_backend session_backend alice_logged_in eq_refl)
    as (H1 & _ & H3).
  split; [apply H1; vm_compute; discriminate | exact H3].
Defined.

Lemma index_le_total {R} (field : R -> jsstring) (a b : R) :
  index_le field a b = false -> index_le field b a = true.
Proof.
  unfold index_le. rewrite (strcmp_antisym (field a) (field b)).
  destruct (strcmp (field a) (field b)); cbn [CompOpp]; congruence.
Qed.

Lemma index_le_trans {R} (field : R -> jsstring) (a b c : R) :
  index_le field a b = true -> index_le field b c = true ->
  index_le field a c = true.
Proof.
  unfold index_le. intros H1 H2.
  destruct (strcmp (field a) (field b)) eqn:E1; [| |discriminate];
    destruct (strcmp (field b) (field c)) eqn:E2; try discriminate.
  - apply strcmp_eq in E1, E2. rewrite E1, E2, strcmp_refl. reflexivity.
  - apply strcmp_eq in E1. rewrite E1, E2. reflexivity.
  - apply strcmp_eq in E2. rewrite <- E2, E1. reflexivity.
  - rewrite (strcmp_trans _ _ _ E1 E2). reflexivity.
Qed.

Lemma hd_sort_least {R} (le : R -> R -> bool) (l : list R) :
  (forall a b, le a b = false -> le b a = true) ->
  (forall a b c, le a b = true -> le b c = true -> le a c = true) ->
  l <> [] ->
  exists x, hd_error (sort_by le l) = Some x /\ In x l /\
            forall y, In y l -> le x y = true.
Proof.
  intros T Tr N.
  pose proof (sort_by_sorted le T Tr l) as S.
  pose proof (sort_by_perm le l) as P.
  destruct (sort_by le l) as [|x s] eqn:E.
  - apply Permutation_nil in P. congruence.
  - exists x. split; [reflexivity|]. split.
    + apply (Permutation_in _ P). left; reflexivity.
    + intros y Hy. apply (Permutation_in _ (Permutation_sym P)) in Hy.
      inversion S as [|? ? S' F]; subst. rewrite Forall_forall in F.
      destruct Hy as [<-|Hy]; [|auto].
      destruct (le x x) eqn:X; [reflexivity|]. rewrite (T _ _ X) in X.
      discriminate.
Qed.

(** X8: with an empty username [getUserByUsername] does not answer
    'not found' on a store that holds users: [getAllObjects] drops the
    empty query and the lookup yields the stored user whose username is
    least in code-unit order; [login('', password)] then succeeds when
    the password is that user's. *)
Theorem login_with_empty_username (env : Env) (pw : jsstring) (b : Backend) :
  users b <> [] ->
  exists user : User,
    getUserByUsername [] b = (Ok (Some user), b) /\
    In user (users b) /\
    (forall v, In v (users b) ->
       strcmp (u_username (public user)) (u_username (public v)) <> Gt) /\
    (users_ok b -> u_isActive (public user) = true ->
     latin1 (user_key user) = true ->
     hashPassword pw = Some (password user) ->
     exists b1 : Backend,
       login env [] pw b = (Ok (public (stamp_login env user)), b1)).
Proof.
  intros N.
  destruct (hd_sort_least (index_le (fun u => u_username (public u)))
              (users b) (index_le_total _) (index_le_trans _) N)
    as (user & Hhd & Hin & Hmin).
  exists user. split; [|split; [exact Hin|split]].
  - unfold getUserByUsername, gets, getAllObjects_index. cbn [truthy].
    rewrite Hhd. reflexivity.
  - intros v Hv E. specialize (Hmin v Hv). unfold index_le in Hmin.
    rewrite E in Hmin. discriminate.
  - intros Ok_ Hact Hid Hh.
    destruct (login_ok env b user [] pw) as (b1 & L & _); auto.
    + apply (users_ok_no_conflict b user); auto.
    + exists b1. exact L.
Qed.

Lemma login_with_empty_username_witness :
  exists b1 : Backend,
    login env1 [] (js "demo123") alice_backend
      = (Ok (public (stamp_login env1 alice_record)), b1).
Proof.
  assert (N : users alice_backend <> []) by discriminate.
  destruct (login_with_empty_username env1 (js "demo123") alice_backend N)
    as (user & Hget & Hin & _ & H).
  destruct Hin as [<-|[]].
  apply H; try reflexivity. exact alice_backend_ok.
Defined.

(** X9: [updateUserProfile] stores a [password] given among the updates
    as it is, without asking for the old password and without hashing
    it; when the value is the hash of [q], a [login] with the user's
    username and [q] succeeds afterwards. *)
Theorem updateUserProfile_replaces_password (env env' : Env)
    (userId h q : jsstring) (updates : Updates) (b b1 : Backend)
    (pu : PublicUser) :
  users_ok b ->
  upd_password updates = Some h ->
  updateUserProfile env userId updates b = (Ok pu, b1) ->
  (exists user' : User,
      store_get user_key strcmp (users b1) (u_id pu) = Some user' /\
      public user' = pu /\ password user' = h) /\
  (u_isActive pu = true -> latin1 (u_id pu) = true ->
   hashPassword q = Some h ->
   exists b2 : Backend,
     login env' (u_username pu) q b1
       = (Ok (set_lastLogin (Some (nowISO env')) pu), b2)).
Proof.
  intros Ok_ Hp H.
  pose proof (updateUserProfile_users_ok env userId updates b Ok_) as Ok1.
  rewrite H in Ok1. cbn [snd] in Ok1.
  destruct (updateUserProfile_inv _ _ _ _ _ _ H)
    as (user & Hget & Hc & -> & ->).
  set (user' := merge_updates user updates) in *.
  assert (Hin : In user' (users (set_activityLog
             (snd (auto_add l_id
                     (log_entry env userId (js "update_profile")
                        (js "Profile updated")) (activityLog b)))
             (set_users (store_put user_key strcmp user' (users b)) b)))).
  { backend_simpl. apply In_store_put_new. }
  assert (Hpw : password user' = h).
  { unfold user'. cbn [merge_updates password]. rewrite Hp. reflexivity. }
  split.
  - exists user'. split; [|split; [reflexivity | exact Hpw]].
    exact (store_get_put_same user_key strcmp strcmp_eq strcmp_antisym
             user' (users b)).
  - intros Hact Hid Hh.
    destruct (login_succeeds env' _ user' q Ok1 Hin Hact Hid) as (b2 & L & _).
    + rewrite Hpw. exact Hh.
    + exists b2. exact L.
Qed.

Lemma updateUserProfile_replaces_password_witness :
  exists b2 : Backend,
    login env1 (js "alice") (js "hacked")
      (snd (updateUserProfile env1 alice_id
              (set_password (js "aGFja2VkbmVyaXN0X3NhbHQ=")) alice_backend))
    = (Ok (set_lastLogin (Some (nowISO env1)) (public alice_record)), b2).
Proof.
  destruct (updateUserProfile_replaces_password env1 env1 alice_id
              (js "aGFja2VkbmVyaXN0X3NhbHQ=") (js "hacked")
              (set_password (js "aGFja2VkbmVyaXN0X3NhbHQ=")) alice_backend
              (snd (updateUserProfile env1 alice_id
                      (set_password (js "aGFja2VkbmVyaXN0X3NhbHQ="))
                      alice_backend))
              (public alice_record) alice_backend_ok eq_refl eq_refl)
    as [_ H].
  apply H; reflexivity.
Defined.

(** X10: once [updateUserProfile] has stored [isActive: false] for a
    user, a [login] with that user's username is refused with 'Account
    is deactivated' whatever the password; after a reload a stored
    session of that user no longer authenticates ([getCurrentUser]
    returns [null]) and [restoreSession] removes it. *)
Theorem deactivated_user_is_locked_out (env env' : Env)
    (userId pw : jsstring) (updates : Updates) (b b1 : Backend)
    (pu : PublicUser) :
  users_ok b ->
  upd_isActive updates = Some false ->
  updateUserProfile env userId updates b = (Ok pu, b1) ->
  login env' (u_username pu) pw b1
    = (Throw (Error "Account is deactivated"), b1) /\
  (forall session : Session,
      nerist_session b1 = Some session -> s_userId session = u_id pu ->
      getCurrentUser (set_currentUser None b1)
        = (Ok None, set_currentUser None b1) /\
      (now env' <= s_expiresAt session ->
       restoreSession env' (set_currentUser None b1)
         = (Ok None,
            set_nerist_token None
              (set_nerist_session None (set_currentUser None b1))))).
Proof.
  intros Ok_ Hp H.
  pose proof (updateUserProfile_users_ok env userId updates b Ok_) as Ok1.
  rewrite H in Ok1. cbn [snd] in Ok1.
  destruct (updateUserProfile_inv _ _ _ _ _ _ H)
    as (user & Hget & Hc & -> & ->).
  set (user' := merge_updates user updates) in *.
  set (b1 := set_activityLog _ _) in *.
  assert (Hin : In user' (users b1)).
  { unfold b1. backend_simpl. apply In_store_put_new. }
  assert (Hact : u_isActive (public user') = false).
  { unfold user'. cbn [merge_updates public u_isActive]. rewrite Hp.
    reflexivity. }
  destruct (users_ok_lookup b1 user' Ok1 Hin) as [Hfind Hget'].
  split.
  - unfold login. unfold bind at 1. unfold getUserByUsername at 1.
    unfold gets at 1. rewrite Hfind, Hact. reflexivity.
  - intros session Hs Hid.
    assert (Hget2 : store_get user_key strcmp
                      (users (set_currentUser None b1)) (s_userId session)
                    = Some user').
    { rewrite Hid. exact Hget'. }
    split.
    + unfold getCurrentUser. unfold bind at 1. unfold gets at 1.
      replace (currentUser (set_currentUser None b1)) with (@None PublicUser)
        by reflexivity.
      unfold bind at 1. unfold gets at 1.
      replace (nerist_session (set_currentUser None b1)) with (Some session)
        by (rewrite <- Hs; reflexivity).
      unfold bind at 1. unfold getUserById at 1. unfold gets at 1.
      rewrite Hget2, Hact. reflexivity.
    + intros Hle. unfold restoreSession. unfold bind at 1. unfold gets at 1.
      replace (nerist_session (set_currentUser None b1)) with (Some session)
        by (rewrite <- Hs; reflexivity).
      replace (s_expiresAt session <? now env') with false
        by (symmetry; apply Z.ltb_ge; lia).
      unfold bind at 1. unfold getUserById at 1. unfold gets at 1.
      rewrite Hget2, Hact. reflexivity.
Qed.

Lemma deactivated_user_is_locked_out_witness :
  login env1 (js "alice") (js "demo123") deactivated_backend
  = (Throw (Error "Account is deactivated"), deactivated_backend).
Proof.
  apply (deactivated_user_is_locked_out env1 env1 alice_id (js "demo123")
           deactivate alice_backend deactivated_backend
           (public (merge_updates alice_record deactivate))
           alice_backend_ok eq_refl eq_refl).
Defined.

(** ** Calls that need a signed-in user *)

(** X11: when nobody is signed in ([getCurrentUser] returns [null]:
    no user in memory and no stored session of an active user),
    [markAttendance], [deleteAttendance], [saveMessMenu],
    [createCareerOpportunity], [applyForOpportunity],
    [createCampusAlert] and [triggerSOS] all raise 'Not authenticated'
    and leave the backend as it was. *)
Theorem unauthenticated_calls_are_refused (env : Env) (b : Backend) :
  fst (getCurrentUser b) = Ok None ->
  (forall localTime data,
     markAttendance env localTime data b
       = (Throw (Error "Not authenticated"), b)) /\
  (forall attendanceId,
     deleteAttendance env attendanceId b
       = (Throw (Error "Not authenticated"), b)) /\
  (forall date mealData,
     saveMessMenu env date mealData b
       = (Throw (Error "Not authenticated"), b)) /\
  (forall data,
     createCareerOpportunity env data b
       = (Throw (Error "Not authenticated"), b)) /\
  (forall opportunityId studentData,
     applyForOpportunity env opportunityId studentData b
       = (Throw (Error "Not authenticated"), b)) /\
  (forall alertData,
     createCampusAlert env alertData b
       = (Throw (Error "Not authenticated"), b)) /\
  (forall localeCompare contacts,
     triggerSOS localeCompare env contacts b
       = (Throw (Error "Not authenticated"), b)).
Proof.
  intros H. apply getCurrentUser_none in H.
  repeat split; intros;
    [ unfold markAttendance | unfold deleteAttendance | unfold saveMessMenu
    | unfold createCareerOpportunity | unfold applyForOpportunity
    | unfold createCampusAlert | unfold triggerSOS ];
    unfold bind at 1; rewrite H; reflexivity.
Qed.

Lemma unauthenticated_calls_are_refused_witness :
  saveMessMenu env1 (js "2023-11-15") lunch_data alice_backend
    = (Throw (Error "Not authenticated"), alice_backend) /\
  createCampusAlert env1 maintenance_data alice_backend
    = (Throw (Error "Not authenticated"), alice_backend).
Proof.
  destruct (unauthenticated_calls_are_refused env1 alice_backend eq_refl)
    as (_ & _ & H3 & _ & _ & H6 & _).
  split; [apply H3 | apply H6].
Defined.

(** ** Settings and the activity log *)

(** X12: [setSystemSetting] never fails, and [getSystemSetting] then
    returns the value that was set for that key and what it returned
    before for every other key; the order of the keys of the store is
    kept. *)
Theorem setting_round_trip (env : Env) (key value other : jsstring)
    (b : Backend) :
  exists (setting : Setting) (b1 : Backend),
    setSystemSetting env key value b = (Ok setting, b1) /\
    set_value setting = value /\
    getSystemSetting key b1 = (Ok (Some value), b1) /\
    (other <> key ->
     getSystemSetting other b1 = (fst (getSystemSetting other b), b1)) /\
    (store_wf set_key strcmp (systemSettings b) ->
     store_wf set_key strcmp (systemSettings b1)).
Proof.
  unfold setSystemSetting, bind, putObject_systemSettings, modify, ret.
  eexists. eexists. split; [reflexivity|]. split; [reflexivity|].
  unfold getSystemSetting, bind, gets, ret. backend_simpl.
  split; [|split].
  - match goal with |- context [store_put _ _ ?s _] =>
      rewrite (store_get_put_same set_key strcmp strcmp_eq strcmp_antisym s)
    end. reflexivity.
  - intros N.
    rewrite (store_get_put_other set_key strcmp strcmp_eq) by exact N.
    reflexivity.
  - apply (store_put_wf set_key strcmp strcmp_eq strcmp_antisym strcmp_trans).
Qed.

Section PutLast.
Context {R : Type} (key : R -> Z).

(** A record whose key is above every stored key goes to the end. *)
Lemma store_put_last (r : R) (s : list R) :
  Forall (fun x => key x < key r) s ->
  store_put key Z.compare r s = s ++ [r].
Proof.
  induction s as [|x s IH]; intros F; cbn [store_put app]; [reflexivity|].
  inversion F as [|? ? Hx F']; subst.
  replace (key r ?= key x) with Gt
    by (symmetry; apply Z.compare_gt_iff; lia).
  rewrite IH by exact F'. reflexivity.
Qed.

Lemma store_wf_snoc (r : R) (s : list R) :
  store_wf key Z.compare s -> Forall (fun x => key x < key r) s ->
  store_wf key Z.compare (s ++ [r]).
Proof.
  intros W F. rewrite <- (store_put_last r s F).
  apply (store_put_wf key Z.compare Z_compare_eq Z_compare_antisym
           Z_compare_trans). exact W.
Qed.

Lemma auto_add_wf (mk : Z -> R) (st : AutoStore R) :
  (forall k, key (mk k) = k) -> auto_wf key st ->
  rows (snd (auto_add key mk st)) = rows st ++ [mk (generator st)] /\
  generator (snd (auto_add key mk st)) = generator st + 1 /\
  auto_wf key (snd (auto_add key mk st)).
Proof.
  intros K [W G]. unfold auto_add. cbn [snd rows generator].
  assert (F : Forall (fun x => key x < key (mk (generator st))) (rows st)).
  { rewrite K. exact G. }
  rewrite (store_put_last _ _ F). split; [reflexivity|].
  split; [reflexivity|]. split; cbn [rows generator].
  - apply store_wf_snoc; assumption.
  - apply Forall_app. split.
    + eapply Forall_impl; [|exact G]. cbn beta. intros; lia.
    + constructor; [rewrite K; lia | constructor].
Qed.

Lemma store_wf_NoDup (s : list R) :
  store_wf key Z.compare s -> NoDup (map key s).
Proof.
  induction s as [|x s IH]; intros W; cbn [map]; [constructor|].
  inversion W as [|? ? W' F]; subst. constructor; [|auto].
  intros Hin. apply in_map_iff in Hin. destruct Hin as [y [E Hy]].
  rewrite Forall_forall in F. specialize (F y Hy). unfold key_lt in F.
  rewrite E, Z.compare_refl in F. discriminate.
Qed.

(** Putting records with distinct keys, all below the generator, into a
    store that holds none of these keys. *)
Lemma put_all (l : list R) (st : AutoStore R) :
  NoDup (map key l) ->
  Forall (fun e => key e < generator st) l ->
  (forall e x, In e l -> In x (rows st) -> key x <> key e) ->
  store_wf key Z.compare (rows st) ->
  let st' := fold_left (fun st e => auto_put key e st) l st in
  generator st' = generator st /\
  Permutation (rows st') (rows st ++ l) /\
  store_wf key Z.compare (rows st').
Proof.
  revert st. induction l as [|e l IH]; intros st N G D W; cbn [fold_left].
  - cbn zeta. rewrite app_nil_r. auto.
  - cbn [map] in N. inversion N as [|? ? Ne N']; subst.
    inversion G as [|? ? Ge G']; subst.
    set (st1 := auto_put key e st).
    assert (G1 : generator st1 = generator st).
    { unfold st1, auto_put. cbn [generator]. lia. }
    assert (P1 : Permutation (rows st1) (e :: rows st)).
    { unfold st1, auto_put. cbn [rows].
      apply (store_put_fresh key Z.compare Z_compare_eq).
      intros x Hx. apply (D e x); [left; reflexivity | exact Hx]. }
    destruct (IH st1) as (H1 & H2 & H3).
    + exact N'.
    + rewrite G1. exact G'.
    + intros a x Ha Hx E. apply (Permutation_in _ P1) in Hx.
      destruct Hx as [<-|Hx].
      * apply Ne. rewrite E. apply in_map. exact Ha.
      * apply (D a x); [right; exact Ha | exact Hx | exact E].
    + unfold st1, auto_put. cbn [rows].
      apply (store_put_wf key Z.compare Z_compare_eq Z_compare_antisym
               Z_compare_trans). exact W.
    + cbn zeta in *. fold st1. split; [rewrite H1; exact G1|].
      split; [|exact H3].
      rewrite H2, P1. cbn [app]. apply Permutation_middle.
Qed.
End PutLast.

Lemma StronglySorted_app {A} (P : A -> A -> Prop) (l1 l2 : list A) :
  StronglySorted P (l1 ++ l2) ->
  StronglySorted P l1 /\ StronglySorted P l2 /\
  forall x y, In x l1 -> In y l2 -> P x y.
Proof.
  induction l1 as [|a l1 IH]; cbn [app]; intros S.
  - split; [constructor|]. split; [exact S|]. intros x y [].
  - inversion S as [|? ? S' F]; subst.
    destruct (IH S') as (S1 & S2 & H).
    rewrite Forall_forall in F.
    split; [|split; [exact S2|]].
    + constructor; [exact S1|]. apply Forall_forall. intros x Hx.
      apply F. apply in_or_app. left. exact Hx.
    + intros x y [<-|Hx] Hy; [|auto].
      apply F. apply in_or_app. right. exact Hy.
Qed.

Lemma newer_first_total (a b : LogEntry) :
  newer_first a b = false -> newer_first b a = true.
Proof. unfold newer_first. rewrite Z.leb_gt, Z.leb_le. lia. Qed.

Lemma newer_first_trans (a b c : LogEntry) :
  newer_first a b = true -> newer_first b c = true -> newer_first a c = true.
Proof. unfold newer_first. rewrite !Z.leb_le. lia. Qed.

Lemma newest_slice (limit : Z) (l : list LogEntry) :
  0 <= limit -> newest_of limit l (slice_to limit (sort_by newer_first l)).
Proof.
  intros Hl. unfold slice_to.
  replace (limit <? 0) with false by (symmetry; apply Z.ltb_ge; exact Hl).
  set (s := sort_by newer_first l).
  pose proof (sort_by_perm newer_first l) as P. fold s in P.
  pose proof (sort_by_sorted newer_first newer_first_total newer_first_trans l)
    as S. fold s in S.
  rewrite <- (firstn_skipn (Z.to_nat limit) s) in S.
  destruct (StronglySorted_app _ _ _ S) as (S1 & _ & H).
  split; [|split].
  - rewrite length_firstn, (Permutation_length P). lia.
  - apply (StronglySorted_impl (fun a b => newer_first a b = true));
      [|exact S1].
    intros a b E. unfold newer_first in E. apply Z.leb_le in E. lia.
  - exists (skipn (Z.to_nat limit) s). split.
    + rewrite firstn_skipn. exact P.
    + intros k d Hk Hd. specialize (H k d Hk Hd). unfold newer_first in H.
      apply Z.leb_le in H. lia.
Qed.

Lemma sort_by_newest_last (le : LogEntry -> LogEntry -> bool)
    (l : list LogEntry) (x : LogEntry) :
  (forall y, In y l -> le y x = false) ->
  sort_by le (l ++ [x]) = x :: sort_by le l.
Proof.
  induction l as [|a l IH]; intros H; cbn [app sort_by fold_right].
  - reflexivity.
  - fold (sort_by le (l ++ [x])). fold (sort_by le l).
    rewrite IH by (intros y Hy; apply H; right; exact Hy).
    cbn [insert_sorted]. rewrite (H a (or_introl eq_refl)). reflexivity.
Qed.

(** X13: on an activity log whose keys are in order and below the key
    generator, [logActivity] never fails, touches nothing but the log,
    and appends one entry under the next key; when the entry is newer
    than every earlier entry of that user, [getUserActivity] lists it
    first. *)
Theorem logActivity_appends (env : Env) (userId action details : jsstring)
    (limit : Z) (b : Backend) :
  auto_wf l_id (activityLog b) ->
  let entry :=
    log_entry env userId action details (generator (activityLog b)) in
  exists b1 : Backend,
    logActivity env userId action details b = (Ok tt, b1) /\
    b1 = set_activityLog (activityLog b1) b /\
    rows (activityLog b1) = rows (activityLog b) ++ [entry] /\
    generator (activityLog b1) = generator (activityLog b) + 1 /\
    auto_wf l_id (activityLog b1) /\
    (userId <> [] -> 0 < limit ->
     (forall e, In e (rows (activityLog b)) -> l_userId e = userId ->
                l_timestamp e < now env) ->
     exists r, getUserActivity userId limit b1 = (Ok (entry :: r), b1)).
Proof.
  intros W. cbn zeta.
  destruct (auto_add_wf l_id (log_entry env userId action details)
              (activityLog b) (fun k => eq_refl) W) as (Hrows & Hgen & W1).
  rewrite logActivity_eq. eexists. split; [reflexivity|].
  backend_simpl. split; [reflexivity|].
  split; [exact Hrows|]. split; [exact Hgen|]. split; [exact W1|].
  intros N Hl Hold.
  unfold getUserActivity, bind, gets, ret. backend_simpl.
  rewrite Hrows. unfold getAllObjects_index.
  destruct userId as [|c u]; [congruence|]. cbn [truthy].
  rewrite filter_app. cbn [filter log_entry l_userId].
  rewrite streq_refl.
  rewrite sort_by_newest_last.
  - unfold slice_to.
    replace (limit <? 0) with false by (symmetry; apply Z.ltb_ge; lia).
    destruct (Z.to_nat limit) as [|n] eqn:E; [exfalso; lia|].
    cbn [firstn]. eexists. reflexivity.
  - intros y Hy. apply filter_In in Hy. destruct Hy as [Hy S].
    apply streq_spec in S. specialize (Hold y Hy S).
    apply Z.leb_gt. cbn [log_entry l_timestamp]. lia.
Qed.

Lemma logActivity_appends_witness :
  exists b1 : Backend,
    logActivity env1 alice_id (js "book_meal") (js "Booked lunch")
      alice_backend = (Ok tt, b1) /\
    rows (activityLog b1) =
      rows (activityLog alice_backend)
      ++ [log_entry env1 alice_id (js "book_meal") (js "Booked lunch") 2].
Proof.
  destruct (logActivity_appends env1 alice_id (js "book_meal")
              (js "Booked lunch") 10 alice_backend)
    as (b1 & H1 & _ & H3 & _).
  - split; [unfold store_wf|]; repeat constructor.
  - exists b1. split; [exact H1 | exact H3].
Defined.

(** X14: for a limit that is not negative, [getRecentActivity] returns
    the [limit] newest entries of the log (all of them when there are
    fewer), newest first, and [getUserActivity] does the same among the
    entries of the given user; neither changes the backend. *)
Theorem activity_listings_spec (userId : jsstring) (limit : Z) (b : Backend) :
  0 <= limit ->
  (exists r : list LogEntry,
      getRecentActivity limit b = (Ok r, b) /\
      newest_of limit (rows (activityLog b)) r) /\
  (userId <> [] ->
   exists r : list LogEntry,
     getUserActivity userId limit b = (Ok r, b) /\
     newest_of limit
       (filter (fun e => streq (l_userId e) userId) (rows (activityLog b))) r /\
     forall e, In e r -> In e (rows (activityLog b)) /\ l_userId e = userId).
Proof.
  intros Hl. split.
  - eexists. split; [reflexivity|]. apply newest_slice. exact Hl.
  - intros N. eexists. split; [reflexivity|].
    unfold getAllObjects_index.
    destruct userId as [|c u]; [congruence|]. cbn [truthy].
    pose proof (newest_slice limit
      (filter (fun e => streq (l_userId e) (c :: u)) (rows (activityLog b)))
      Hl) as H.
    split; [exact H|].
    intros e He. destruct H as (_ & _ & rest & P & _).
    assert (X : In e (filter (fun e => streq (l_userId e) (c :: u))
                        (rows (activityLog b)))).
    { apply (Permutation_in _ P). apply in_or_app. left. exact He. }
    apply filter_In in X. destruct X as [H1 H2]. apply streq_spec in H2.
    auto.
Qed.

Lemma activity_listings_spec_witness :
  (exists r : list LogEntry,
      getRecentActivity 2 busy_backend = (Ok r, busy_backend) /\
      newest_of 2 (rows (activityLog busy_backend)) r /\
      map l_id r = [2; 3]) /\
  (exists r : list LogEntry,
      getUserActivity alice_id 2 busy_backend = (Ok r, busy_backend) /\
      newest_of 2
        (filter (fun e => streq (l_userId e) alice_id)
           (rows (activityLog busy_backend))) r /\
      map l_id r = [3; 5] /\
      forall e, In e r -> l_userId e = alice_id).
Proof.
  destruct (activity_listings_spec alice_id 2 busy_backend) as [H1 H2];
    [lia|].
  split.
  - destruct H1 as (r & R & N).
    assert (E : getRecentActivity 2 busy_backend
                = (Ok [sample_entry 2 bob_id 600; sample_entry 3 alice_id 500],
                   busy_backend)) by reflexivity.
    exists r. split; [exact R|]. split; [exact N|].
    rewrite E in R. injection R as <-. reflexivity.
  - destruct H2 as (r & R & N & U); [discriminate|].
    assert (E : getUserActivity alice_id 2 busy_backend
                = (Ok [sample_entry 3 alice_id 500;
                       sample_entry 5 alice_id 400],
                   busy_backend)) by reflexivity.
    exists r. split; [exact R|]. split; [exact N|].
    split; [rewrite E in R; injection R as <-; reflexivity|].
    intros e He. apply (U e He).
Defined.

Lemma sweep_runs (env : Env) (alerts : list Alert) (b : Backend) :
  exists st : AutoStore Alert,
    for_each alerts (fun alert =>
      if is_past (al_expiry alert) (now env) && al_isActive alert
      then putObject_campusAlerts (set_isActive false alert)
      else ret tt) b = (Ok tt, set_campusAlerts st b).
Proof.
  revert b. induction alerts as [|a l IH]; intros b; cbn [for_each].
  - exists (campusAlerts b). unfold ret. destruct b; reflexivity.
  - unfold bind.
    destruct (is_past (al_expiry a) (now env) && al_isActive a).
    + unfold putObject_campusAlerts at 1, modify.
      destruct (IH (set_campusAlerts
                      (auto_put al_id (set_isActive false a)
                         (campusAlerts b)) b)) as [st ->].
      exists st. reflexivity.
    + unfold ret at 1. destruct (IH b) as [st ->]. exists st. reflexivity.
Qed.

Lemma for_each_put_log (l : list LogEntry) (b : Backend) :
  for_each l putObject_activityLog b =
  (Ok tt,
   set_activityLog
     (fold_left (fun st e => auto_put l_id e st) l (activityLog b)) b).
Proof.
  revert b. induction l as [|e l IH]; intros b; cbn [for_each fold_left].
  - unfold ret. destruct b; reflexivity.
  - unfold bind, putObject_activityLog at 1, modify.
    rewrite IH. reflexivity.
Qed.

Lemma NoDup_firstn {A} (n : nat) (l : list A) : NoDup l -> NoDup (firstn n l).
Proof.
  revert n. induction l as [|x l IH]; intros [|n] N; cbn [firstn];
    try constructor.
  - inversion N as [|? ? Hx N']; subst. intros H. apply Hx.
    rewrite <- (firstn_skipn n l). apply in_or_app. left. exact H.
  - inversion N; subst. auto.
Qed.

Lemma In_firstn {A} (n : nat) (l : list A) (x : A) :
  In x (firstn n l) -> In x l.
Proof.
  intros H. rewrite <- (firstn_skipn n l). apply in_or_app. left. exact H.
Qed.

(** X15: on an activity log whose keys are in order and below the key
    generator, [performBackgroundSync] succeeds and records the instant
    of the run under 'last_sync'; a log of at most 1000 entries is left
    as it is, a longer one is cut down to exactly 1000 entries of the
    old log, none of them older than an entry that was dropped; the key
    generator of the log is not reset. *)
Theorem sync_trims_activity_log (env : Env) (b : Backend) :
  auto_wf l_id (activityLog b) ->
  exists b1 : Backend,
    performBackgroundSync env b = (Ok tt, b1) /\
    getSystemSetting (js "last_sync") b1 = (Ok (Some (nowISO env)), b1) /\
    generator (activityLog b1) = generator (activityLog b) /\
    ((length (rows (activityLog b)) <= 1000)%nat ->
     activityLog b1 = activityLog b) /\
    ((1000 < length (rows (activityLog b)))%nat ->
     length (rows (activityLog b1)) = 1000%nat /\
     store_wf l_id Z.compare (rows (activityLog b1)) /\
     (forall e, In e (rows (activityLog b1)) ->
                In e (rows (activityLog b))) /\
     (forall kept dropped,
        In kept (rows (activityLog b1)) ->
        In dropped (rows (activityLog b)) ->
        ~ In dropped (rows (activityLog b1)) ->
        l_timestamp dropped <= l_timestamp kept)).
Proof.
  intros [W G]. unfold performBackgroundSync.
  unfold bind at 1. unfold gets at 1.
  unfold bind at 1.
  destruct (sweep_runs env (rows (campusAlerts b)) b) as [st ->].
  unfold bind at 1. unfold gets at 1. backend_simpl.
  unfold bind at 1.
  fold newer_first.
  set (s := sort_by newer_first (rows (activityLog b))).
  pose proof (sort_by_perm newer_first (rows (activityLog b))) as P.
  fold s in P.
  destruct (1000 <? length (rows (activityLog b)))%nat eqn:L.
  - apply Nat.ltb_lt in L.
    unfold bind at 1. unfold modify at 1.
    rewrite for_each_put_log. backend_simpl.
    set (st0 := {| rows := []; generator := generator (activityLog b) |}).
    destruct (put_all l_id (firstn 1000 s) st0) as (H1 & H2 & H3).
    + rewrite <- firstn_map. apply NoDup_firstn.
      apply (Permutation_NoDup (Permutation_map l_id (Permutation_sym P))).
      apply store_wf_NoDup. exact W.
    + apply Forall_forall. intros e He. apply In_firstn in He.
      apply (Permutation_in _ P) in He.
      rewrite Forall_forall in G. exact (G e He).
    + intros e x _ [].
    + constructor.
    + cbn zeta in H1, H2, H3. cbn [rows generator st0 app] in H1, H2.
      unfold bind at 1. unfold setSystemSetting.
      unfold bind at 1. unfold putObject_systemSettings, modify. unfold ret.
      eexists. split; [reflexivity|].
      unfold getSystemSetting, bind, gets, ret. backend_simpl.
      split.
      { match goal with |- context [store_put _ _ ?r ?s] =>
          pose proof (store_get_put_same set_key strcmp strcmp_eq
                        strcmp_antisym r s) as E end.
        cbn [set_key] in E. rewrite E. reflexivity. }
      split; [exact H1|]. split; [intros; lia|]. intros _.
      assert (Hlen : length (firstn 1000 s) = 1000%nat).
      { rewrite length_firstn, (Permutation_length P). lia. }
      split; [rewrite (Permutation_length H2); exact Hlen|].
      split; [exact H3|]. split.
      * intros e He. apply (Permutation_in _ H2) in He.
        apply In_firstn in He. apply (Permutation_in _ P). exact He.
      * intros kept dropped Hk Hd Hn.
        apply (Permutation_in _ H2) in Hk.
        assert (Hd' : In dropped (skipn 1000 s)).
        { apply (Permutation_in _ (Permutation_sym P)) in Hd.
          rewrite <- (firstn_skipn 1000 s) in Hd.
          apply in_app_or in Hd. destruct Hd as [Hd|Hd]; [|exact Hd].
          exfalso. apply Hn.
          apply (Permutation_in _ (Permutation_sym H2)). exact Hd. }
        pose proof (sort_by_sorted newer_first newer_first_total
                      newer_first_trans (rows (activityLog b))) as S.
        fold s in S. rewrite <- (firstn_skipn 1000 s) in S.
        destruct (StronglySorted_app _ _ _ S) as (_ & _ & H).
        specialize (H kept dropped Hk Hd'). unfold newer_first in H.
        apply Z.leb_le in H. lia.
  - apply Nat.ltb_ge in L. unfold ret at 1.
    unfold bind at 1. unfold setSystemSetting.
    unfold bind at 1. unfold putObject_systemSettings, modify. unfold ret.
    eexists. split; [reflexivity|].
    unfold getSystemSetting, bind, gets, ret. backend_simpl.
    split.
    { match goal with |- context [store_put _ _ ?r ?s] =>
        pose proof (store_get_put_same set_key strcmp strcmp_eq
                      strcmp_antisym r s) as E end.
      cbn [set_key] in E. rewrite E. reflexivity. }
    split; [reflexivity|]. split; [reflexivity|]. intros; lia.
Qed.

Lemma long_log_wf : auto_wf l_id (activityLog long_backend).
Proof.
  assert (W : forall n a,
             store_wf l_id Z.compare
               (map (fun k => sample_entry (Z.of_nat k) alice_id (Z.of_nat k))
                  (seq a n))).
  { induction n as [|n IH]; intros a; cbn [seq map]; [constructor|].
    constructor; [apply IH|].
    apply Forall_forall. intros e He. apply in_map_iff in He.
    destruct He as [k [<- Hk]]. apply in_seq in Hk.
    unfold key_lt. cbn [sample_entry l_id]. apply Z.compare_lt_iff. lia. }
  split; [apply W|].
  apply Forall_forall. intros e He.
  change (In e long_log) in He. unfold long_log in He.
  apply in_map_iff in He. destruct He as [k [<- Hk]]. apply in_seq in Hk.
  cbn [sample_entry l_id long_backend activityLog set_activityLog generator].
  lia.
Qed.

Lemma sync_trims_activity_log_witness :
  exists b1 : Backend,
    performBackgroundSync env1 long_backend = (Ok tt, b1) /\
    getSystemSetting (js "last_sync") b1 = (Ok (Some (nowISO env1)), b1) /\
    length (rows (activityLog long_backend)) = 1001%nat /\
    length (rows (activityLog b1)) = 1000%nat /\
    generator (activityLog b1) = 1002 /\
    store_wf l_id Z.compare (rows (activityLog b1)) /\
    (forall e, In e (rows (activityLog b1)) -> In e long_log) /\
    map l_id (rows (activityLog b1)) = map Z.of_nat (seq 2 1000).
Proof.
  destruct (sync_trims_activity_log env1 long_backend long_log_wf)
    as (b1 & H1 & H2 & H3 & _ & H5).
  assert (L : length (rows (activityLog long_backend)) = 1001%nat).
  { change (length long_log = 1001%nat). unfold long_log.
    rewrite length_map, length_seq. reflexivity. }
  destruct H5 as (H6 & H7 & H8 & _); [rewrite L; lia|].
  exists b1. split; [exact H1|]. split; [exact H2|]. split; [exact L|].
  split; [exact H6|]. split; [exact H3|]. split; [exact H7|].
  split; [exact H8|].
  assert (E : map l_id (rows (activityLog
                (snd (performBackgroundSync env1 long_backend))))
              = map Z.of_nat (seq 2 1000)) by (vm_compute; reflexivity).
  rewrite H1 in E. exact E.
Defined.

(** ** Mess menus and bookings *)







Lemma bookMeal_inv (env : Env) (date mealType studentId : jsstring)
    (b b1 : Backend) (menu' : Menu) :
  bookMeal env date mealType studentId b = (Ok menu', b1) ->
  exists menu : Menu,
    store_get m_id strcmp (messMenu b) (menuId date mealType) = Some menu /\
    m_active menu = true /\
    menu' = set_bookings (m_bookings menu ++ [booking_entry env studentId])
              (Some (Z.of_nat (length (m_bookings menu
                                       ++ [booking_entry env studentId]))))
              (nowISO env) menu /\
    messMenu b1 = store_put m_id strcmp menu' (messMenu b) /\
    mealBookings b1 =
      store_put mb_id strcmp (meal_booking env date mealType studentId)
        (mealBookings b).
Proof.
  unfold bookMeal.
  unfold bind at 1. unfold getObject_messMenu at 1. unfold gets at 1.
  destruct (store_get m_id strcmp (messMenu b) (menuId date mealType))
    as [menu|] eqn:G; [|discriminate].
  destruct (m_active menu) eqn:A; cbn [negb]; [|discriminate].
  destruct (existsb _ (m_bookings menu)); [discriminate|].
  fold (booking_entry env studentId).
  fold (meal_booking env date mealType studentId).
  unfold bind at 1. unfold putObject_messMenu at 1.
  destruct (menus_conflict _ (messMenu b)); [discriminate|].
  unfold bind at 1. unfold putObject_mealBookings at 1. unfold modify at 1.
  unfold bind at 1. rewrite logActivity_eq. unfold ret.
  intros H. injection H as <- <-.
  exists menu. backend_simpl. repeat split; auto.
Qed.

(** X17: a [bookMeal] that succeeded has filed one record under the id
    date_mealType_studentId in [mealBookings], which [getMealBookings]
    for that student and date returns and returns once; the records
    under other ids are still there, and [getMessMenu] for the date and
    meal returns the menu that [bookMeal] returned. *)
Theorem bookMeal_records_booking (env : Env)
    (date mealType studentId : jsstring) (b b1 : Backend) (menu : Menu) :
  store_wf mb_id strcmp (mealBookings b) ->
  studentId <> [] ->
  bookMeal env date mealType studentId b = (Ok menu, b1) ->
  let booking := meal_booking env date mealType studentId in
  (exists l : list MealBooking,
      getMealBookings studentId date b1 = (Ok l, b1) /\ In booking l /\
      forall x, In x l -> mb_id x = mb_id booking -> x = booking) /\
  (forall x, In x (mealBookings b) -> mb_id x <> mb_id booking ->
             In x (mealBookings b1)) /\
  store_wf mb_id strcmp (mealBookings b1) /\
  (mealType <> [] -> getMessMenu date mealType b1 = (Ok [menu], b1)).
Proof.
  intros W N H. cbn zeta.
  destruct (bookMeal_inv _ _ _ _ _ _ _ H) as (old & G & A & -> & Hm & Hb).
  set (booking := meal_booking env date mealType studentId) in *.
  assert (W1 : store_wf mb_id strcmp (mealBookings b1)).
  { rewrite Hb.
    apply (store_put_wf mb_id strcmp strcmp_eq strcmp_antisym strcmp_trans).
    exact W. }
  assert (Hin : In booking (mealBookings b1)).
  { rewrite Hb. apply In_store_put_new. }
  split; [|split; [|split; [exact W1|]]].
  - eexists. split; [reflexivity|].
    unfold getAllObjects_index.
    destruct studentId as [|c s]; [congruence|]. cbn [truthy].
    assert (X : In booking
                  (filter (fun r => streq (mb_studentId r) (c :: s))
                     (mealBookings b1))).
    { apply filter_In. split; [exact Hin|]. apply streq_refl. }
    split.
    + destruct (truthy date); [|exact X].
      apply filter_In. split; [exact X|]. apply streq_refl.
    + intros x Hx E.
      apply (wf_unique mb_id strcmp strcmp_eq _ x booking W1); auto.
      destruct (truthy date); [apply filter_In in Hx; destruct Hx as [Hx _]|];
        apply filter_In in Hx; tauto.
  - intros x Hx Nx. rewrite Hb.
    apply (In_store_put_old mb_id strcmp strcmp_eq); assumption.
  - intros Nm. unfold getMessMenu.
    destruct mealType as [|c r]; [congruence|]. cbn [truthy].
    unfold bind, getObject_messMenu, gets, ret. rewrite Hm.
    match goal with |- context [store_put _ _ ?m ?s] =>
      pose proof (store_get_put_same m_id strcmp strcmp_eq strcmp_antisym m s)
        as E end.
    cbn [set_bookings m_id] in E.
    apply (store_get_In m_id strcmp strcmp_eq) in G. destruct G as [_ G].
    rewrite G in E. rewrite E. reflexivity.
Qed.

Lemma bookMeal_records_booking_witness :
  exists l : list MealBooking,
    getMealBookings alice_id (js "2023-11-15") booked_backend
      = (Ok l, booked_backend) /\
    In (meal_booking env0 (js "2023-11-15") (js "lunch") alice_id) l.
Proof.
  destruct (bookMeal_records_booking env0 (js "2023-11-15") (js "lunch")
              alice_id mess_backend booked_backend
              (set_bookings [booking_entry env0 alice_id] (Some 1)
                 (nowISO env0) lunch))
    as ((l & H1 & H2 & _) & _).
  - vm_compute. constructor.
  - discriminate.
  - vm_compute. reflexivity.
  - exists l. split; assumption.
Defined.

(** ** Opportunities *)

Lemma In_filter_if {A} (c : bool) (f : A -> bool) (l : list A) (x : A) :
  In x (if c then filter f l else l) <-> In x l /\ (c = false \/ f x = true).
Proof.
  destruct c.
  - rewrite filter_In. split; [intros [H1 H2]; auto|].
    intros [H1 [H2|H2]]; [discriminate | auto].
  - split; [auto | tauto].
Qed.

(** X18: [getCareerOpportunities] changes nothing and returns exactly
    the stored opportunities that pass the given type, status and
    department filters (an opportunity without [eligibleDepartments]
    passes every department) and whose deadline, if it has one, is a date
    strictly after the current instant.  None of them is past its
    deadline by the test of [applyForOpportunity]; but a stored
    opportunity whose deadline is the current instant, or is not a date,
    is left out of the list although that test does not count it as
    past. *)
Theorem getCareerOpportunities_spec (env : Env) (filters : Filters)
    (b : Backend) :
  exists l : list Opportunity,
    getCareerOpportunities env filters b = (Ok l, b) /\
    (forall o, In o l <->
       In o (rows (careerOpportunities b)) /\
       opportunity_listed (now env) filters o) /\
    (forall o, In o l -> is_past (o_deadline o) (now env) = false) /\
    (forall o, In o (rows (careerOpportunities b)) ->
       o_deadline o = Date (now env) \/ o_deadline o = BadDate ->
       ~ In o l /\ is_past (o_deadline o) (now env) = false).
Proof.
  unfold getCareerOpportunities, bind, gets, ret.
  eexists. split; [reflexivity|].
  match goal with |- (forall o, In o ?l <-> _) /\ _ => set (listed := l) end.
  assert (H : forall o,
    In o listed <->
    In o (rows (careerOpportunities b)) /\
    opportunity_listed (now env) filters o).
  { intros o. unfold listed. rewrite In_sort, filter_In, !In_filter_if.
    unfold opportunity_listed. rewrite !truthy_false, !streq_spec.
    assert (D : (match o_eligibleDepartments o with
                 | Some departments =>
                     existsb (fun d => streq d (flt_department filters))
                       departments
                 | None => true
                 end = true) <->
                match o_eligibleDepartments o with
                | Some departments => In (flt_department filters) departments
                | None => True
                end).
    { destruct (o_eligibleDepartments o) as [ds|]; [|tauto].
      rewrite existsb_exists. split.
      - intros [d [Hd S]]. apply streq_spec in S. subst d. exact Hd.
      - intros Hd. exists (flt_department filters). split; [exact Hd|].
        apply streq_refl. }
    rewrite D.
    assert (T : (match o_deadline o with
                 | NoDate => true
                 | BadDate => false
                 | Date ms => now env <? ms
                 end = true) <->
                match o_deadline o with
                | NoDate => True
                | BadDate => False
                | Date ms => now env < ms
                end).
    { destruct (o_deadline o) as [| |ms]; [tauto | split; [discriminate|tauto]|].
      apply Z.ltb_lt. }
    rewrite T. tauto. }
  split; [exact H|]. split.
  - intros o Ho. apply H in Ho. destruct Ho as [_ (_ & _ & _ & Hd)].
    destruct (o_deadline o) as [| |ms]; try reflexivity.
    cbn [is_past]. apply Z.ltb_ge. lia.
  - intros o Ho Hd. split.
    + intros Hl. apply H in Hl. destruct Hl as [_ (_ & _ & _ & X)].
      destruct Hd as [Hd|Hd]; rewrite Hd in X; [lia | exact X].
    + destruct Hd as [Hd|Hd]; rewrite Hd; cbn [is_past];
        [apply Z.ltb_irrefl | reflexivity].
Qed.






(** ** Alerts and the SOS *)

Lemma getActiveAlerts_In (env : Env) (priority : jsstring) (b : Backend)
    (a : Alert) :
  (exists l, getActiveAlerts env priority b = (Ok l, b) /\ In a l) <->
  In a (rows (campusAlerts b)) /\ alert_shown (now env) priority a = true.
Proof.
  unfold getActiveAlerts, bind, gets, ret. split.
  - intros [l [E H]]. injection E as <-. apply In_sort in H.
    unfold alert_shown.
    destruct (truthy priority).
    + apply filter_In in H. destruct H as [H P].
      apply filter_In in H. destruct H as [H Q]. split; [exact H|].
      rewrite P, andb_true_r.
      destruct (al_isActive a); cbn [negb andb] in *; [|discriminate].
      destruct (is_past (al_expiry a) (now env)); [discriminate|reflexivity].
    + apply filter_In in H. destruct H as [H Q]. split; [exact H|].
      rewrite andb_true_r.
      destruct (al_isActive a); cbn [negb andb] in *; [|discriminate].
      destruct (is_past (al_expiry a) (now env)); [discriminate|reflexivity].
  - intros [H S]. eexists. split; [reflexivity|]. apply In_sort.
    unfold alert_shown in S.
    apply andb_true_iff in S. destruct S as [S S3].
    apply andb_true_iff in S. destruct S as [S1 S2].
    apply negb_true_iff in S2.
    assert (F : In a (filter (fun alert =>
                  if negb (al_isActive alert) then false
                  else if is_past (al_expiry alert) (now env) then false
                  else true) (rows (campusAlerts b)))).
    { apply filter_In. split; [exact H|]. rewrite S1, S2. reflexivity. }
    destruct (truthy priority); [|exact F].
    apply filter_In. split; [exact F | exact S3].
Qed.

Lemma createCampusAlert_eq (env : Env) (alertData : AlertData) (b : Backend)
    (cu : PublicUser) :
  currentUser b = Some cu -> ad_id alertData = None ->
  let alert :=
    {| al_id := generator (campusAlerts b);
       al_data := ad_data alertData;
       al_priority := ad_priority alertData;
       al_expiry :=
         match ad_expiry alertData with
         | NoDate => Date (now env + 7 * 24 * 60 * 60 * 1000)
         | expiry => expiry
         end;
       al_isActive := true;
       al_views := 0;
       al_createdAt := now env;
       al_createdBy := u_id cu |} in
  createCampusAlert env alertData b =
  (Ok alert,
   set_activityLog
     (snd (auto_add l_id
             (log_entry env (u_id cu) (js "create_alert")
                (js "Created alert: " ++ ad_title alertData))
             (activityLog b)))
     (set_campusAlerts
        {| rows := store_put al_id Z.compare alert (rows (campusAlerts b));
           generator := generator (campusAlerts b) + 1 |} b)).
Proof.
  intros C N. cbn zeta. unfold createCampusAlert.
  unfold bind at 1. rewrite (getCurrentUser_known b cu C). rewrite N.
  unfold bind at 1. unfold addObject_campusAlerts, auto_add.
  unfold bind at 1. rewrite logActivity_eq. reflexivity.
Qed.

(** X20: with a signed-in user and a well-formed alert store,
    [createCampusAlert] of data without id and expiry stores an active
    alert under the next key, behind the stored ones, with an expiry of
    seven days after the call; [getActiveAlerts] (without a priority)
    lists it at an instant exactly when that instant is not later than
    the expiry, and a run of [performBackgroundSync] after the expiry
    leaves it stored with [isActive] false and its other fields as they
    were, after which [getActiveAlerts] lists no alert of that key at any
    instant. *)
Theorem createCampusAlert_listed_for_a_week (env env' env'' : Env)
    (alertData : AlertData) (b : Backend) (cu : PublicUser) :
  currentUser b = Some cu ->
  auto_wf al_id (campusAlerts b) ->
  ad_id alertData = None -> ad_expiry alertData = NoDate ->
  exists (alert : Alert) (b1 : Backend),
    createCampusAlert env alertData b = (Ok alert, b1) /\
    alert = new_alert env alertData cu (generator (campusAlerts b)) /\
    al_id alert = generator (campusAlerts b) /\
    al_expiry alert = Date (now env + 604800000) /\
    rows (campusAlerts b1) = rows (campusAlerts b) ++ [alert] /\
    auto_wf al_id (campusAlerts b1) /\
    ((exists l, getActiveAlerts env' [] b1 = (Ok l, b1) /\ In alert l) <->
     now env' <= now env + 604800000) /\
    (now env + 604800000 < now env'' ->
     exists (b2 : Backend) (stored : Alert),
       performBackgroundSync env'' b1 = (Ok tt, b2) /\
       store_get al_id Z.compare (rows (campusAlerts b2)) (al_id alert)
         = Some stored /\
       stored = set_isActive false alert /\
       al_isActive stored = false /\
       same_but_isActive alert stored /\
       (forall env3 priority l,
          getActiveAlerts env3 priority b2 = (Ok l, b2) ->
          forall x, In x l -> al_id x <> al_id alert)).
Proof.
  intros C W N E.
  rewrite (createCampusAlert_eq env alertData b cu C N). cbn zeta.
  rewrite E.
  set (alert := {| al_id := generator (campusAlerts b) |}).
  destruct (auto_add_wf al_id
              (fun k => {| al_id := k; al_data := ad_data alertData;
                           al_priority := ad_priority alertData;
                           al_expiry := Date (now env + 7 * 24 * 60 * 60 * 1000);
                           al_isActive := true; al_views := 0;
                           al_createdAt := now env;
                           al_createdBy := u_id cu |})
              (campusAlerts b) (fun k => eq_refl) W) as (Hrows & Hgen & W1).
  unfold auto_add in Hrows, Hgen, W1. cbn [snd] in Hrows, Hgen, W1.
  fold alert in Hrows, W1. cbn [rows] in Hrows.
  eexists. eexists. split; [reflexivity|]. backend_simpl.
  split; [unfold new_alert; rewrite E; reflexivity|].
  split; [reflexivity|]. split; [reflexivity|].
  split; [exact Hrows|]. split; [exact W1|]. split.
  - rewrite getActiveAlerts_In. backend_simpl. rewrite Hrows.
    unfold alert_shown. cbn [alert al_isActive al_expiry is_past truthy andb].
    rewrite andb_true_r. rewrite negb_true_iff, Z.ltb_ge.
    split; [intros [_ H]; lia|].
    intros H. split; [|lia]. apply in_or_app. right. left. reflexivity.
  - intros L.
    match goal with |- context [performBackgroundSync _ ?s] =>
      destruct (performBackgroundSync_alerts env'' s) as (b2 & R & A) end.
    { exact W1. }
    exists b2, (set_isActive false alert). split; [exact R|].
    assert (W2 : store_wf al_id Z.compare (rows (campusAlerts b2))).
    { rewrite A. backend_simpl.
      apply (store_wf_same_keys al_id
               (store_put al_id Z.compare alert (rows (campusAlerts b)))).
      - symmetry. apply map_key_expire.
      - apply W1. }
    assert (G : store_get al_id Z.compare (rows (campusAlerts b2))
                  (al_id alert) = Some (set_isActive false alert)).
    { rewrite A. backend_simpl.
      assert (X : set_isActive false alert = expire (now env'') alert).
      { unfold expire. cbn [alert al_expiry al_isActive is_past].
        replace (now env + 7 * 24 * 60 * 60 * 1000 <? now env'') with true
          by (symmetry; apply Z.ltb_lt; lia).
        reflexivity. }
      rewrite X.
      replace (al_id alert) with (al_id (expire (now env'') alert))
        by apply expire_id.
      apply (store_get_wf_In al_id Z.compare Z_compare_eq).
      + apply (store_wf_same_keys al_id
                 (store_put al_id Z.compare alert (rows (campusAlerts b)))).
        * symmetry. apply map_key_expire.
        * apply W1.
      + apply in_map. rewrite Hrows. apply in_or_app. right. left.
        reflexivity. }
    split; [exact G|]. split; [reflexivity|]. split; [reflexivity|].
    split; [repeat split|].
    intros env3 priority l Hl x Hx Hid.
    destruct (proj1 (getActiveAlerts_In env3 priority b2 x)
                (ex_intro _ l (conj Hl Hx))) as [Hin Hs].
    destruct (store_get_In al_id Z.compare Z_compare_eq _ _ _ G)
      as [Hstored _].
    assert (E' : x = set_isActive false alert).
    { apply (wf_unique al_id Z.compare Z_compare_eq _ x
               (set_isActive false alert) W2); [exact Hin | exact Hstored|].
      exact Hid. }
    rewrite E' in Hs. unfold alert_shown in Hs.
    cbn [set_isActive al_isActive andb] in Hs. discriminate Hs.
Qed.

Lemma createCampusAlert_listed_for_a_week_witness :
  exists (alert : Alert) (b1 : Backend),
    createCampusAlert env0 maintenance_data alerting_backend
      = (Ok alert, b1) /\
    al_id alert = 5 /\
    al_expiry alert = Date 1700604800000 /\
    (exists l, getActiveAlerts env1 [] b1 = (Ok l, b1) /\ In alert l) /\
    exists (b2 : Backend) (stored : Alert),
      performBackgroundSync late_env b1 = (Ok tt, b2) /\
      store_get al_id Z.compare (rows (campusAlerts b2)) (al_id alert)
        = Some stored /\
      al_isActive stored = false /\
      forall l, getActiveAlerts late_env [] b2 = (Ok l, b2) ->
                forall x, In x l -> al_id x <> al_id alert.
Proof.
  destruct (createCampusAlert_listed_for_a_week env0 env1 late_env
              maintenance_data alerting_backend alice_logged_in)
    as (alert & b1 & H1 & _ & Hid & Hex & _ & _ & H6 & H7).
  - vm_compute. reflexivity.
  - split; [unfold store_wf|]; repeat constructor.
  - reflexivity.
  - reflexivity.
  - exists alert, b1. split; [exact H1|]. split; [exact Hid|].
    split; [exact Hex|]. split; [apply H6; cbn; lia|].
    destruct H7 as (b2 & stored & R & G & _ & A & _ & Never);
      [cbn; lia|].
    exists b2, stored. split; [exact R|]. split; [exact G|].
    split; [exact A | exact (Never late_env [])].
Defined.



(** X22: with a signed-in user, [triggerSOS] succeeds and stores an
    active alert of priority 'high' under the next key that expires 30
    minutes after the call and that [getActiveAlerts] for 'high' lists
    until then; the [contacts] it returns are empty whatever the
    emergency contacts stored, since it asks for the contacts whose
    [type] is identical to the array ['security', 'medical']. *)
Theorem triggerSOS_returns_no_contacts
    (localeCompare : jsstring -> jsstring -> Z) (env env' : Env)
    (emergencyContacts : list Contact) (b : Backend) (user : PublicUser) :
  currentUser b = Some user ->
  exists (result : SOSResult) (alert : Alert) (b1 : Backend),
    triggerSOS localeCompare env emergencyContacts b = (Ok result, b1) /\
    sos_success result = true /\
    sos_contacts result = [] /\
    In alert (rows (campusAlerts b1)) /\
    al_id alert = generator (campusAlerts b) /\
    al_priority alert = js "high" /\
    al_isActive alert = true /\
    al_expiry alert = Date (now env + 1800000) /\
    (now env' <= now env + 1800000 ->
     exists l, getActiveAlerts env' (js "high") b1 = (Ok l, b1) /\ In alert l).
Proof.
  intros C. unfold triggerSOS.
  unfold bind at 1. rewrite (getCurrentUser_known b user C).
  unfold bind at 1. rewrite logActivity_eq.
  unfold bind at 1.
  match goal with |- context [createCampusAlert _ _ ?s] =>
    rewrite (createCampusAlert_eq env (sos_alert env user) s user C
               eq_refl) end.
  cbn zeta. backend_simpl.
  unfold bind, getEmergencyContacts, ret.
  cbn [given_type identical sos_alert ad_data ad_priority ad_expiry ad_title].
  rewrite filter_none by reflexivity. cbn [sort_by fold_right].
  eexists. eexists. eexists. split; [reflexivity|].
  cbn [sos_success sos_contacts].
  split; [reflexivity|]. split; [reflexivity|]. backend_simpl.
  split; [apply In_store_put_new|].
  cbn [al_id al_priority al_isActive al_expiry].
  do 4 (split; [reflexivity|]).
  intros L. apply getActiveAlerts_In. backend_simpl.
  split; [apply In_store_put_new|].
  unfold alert_shown. cbn [al_isActive al_expiry al_priority is_past andb].
  replace (now env + 30 * 60 * 1000 <? now env') with false
    by (symmetry; apply Z.ltb_ge; lia).
  reflexivity.
Qed.

Lemma triggerSOS_returns_no_contacts_witness :
  exists (result : SOSResult) (alert : Alert) (b1 : Backend),
    triggerSOS (fun _ _ => 0) env0 [campus_security] session_backend
      = (Ok result, b1) /\
    sos_contacts result = [] /\
    In alert (rows (campusAlerts b1)) /\
    al_priority alert = js "high" /\
    exists l, getActiveAlerts env1 (js "high") b1 = (Ok l, b1) /\ In alert l.
Proof.
  destruct (triggerSOS_returns_no_contacts (fun _ _ => 0) env0 env1
              [campus_security] session_backend alice_logged_in)
    as (result & alert & b1 & H1 & _ & H3 & H4 & _ & H6 & _ & _ & H9).
  - vm_compute. reflexivity.
  - exists result, alert, b1. split; [exact H1|]. split; [exact H3|].
    split; [exact H4|]. split; [exact H6|]. apply H9. cbn. lia.
Defined.


(** ** Attendance records and statistics *)

Lemma stats_of_perm (l l' : list Attendance) :
  Permutation l l' -> stats_of l = stats_of l'.
Proof.
  intros P. unfold stats_of.
  rewrite !(count_status_perm _ l l' P), (Permutation_length P).
  reflexivity.
Qed.

Lemma getAttendanceStats_eq (studentId : jsstring) (b : Backend) :
  getAttendanceStats studentId b =
  (Ok (stats_of (getAllObjects_index at_studentId studentId
                   (rows (attendance b)))), b).
Proof.
  unfold getAttendanceStats.
  unfold bind at 1. unfold getAttendanceForStudent.
  unfold bind at 1. unfold gets at 1. unfold ret at 1.
  set (records := getAllObjects_index _ _ _).
  set (sorted := sort_by _ records).
  assert (P : Permutation sorted records) by apply sort_by_perm.
  rewrite <- (stats_of_perm _ _ P). unfold stats_of.
  destruct (length sorted) as [|n] eqn:E.
  - cbn [Nat.eqb]. unfold ret.
    assert (sorted = []) as ->
      by (destruct sorted; [reflexivity|discriminate]).
    reflexivity.
  - cbn [Nat.eqb]. unfold ret. reflexivity.
Qed.

Section Delete.
Context {R K : Type} (key : R -> K) (cmp : K -> K -> comparison).
Hypothesis cmp_eq : forall a b, cmp a b = Eq <-> a = b.

Lemma filter_all {A} (f : A -> bool) (l : list A) :
  (forall x, In x l -> f x = true) -> filter f l = l.
Proof.
  induction l as [|x l IH]; intros H; cbn [filter]; [reflexivity|].
  rewrite (H x (or_introl eq_refl)). f_equal. apply IH.
  intros y Hy. apply H. right. exact Hy.
Qed.

Lemma store_delete_absent (k : K) (s : list R) :
  store_get key cmp s k = None -> store_delete key cmp k s = s.
Proof.
  intros H. unfold store_delete. apply filter_all. intros x Hx.
  apply negb_true_iff.
  destruct (has_key key cmp k x) eqn:E; [|reflexivity].
  apply (has_key_true key cmp cmp_eq) in E.
  exfalso. exact (store_get_None key cmp cmp_eq s k H x Hx E).
Qed.

Lemma store_delete_get (k : K) (s : list R) :
  store_get key cmp (store_delete key cmp k s) k = None.
Proof.
  unfold store_get, store_delete.
  destruct (find _ (filter _ s)) as [x|] eqn:E; [|reflexivity].
  apply find_some in E. destruct E as [E1 E2].
  apply filter_In in E1. destruct E1 as [_ E1].
  rewrite E2 in E1. discriminate.
Qed.

Lemma store_delete_perm (r : R) (s : list R) :
  store_wf key cmp s -> In r s ->
  Permutation s (r :: store_delete key cmp (key r) s).
Proof.
  induction s as [|x s IH]; intros W Hr; [destruct Hr|].
  pose proof (wf_inv key cmp _ _ W) as [W' F].
  unfold store_delete. cbn [filter]. fold (store_delete key cmp (key r) s).
  destruct (has_key key cmp (key r) x) eqn:E; cbn [negb].
  - apply (has_key_true key cmp cmp_eq) in E.
    assert (x = r).
    { apply (wf_unique key cmp cmp_eq (x :: s) x r W);
        [left; reflexivity | exact Hr | exact E]. }
    subst x. constructor.
    unfold store_delete. rewrite filter_all; [reflexivity|].
    intros y Hy. apply negb_true_iff.
    destruct (has_key key cmp (key r) y) eqn:Ey; [|reflexivity].
    apply (has_key_true key cmp cmp_eq) in Ey.
    rewrite Forall_forall in F. specialize (F y Hy). unfold key_lt in F.
    rewrite Ey in F. rewrite (proj2 (cmp_eq _ _) eq_refl) in F.
    discriminate.
  - destruct Hr as [->|Hr].
    + rewrite (proj2 (has_key_true key cmp cmp_eq (key r) r) eq_refl) in E.
      discriminate.
    + rewrite (IH W' Hr) at 1. apply perm_swap.
Qed.

Lemma store_delete_wf (k : K) (s : list R) :
  store_wf key cmp s -> store_wf key cmp (store_delete key cmp k s).
Proof.
  induction s as [|x s IH]; intros W; [constructor|].
  pose proof (wf_inv key cmp _ _ W) as [W' F].
  unfold store_delete. cbn [filter]. fold (store_delete key cmp k s).
  destruct (negb (has_key key cmp k x)); [|apply IH; exact W'].
  constructor; [apply IH; exact W'|].
  rewrite Forall_forall in F. apply Forall_forall. intros y Hy.
  apply F. unfold store_delete in Hy. apply filter_In in Hy. tauto.
Qed.
End Delete.

(** X23: [getUserStats] changes nothing and agrees with the other
    readers: its attendance count, present count and percentage are the
    ones of [getAttendanceStats], its meal bookings count is the number of
    bookings [getMealBookings] returns for the user, and its recent
    activity count (at most 10) and last activity are the length and the
    first timestamp of [getUserActivity] with limit 10. *)
Theorem getUserStats_agrees (userId : jsstring) (b : Backend) :
  exists (us : UserStats) (stats : Stats) (bookings : list MealBooking)
         (activity : list LogEntry),
    getUserStats userId b = (Ok us, b) /\
    getAttendanceStats userId b = (Ok stats, b) /\
    getMealBookings userId [] b = (Ok bookings, b) /\
    getUserActivity userId 10 b = (Ok activity, b) /\
    us_attendanceCount us = st_total stats /\
    us_presentCount us = st_present stats /\
    us_attendancePercentage us = st_percentage stats /\
    us_mealBookingsCount us = Z.of_nat (length bookings) /\
    us_recentActivityCount us = Z.of_nat (length activity) /\
    us_recentActivityCount us <= 10 /\
    us_lastActivity us = option_map l_timestamp (hd_error activity).
Proof.
  rewrite getAttendanceStats_eq.
  unfold getUserStats, getUserActivity, getMealBookings, bind, gets, ret.
  cbn [truthy].
  eexists. eexists. eexists. eexists.
  split; [reflexivity|]. split; [reflexivity|]. split; [reflexivity|].
  split; [reflexivity|].
  cbn [us_attendanceCount us_presentCount us_attendancePercentage
       us_mealBookingsCount us_recentActivityCount us_lastActivity
       stats_of st_total st_present st_percentage].
  unfold countObjects_index, getAllObjects_index.
  assert (L : forall {R} (f : R -> jsstring) (s : list R),
            length (sort_by (index_le f) s) = length s).
  { intros R f s. apply Permutation_length. apply sort_by_perm. }
  split; [destruct (truthy userId); [reflexivity | rewrite L; reflexivity]|].
  split; [reflexivity|]. split.
  - set (records := if truthy userId then _ else _).
    destruct records as [|x r]; reflexivity.
  - split; [destruct (truthy userId); [reflexivity | rewrite L; reflexivity]|].
    split; [reflexivity|]. split; [|reflexivity].
    unfold slice_to. cbn [Z.ltb Z.compare]. rewrite length_firstn. lia.
Qed.

Lemma count_status_app (status : string) (l1 l2 : list Attendance) :
  count_status status (l1 ++ l2)
  = count_status status l1 + count_status status l2.
Proof.
  unfold count_status. rewrite filter_app, length_app. lia.
Qed.

Lemma markAttendance_eq (env : Env) (localTime : jsstring)
    (data : AttendanceData) (b : Backend) (cu : PublicUser) :
  currentUser b = Some cu ->
  let record k :=
    {| at_id := k;
       at_studentId := atd_studentId data;
       at_date := match atd_date data with Some d => d | None => today env end;
       at_subject := atd_subject data;
       at_status := or_else (atd_status data) (js "present");
       at_time := or_else (atd_time data) localTime;
       at_markedBy := u_id cu;
       at_timestamp := nowISO env;
       at_semester := atd_semester data;
       at_branch := atd_branch data;
       at_remarks := or_else (atd_remarks data) [] |} in
  markAttendance env localTime data b =
  (Ok record,
   set_activityLog
     (snd (auto_add l_id
             (log_entry env (u_id cu) (js "mark_attendance")
                (js "Marked " ++ or_else (atd_status data) (js "present")
                    ++ js " for " ++ atd_studentId data))
             (activityLog b)))
     (set_attendance (snd (auto_add at_id record (attendance b))) b)).
Proof.
  intros C. cbn zeta. unfold markAttendance.
  unfold bind at 1. rewrite (getCurrentUser_known b cu C).
  unfold bind at 1. unfold addObject_attendance, auto_add.
  unfold bind at 1. rewrite logActivity_eq. reflexivity.
Qed.

(** X24: with a signed-in user and a well-formed attendance store,
    [markAttendance] for a non-empty student id stores one record under
    the next key, behind the stored ones, marked by the signed-in user
    and, when no date is given, dated at the start of the current UTC
    day; [getAttendanceStats] of that student then counts one record
    more, and one more present exactly when the given status is 'present'
    or empty, and the statistics of every other student are as before. *)
Theorem markAttendance_is_counted (env : Env) (localTime : jsstring)
    (data : AttendanceData) (b : Backend) (cu : PublicUser) :
  currentUser b = Some cu ->
  auto_wf at_id (attendance b) ->
  atd_studentId data <> [] ->
  exists (record : Z -> Attendance) (b1 : Backend) (stats stats1 : Stats),
    markAttendance env localTime data b = (Ok record, b1) /\
    record = new_attendance env localTime data cu /\
    rows (attendance b1)
      = rows (attendance b) ++ [record (generator (attendance b))] /\
    at_markedBy (record 0) = u_id cu /\
    (atd_date data = None ->
     at_date (record 0) <= now env < at_date (record 0) + 86400000 /\
     at_date (record 0) mod 86400000 = 0) /\
    getAttendanceStats (atd_studentId data) b = (Ok stats, b) /\
    getAttendanceStats (atd_studentId data) b1 = (Ok stats1, b1) /\
    st_total stats1 = st_total stats + 1 /\
    st_present stats1 =
      st_present stats
      + (if streq (atd_status data) (js "present")
            || negb (truthy (atd_status data)) then 1 else 0) /\
    (forall other, other <> [] -> other <> atd_studentId data ->
       fst (getAttendanceStats other b1) = fst (getAttendanceStats other b)).
Proof.
  intros C W N.
  rewrite (markAttendance_eq env localTime data b cu C). cbn zeta.
  set (record := fun k : Z => {| at_id := k |}).
  destruct (auto_add_wf at_id record (attendance b) (fun k => eq_refl) W)
    as (Hrows & Hgen & W1).
  match goal with |- exists _ _ _ _, (_, ?s) = _ /\ _ =>
    exists record, s end.
  rewrite !getAttendanceStats_eq.
  eexists. eexists.
  split; [reflexivity|]. backend_simpl.
  split; [reflexivity|].
  split; [exact Hrows|]. split; [reflexivity|]. split.
  { intros Hd. cbn [record at_date]. rewrite Hd. unfold today.
    pose proof (Z.mod_pos_bound (now env) 86400000 eq_refl) as Hm.
    split; [lia|].
    rewrite Zminus_mod, Zmod_mod, Z.sub_diag. reflexivity. }
  split; [reflexivity|]. split; [reflexivity|].
  rewrite Hrows. unfold getAllObjects_index.
  destruct (atd_studentId data) as [|c s] eqn:Es; [congruence|].
  cbn [truthy]. rewrite filter_app. cbn [filter record at_studentId].
  rewrite ?Es, streq_refl.
  unfold stats_of. cbn [st_total st_present].
  rewrite length_app, count_status_app. cbn [length].
  split; [lia|]. split.
  - f_equal. unfold count_status. cbn [filter at_status].
    unfold or_else.
    destruct (atd_status data) as [|c' s']; cbn [truthy negb orb].
    + rewrite streq_refl. reflexivity.
    + rewrite orb_false_r.
      change (streq (at_status (record (generator (attendance b))))
                (js "present"))
        with (streq (c' :: s') (js "present")).
      destruct (streq (c' :: s') (js "present")); reflexivity.
  - intros other No Nd. rewrite !getAttendanceStats_eq. cbn [fst].
    backend_simpl. rewrite Hrows.
    unfold getAllObjects_index.
    destruct other as [|c' s']; [congruence|]. cbn [truthy].
    rewrite filter_app. cbn [filter record at_studentId].
    rewrite ?Es, (streq_neq (c :: s) (c' :: s')) by congruence.
    rewrite app_nil_r. reflexivity.
Qed.

Lemma markAttendance_is_counted_witness :
  exists (record : Z -> Attendance) (b1 : Backend) (stats stats1 : Stats),
    markAttendance env1 (js "10:14:20 PM") late_data marking_backend
      = (Ok record, b1) /\
    at_date (record 0) = 1699920000000 /\
    getAttendanceStats bob_id marking_backend = (Ok stats, marking_backend) /\
    getAttendanceStats bob_id b1 = (Ok stats1, b1) /\
    st_total stats1 = st_total stats + 1 /\
    st_present stats1 = st_present stats + 0.
Proof.
  destruct (markAttendance_is_counted env1 (js "10:14:20 PM") late_data
              marking_backend alice_logged_in)
    as (record & b1 & stats & stats1 & H1 & Hr & _ & _ & _ & H5 & H6 & H7
        & H8 & _).
  - vm_compute. reflexivity.
  - split; [unfold store_wf|]; repeat constructor.
  - discriminate.
  - exists record, b1, stats, stats1. split; [exact H1|].
    split; [rewrite Hr; reflexivity|]. split; [exact H5|].
    split; [exact H6|]. split; [exact H7 | exact H8].
Defined.

Lemma deleteAttendance_eq (env : Env) (attendanceId : Z) (b : Backend)
    (cu : PublicUser) :
  currentUser b = Some cu ->
  deleteAttendance env attendanceId b =
  (Ok true,
   set_activityLog
     (snd (auto_add l_id
             (log_entry env (u_id cu) (js "delete_attendance")
                (js "Deleted attendance record " ++ dec attendanceId))
             (activityLog b)))
     (set_attendance
        {| rows := store_delete at_id Z.compare attendanceId
                     (rows (attendance b));
           generator := generator (attendance b) |} b)).
Proof.
  intros C. unfold deleteAttendance.
  unfold bind at 1. rewrite (getCurrentUser_known b cu C).
  unfold bind at 1. unfold deleteObject_attendance, bind, modify, ret.
  rewrite logActivity_eq. reflexivity.
Qed.

Lemma filter_perm {A} (f : A -> bool) (l l' : list A) :
  Permutation l l' -> Permutation (filter f l) (filter f l').
Proof.
  intros P. induction P; cbn [filter].
  - constructor.
  - destruct (f x); [constructor|]; assumption.
  - destruct (f x), (f y); try reflexivity. apply perm_swap.
  - etransitivity; eassumption.
Qed.

(** X25: with a signed-in user and a well-formed attendance store,
    [deleteAttendance] returns true and logs the call whether or not a
    record has the key: afterwards no record has it, the key generator is
    unchanged, and the store is the same
    when there was none; when there was one, the other records are all
    kept and [getAttendanceStats] of its student counts one record less,
    and one present less exactly when its status was 'present'. *)
Theorem deleteAttendance_removes_record (env : Env) (attendanceId : Z)
    (b : Backend) (cu : PublicUser) :
  currentUser b = Some cu ->
  auto_wf at_id (attendance b) ->
  exists b1 : Backend,
    deleteAttendance env attendanceId b = (Ok true, b1) /\
    store_get at_id Z.compare (rows (attendance b1)) attendanceId = None /\
    auto_wf at_id (attendance b1) /\
    generator (attendance b1) = generator (attendance b) /\
    activityLog b1 =
      snd (auto_add l_id
             (log_entry env (u_id cu) (js "delete_attendance")
                (js "Deleted attendance record " ++ dec attendanceId))
             (activityLog b)) /\
    (store_get at_id Z.compare (rows (attendance b)) attendanceId = None ->
     attendance b1 = attendance b) /\
    (forall record stats stats1,
       store_get at_id Z.compare (rows (attendance b)) attendanceId
         = Some record ->
       at_studentId record <> [] ->
       getAttendanceStats (at_studentId record) b = (Ok stats, b) ->
       getAttendanceStats (at_studentId record) b1 = (Ok stats1, b1) ->
       Permutation (rows (attendance b)) (record :: rows (attendance b1)) /\
       st_total stats1 = st_total stats - 1 /\
       st_present stats1 =
         st_present stats
         - (if streq (at_status record) (js "present") then 1 else 0)).
Proof.
  intros C [W G].
  rewrite (deleteAttendance_eq env attendanceId b cu C).
  eexists. split; [reflexivity|]. backend_simpl.
  split; [apply store_delete_get|]. split.
  { split; cbn [rows generator].
    - apply store_delete_wf. exact W.
    - rewrite Forall_forall in G. apply Forall_forall. intros x Hx.
      apply G. unfold store_delete in Hx. apply filter_In in Hx. tauto. }
  split; [reflexivity|]. split; [reflexivity|].
  split.
  - intros H. rewrite (store_delete_absent at_id Z.compare Z_compare_eq _ _ H).
    destruct (attendance b); reflexivity.
  - intros record stats stats1 H N.
    rewrite !getAttendanceStats_eq. backend_simpl.
    intros E E1. injection E as <-. injection E1 as <-.
    destruct (store_get_In at_id Z.compare Z_compare_eq _ _ _ H) as [Hin Hk].
    pose proof (store_delete_perm at_id Z.compare Z_compare_eq record _ W Hin)
      as P.
    rewrite Hk in P. split; [exact P|].
    set (f := fun r => streq (at_studentId r) (at_studentId record)).
    assert (Pf : Permutation (filter f (rows (attendance b)))
                   (record :: filter f
                      (store_delete at_id Z.compare attendanceId
                         (rows (attendance b))))).
    { apply (filter_perm f) in P. cbn [filter] in P. unfold f at 2 in P.
      rewrite streq_refl in P. exact P. }
    unfold getAllObjects_index.
    destruct (at_studentId record) as [|c s] eqn:Es; [congruence|].
    cbn [truthy]. fold f.
    rewrite (stats_of_perm _ _ Pf). unfold stats_of.
    cbn [st_total st_present length].
    split; [lia|].
    change (record :: filter f (store_delete at_id Z.compare attendanceId
                                  (rows (attendance b))))
      with ([record] ++ filter f (store_delete at_id Z.compare attendanceId
                                    (rows (attendance b)))).
    rewrite count_status_app. unfold count_status at 2. cbn [filter].
    destruct (streq (at_status record) (js "present")); cbn [length]; lia.
Qed.

Lemma deleteAttendance_removes_record_witness :
  exists b1 : Backend,
    deleteAttendance env1 3 marking_backend = (Ok true, b1) /\
    store_get at_id Z.compare (rows (attendance b1)) 3 = None /\
    generator (attendance b1) = 6 /\
    forall stats stats1 : Stats,
      getAttendanceStats bob_id marking_backend
        = (Ok stats, marking_backend) ->
      getAttendanceStats bob_id b1 = (Ok stats1, b1) ->
      st_total stats1 = st_total stats - 1.
Proof.
  destruct (deleteAttendance_removes_record env1 3 marking_backend
              alice_logged_in)
    as (b1 & H1 & H2 & _ & H4 & _ & _ & H7).
  - vm_compute. reflexivity.
  - split; [unfold store_wf|]; repeat constructor.
  - exists b1. split; [exact H1|]. split; [exact H2|]. split; [exact H4|].
    intros stats stats1 E E1.
    apply (H7 (sample_attendance 3 bob_id 1699920000000 "late") stats stats1
             eq_refl); [discriminate | exact E | exact E1].
Defined.

